(** * Stripe / Telegram access manager: a shallow embedding

    The program is an Express application with three groups of handlers:
    the Telegram text handlers (linking an account id to an e-mail), the
    Stripe webhook (removing the linked account from the group on a
    revoking event) and the admin dashboard.  Two revisions of the
    application file are modelled: [Part000] (the revision with the
    dashboard and the outer try/catch of the webhook) and [AppJs] (app.js).

    External services (PostgreSQL, the Telegram Bot API, the Stripe client)
    are not part of the program.  Their answers are inputs: the record
    [Env] holds them, the relational table and the state of the Telegram
    group are fields of [World], and every call the program issues is
    appended to [trace]. *)

From Stdlib Require Import ZArith NArith List Bool String Ascii Lia Permutation.
Import ListNotations.

Set Implicit Arguments.

(* ================================================================== *)
(** ** JavaScript strings: sequences of UTF-16 code units *)

Module Js.

Definition jsstring := list N.

(** An ASCII literal of the source as a JavaScript string. *)
Definition js (s : string) : jsstring :=
  map N_of_ascii (list_ascii_of_string s).

Fixpoint eqb (a b : jsstring) : bool :=
  match a, b with
  | [], [] => true
  | x :: a', y :: b' => N.eqb x y && eqb a' b'
  | _, _ => false
  end.

(** [isPrefix p s]: [s.startsWith(p)]. *)
Fixpoint isPrefix (p s : jsstring) : bool :=
  match p, s with
  | [], _ => true
  | x :: p', y :: s' => N.eqb x y && isPrefix p' s'
  | _ :: _, [] => false
  end.

Definition startsWith (s p : jsstring) : bool := isPrefix p s.

(** [includes s p]: [s.includes(p)], a substring test. *)
Fixpoint includes (s p : jsstring) : bool :=
  isPrefix p s ||
  match s with
  | [] => false
  | _ :: s' => includes s' p
  end.

(** ECMAScript WhiteSpace and LineTerminator code points, the ones
    [String.prototype.trim] strips. *)
Definition isWhiteSpace (c : N) : bool :=
  existsb (N.eqb c)
    [0x9; 0xA; 0xB; 0xC; 0xD; 0x20; 0xA0; 0x1680; 0x2028; 0x2029;
     0x202F; 0x205F; 0x3000; 0xFEFF]%N
  || (N.leb 0x2000 c && N.leb c 0x200A).

Fixpoint trimStart (s : jsstring) : jsstring :=
  match s with
  | [] => []
  | c :: s' => if isWhiteSpace c then trimStart s' else s
  end.

Definition trimEnd (s : jsstring) : jsstring := rev (trimStart (rev s)).

Definition trim (s : jsstring) : jsstring := trimEnd (trimStart s).

(** Truthiness of a value that is a string, [null] or [undefined]. *)
Definition truthy (v : option jsstring) : bool :=
  match v with
  | Some (_ :: _) => true
  | _ => false
  end.

(** [v || null] for such a value. *)
Definition orNull (v : option jsstring) : option jsstring :=
  if truthy v then v else None.

End Js.

Import Js.

(* ================================================================== *)
(** ** The relational store *)

(** A row of [telegram_users].  [joined_at] is the value of the column of
    that name, [None] where the table has no such column or holds NULL. *)
Record Row := mkRow {
  telegram_id : Z;
  email : jsstring;
  joined_at : option Z
}.

Record Table := mkTable {
  columns : list string;
  rows : list Row
}.

(** PostgreSQL's [LOWER] in a database whose locale is C: the ASCII
    letters are folded, every other code unit is left as it is.  What
    [LOWER] does in general depends on the locale of the database: it is
    the field [LOWER] of [Env] below, and this function is the one the
    example worlds use. *)
Definition pg_lower_unit (c : N) : N :=
  if (N.leb 65 c && N.leb c 90)%N then (c + 32)%N else c.

Definition pg_lower (s : jsstring) : jsstring := map pg_lower_unit s.

Inductive StoreError :=
| ConnectFailed          (* pool.connect() rejected *)
| UndefinedTable         (* relation "telegram_users" does not exist *)
| UndefinedColumn        (* column "joined_at" does not exist *)
| UniqueViolation.       (* telegram_users_email_key *)

Definition hasColumn (c : string) (t : Table) : bool :=
  existsb (String.eqb c) (columns t).

(** The table [CREATE TABLE IF NOT EXISTS telegram_users (telegram_id
    BIGINT PRIMARY KEY, email TEXT UNIQUE NOT NULL)] creates. *)
Definition created_table : Table :=
  mkTable ["telegram_id"; "email"]%string [].

Definition sql_create_if_not_exists (d : option Table) : option Table :=
  match d with
  | None => Some created_table
  | Some t => Some t
  end.

(** [INSERT INTO telegram_users (telegram_id, email) VALUES ($1, $2)
     ON CONFLICT (telegram_id) DO UPDATE SET email = EXCLUDED.email].
    The statement names two columns: a [joined_at] column, where the table
    has one, takes its default, [dflt]. *)
Definition insert_default (dflt : option Z) (t : Table) : option Z :=
  if hasColumn "joined_at" t then dflt else None.

Definition owned_by_other (id : Z) (em : jsstring) (r : Row) : bool :=
  negb (Z.eqb (telegram_id r) id) && Js.eqb (email r) em.

Definition set_email (id : Z) (em : jsstring) (r : Row) : Row :=
  if Z.eqb (telegram_id r) id
  then mkRow (telegram_id r) em (joined_at r)
  else r.

Definition sql_upsert (dflt : option Z) (id : Z) (em : jsstring) (t : Table)
  : StoreError + Table :=
  if existsb (owned_by_other id em) (rows t) then inl UniqueViolation
  else if existsb (fun r => Z.eqb (telegram_id r) id) (rows t)
  then inr (mkTable (columns t) (map (set_email id em) (rows t)))
  else inr (mkTable (columns t)
              (rows t ++ [mkRow id em (insert_default dflt t)])).

(** [SELECT email FROM telegram_users WHERE telegram_id = $1].  A query
    without ORDER BY hands the rows back in the order of the table. *)
Definition sql_select_email (id : Z) (t : Table) : list Row :=
  filter (fun r => Z.eqb (telegram_id r) id) (rows t).

(** [SELECT telegram_id FROM telegram_users WHERE LOWER(email) = LOWER($1)],
    with [lower] the [LOWER] of the database. *)
Definition sql_select_id (lower : jsstring -> jsstring) (em : jsstring)
    (t : Table) : list Row :=
  filter (fun r => Js.eqb (lower (email r)) (lower em)) (rows t).

(** [ORDER BY joined_at ASC] puts NULL last, [DESC] puts it first. *)
Definition joined_le (a b : option Z) : bool :=
  match a, b with
  | _, None => true
  | None, Some _ => false
  | Some x, Some y => Z.leb x y
  end.

Definition order_le (desc : bool) (a b : Row) : bool :=
  if desc then joined_le (joined_at b) (joined_at a)
  else joined_le (joined_at a) (joined_at b).

Fixpoint insert_sorted (desc : bool) (r : Row) (l : list Row) : list Row :=
  match l with
  | [] => [r]
  | x :: l' =>
      if order_le desc r x then r :: l else x :: insert_sorted desc r l'
  end.

Fixpoint sort_rows (desc : bool) (l : list Row) : list Row :=
  match l with
  | [] => []
  | r :: l' => insert_sorted desc r (sort_rows desc l')
  end.

(** [SELECT * FROM telegram_users ORDER BY joined_at ASC|DESC]. *)
Definition sql_select_all (desc : bool) (t : Table) : StoreError + list Row :=
  if hasColumn "joined_at" t then inr (sort_rows desc (rows t))
  else inl UndefinedColumn.

(* ================================================================== *)
(** ** Requests, responses, external answers *)

(** [event.data?.object]: the two fields the handler reads, each a string,
    or [None] for null / undefined. *)
Record DataObject := mkDataObject {
  customer_email : option jsstring;
  customer : option jsstring
}.

(** A parsed Stripe event: [event.type] and [event.data?.object]. *)
Record Event := mkEvent {
  ev_type : option jsstring;
  data_object : option DataObject
}.

(** What [JSON.parse] (also the one inside [constructEvent]) returns: the
    body "null" parses to [null], whose [data] cannot be read; every other
    JSON value is read through [event.type] and [event.data?.object]. *)
Inductive Parsed :=
| ParsedNull
| ParsedEvent (event : Event).

Record WebhookRequest := mkWebhookRequest {
  raw_body : list N;                         (* req.body, a Buffer *)
  stripe_signature : option jsstring         (* req.headers["stripe-signature"] *)
}.

(** A value of [req.query]: absent, a string, or an array / nested object. *)
Inductive QueryValue :=
| QUndefined
| QString (s : jsstring)
| QStructured.

Record DashboardRequest := mkDashboardRequest {
  q_token : QueryValue;
  q_order : QueryValue
}.

(** A Telegram text update: [ctx.from?.id] and [ctx.message.text]. *)
Record TextUpdate := mkTextUpdate {
  from_id : option Z;
  message_text : jsstring
}.

Inductive SortOrder := ASC | DESC.

Inductive Body :=
| BodyOK                         (* "OK" *)
| BodyInvalidSignature           (* "Invalid signature" *)
| BodyWebhookError               (* "Webhook error" *)
| BodyForbidden                  (* "Forbidden - Invalid Token" *)
| BodyErrorLoadingDashboard      (* "Error loading dashboard" *)
| BodyBadRequest                 (* "Bad Request" *)
| BodyDashboard (token : QueryValue) (oppositeOrder : SortOrder)
                (listed : list Row). (* the HTML page, by what fills it *)

Record Response := mkResponse {
  status : Z;
  body : Body
}.

(** What a Telegram Bot API call answers: success, or an error whose
    [response?.description] is a string or missing. *)
Inductive ApiAnswer :=
| ApiOk
| ApiError (description : option jsstring).

Inductive Exn :=
| ExnStore (e : StoreError)
| ExnTelegram (description : option jsstring)
| ExnStripe
| ExnParse
| ExnType.      (* TypeError: cannot read properties of null *)

Inductive Severity :=
| SevLog        (* console.log *)
| SevWarn       (* console.warn *)
| SevError.     (* console.error *)

Inductive LogMsg :=
| MsgAttemptedRemove (id : Z)    (* "Attempted to remove Telegram user .. from group" *)
| MsgRemoved (id : Z)            (* "Removed Telegram user .. from group" *)
| MsgNotInGroup (id : Z)         (* "User .. not in group, skipping removal." *)
| MsgFailedRemove (id : Z) (err : Exn)  (* "Failed to remove Telegram user ..:" *)
| MsgSignatureFailed             (* "Stripe signature verification failed:" *)
| MsgStripeWebhookError          (* "Stripe webhook error:" *)
| MsgFetchCustomerFailed         (* "Failed to fetch customer email:" *)
| MsgNoEmail                     (* "No email found in webhook event, ignoring." *)
| MsgNoTelegramId (em : jsstring)  (* "No Telegram ID found for email .., ignoring." *)
| MsgAttempting (id : Z) (em : jsstring) (* "Attempting to remove Telegram user .. for email .." *)
| MsgRemoving (id : Z) (em : jsstring)   (* "Removing Telegram user .. for email .." *)
| MsgWebhookHandlerError (err : Exn)     (* "Webhook Handler Error:" *)
| MsgDashboardError (err : Exn)          (* "Error rendering dashboard:" *)
| MsgTelegramWebhookError (err : Exn).   (* "Telegram webhook error:" *)

Inductive Reply :=
| ReplyCouldNotIdentify                  (* "Could not identify user." *)
| ReplyGuidance                          (* "Please use /start to begin or send ..." *)
| ReplyAlreadyLinked (existing : jsstring) (* "Already linked to: ${existing} ..." *)
| ReplyLinked (text : jsstring)          (* "Linked '${text}' successfully. ..." *)
| ReplyStartLinked (em : jsstring)       (* "You're already linked to: ${email}" *)
| ReplyStartHello                        (* "Hello! Please use this link ..." *)
| ReplyYourEmail (em : jsstring)         (* "Your linked email: ${email}" *)
| ReplyNoEmailLinked.                    (* "No email linked. ..." *)

Inductive Query :=
| QCreateTable
| QUpsert (id : Z) (em : jsstring)
| QSelectEmail (id : Z)
| QSelectId (em : jsstring)
| QSelectAll (o : SortOrder).

(** The calls the program issues, in the order it issues them. *)
Inductive Effect :=
| EConnect                           (* pool.connect() handed out a client *)
| ERelease                           (* client.release() *)
| EQuery (q : Query)                 (* client.query(...) *)
| EBan (id : Z)                      (* bot.telegram.banChatMember(GROUP, id) *)
| EUnban (id : Z)                    (* bot.telegram.unbanChatMember(GROUP, id) *)
| ERetrieve (cust : jsstring)        (* stripe.customers.retrieve(cust) *)
| EReply (r : Reply)                 (* ctx.reply(...) *)
| ELog (sev : Severity) (m : LogMsg).

(** The answers of the outside world during one request.  [Tg] is the
    state of the Telegram group, whatever the provider keeps. *)
Record Env (Tg : Type) := mkEnv {
  verifySignature : bool;            (* VERIFY_STRIPE_SIGNATURE === "true" *)
  constructEvent : list N -> option jsstring -> option Parsed; (* None: throws *)
  JSON_parse : list N -> option Parsed;                       (* None: throws *)
  customers_retrieve : jsstring -> option (option jsstring);
     (* None: throws; Some e: a customer whose [email] is e *)
  pool_connect : bool;               (* pool.connect() resolves; false: rejects *)
  joined_at_default : option Z;      (* column default on insert *)
  banChatMember : Z -> Tg -> ApiAnswer * Tg;
  unbanChatMember : Z -> Tg -> ApiAnswer * Tg;
  sendMessage : Reply -> bool;       (* ctx.reply resolves *)
  DASHBOARD_ACCESS_TOKEN : option jsstring; (* process.env, maybe undefined *)
  LOWER : jsstring -> jsstring       (* SQL LOWER, in the database's locale *)
}.

Record World (Tg : Type) := mkWorld {
  db : option Table;                 (* telegram_users, if it exists *)
  group : Tg;
  trace : list Effect
}.

(* ================================================================== *)
(** ** A state-and-exception monad for the async handlers *)

Inductive Result (A : Type) :=
| Ok (a : A)
| Throw (e : Exn).

Arguments Ok {A} a.
Arguments Throw {A} e.

Definition M (Tg A : Type) := World Tg -> Result A * World Tg.

Definition ret {Tg A} (a : A) : M Tg A := fun w => (Ok a, w).

Definition throw {Tg A} (e : Exn) : M Tg A := fun w => (Throw e, w).

Definition bind {Tg A B} (m : M Tg A) (k : A -> M Tg B) : M Tg B :=
  fun w =>
    match m w with
    | (Ok a, w') => k a w'
    | (Throw e, w') => (Throw e, w')
    end.

(** [try { m } catch (err) { h err }]. *)
Definition try_catch {Tg A} (m : M Tg A) (h : Exn -> M Tg A) : M Tg A :=
  fun w =>
    match m w with
    | (Ok a, w') => (Ok a, w')
    | (Throw e, w') => h e w'
    end.

Declare Scope js_scope.
Delimit Scope js_scope with js.
Notation "x <- m ;; k" := (bind m (fun x => k))
  (at level 100, m at next level, right associativity) : js_scope.
Notation "m ;; k" := (bind m (fun _ => k))
  (at level 100, right associativity) : js_scope.
Open Scope js_scope.

Definition emit {Tg} (e : Effect) : M Tg unit :=
  fun w => (Ok tt, mkWorld (db w) (group w) (trace w ++ [e])).

Definition console {Tg} (sev : Severity) (m : LogMsg) : M Tg unit :=
  emit (ELog sev m).

(** [await ctx.reply(r)]. *)
Definition reply {Tg} (env : Env Tg) (r : Reply) : M Tg unit :=
  emit (EReply r) ;;
  if sendMessage env r then ret tt else throw (ExnTelegram None).

(** [try { m } finally { f }]. *)
Definition finally {Tg A} (m : M Tg A) (f : M Tg unit) : M Tg A :=
  fun w =>
    match m w with
    | (r, w') =>
        match f w' with
        | (Ok _, w'') => (r, w'')
        | (Throw e, w'') => (Throw e, w'')
        end
    end.

(** [await pool.connect()]: the client stays checked out of the pool until
    it is released.  The two answers are those of a call that settles: a
    pool whose clients are all checked out (ten of them, by the default of
    [new Pool]) queues the call until one is released, and a handler that
    waits there has no result. *)
Definition connect {Tg} (env : Env Tg) : M Tg unit :=
  if pool_connect env then emit EConnect else throw (ExnStore ConnectFailed).

(** [client.release()]. *)
Definition release {Tg} : M Tg unit := emit ERelease.

Definition set_db {Tg} (t : Table) : M Tg unit :=
  fun w => (Ok tt, mkWorld (Some t) (group w) (trace w)).

(** A statement on [telegram_users], failing when the table is missing. *)
Definition with_table {Tg A} (f : Table -> M Tg A) : M Tg A :=
  fun w =>
    match db w with
    | Some t => f t w
    | None => (Throw (ExnStore UndefinedTable), w)
    end.

Definition telegram_call {Tg} (e : Effect) (f : Tg -> ApiAnswer * Tg) : M Tg unit :=
  emit e ;;
  fun w =>
    match f (group w) with
    | (ApiOk, g) => (Ok tt, mkWorld (db w) g (trace w))
    | (ApiError d, g) => (Throw (ExnTelegram d), mkWorld (db w) g (trace w))
    end.

(* ================================================================== *)
(** ** Store access functions (the same text in both revisions) *)

Definition initDb {Tg} (env : Env Tg) : M Tg unit :=
  connect env ;;
  finally
    (emit (EQuery QCreateTable) ;;
     fun w => (Ok tt, mkWorld (sql_create_if_not_exists (db w)) (group w) (trace w)))
    release.

Definition insertOrUpdateUser {Tg} (env : Env Tg) (telegramId : Z)
    (email : jsstring) : M Tg bool :=
  connect env ;;
  finally
    (emit (EQuery (QUpsert telegramId email)) ;;
     with_table (fun t =>
       match sql_upsert (joined_at_default env) telegramId email t with
       | inl e => throw (ExnStore e)
       | inr t' => set_db t' ;; ret true
       end))
    release.

(** [res.rows[0]?.email || null]. *)
Definition getEmailByUser {Tg} (env : Env Tg) (telegramId : Z)
  : M Tg (option jsstring) :=
  connect env ;;
  finally
    (emit (EQuery (QSelectEmail telegramId)) ;;
     with_table (fun t =>
       ret (orNull (option_map email (hd_error (sql_select_email telegramId t))))))
    release.

(** [res.rows[0]?.telegram_id || null].  The driver hands a BIGINT back as
    its decimal text, which is never empty: only the [undefined] of an
    empty result becomes [null]. *)
Definition getTelegramIdByEmail {Tg} (env : Env Tg) (email : jsstring)
  : M Tg (option Z) :=
  connect env ;;
  finally
    (emit (EQuery (QSelectId email)) ;;
     with_table (fun t =>
       ret (option_map telegram_id (hd_error (sql_select_id (LOWER env) email t)))))
    release.

(* ================================================================== *)
(** ** Telegram handlers (the same text in both revisions) *)

(** [!userId] for [ctx.from?.id]: undefined or the number 0. *)
Definition no_user (userId : option Z) : bool :=
  match userId with
  | None => true
  | Some id => Z.eqb id 0
  end.

Definition user_of (userId : option Z) : Z :=
  match userId with
  | None => 0%Z
  | Some id => id
  end.

Definition bot_start {Tg} (env : Env Tg) (from : option Z) : M Tg unit :=
  let userId := from in
  if no_user userId then ret tt
  else
    email <- getEmailByUser env (user_of userId) ;;
    match orNull email with
    | Some e => reply env (ReplyStartLinked e)
    | None => reply env ReplyStartHello
    end.

Definition bot_command_email {Tg} (env : Env Tg) (from : option Z) : M Tg unit :=
  let userId := from in
  if no_user userId then ret tt
  else
    email <- getEmailByUser env (user_of userId) ;;
    match orNull email with
    | Some e => reply env (ReplyYourEmail e)
    | None => reply env ReplyNoEmailLinked
    end.

Definition bot_on_text {Tg} (env : Env Tg) (ctx : TextUpdate) : M Tg unit :=
  let userId := from_id ctx in
  let text := trim (message_text ctx) in
  if no_user userId then reply env ReplyCouldNotIdentify
  else if startsWith text (js "/") then ret tt
  else
    let isEmail := includes text (js "@") && includes text (js ".") in
    if negb isEmail then reply env ReplyGuidance
    else
      existing <- getEmailByUser env (user_of userId) ;;
      match orNull existing with
      | Some ex => reply env (ReplyAlreadyLinked ex)
      | None =>
          insertOrUpdateUser env (user_of userId) text ;;
          reply env (ReplyLinked text)
      end.

(* ================================================================== *)
(** ** Stripe webhook: the parts both revisions share *)

Definition revoking_types : list jsstring :=
  [js "invoice.payment_failed"; js "customer.subscription.deleted";
   js "charge.failed"; js "charge.dispute.created"].

(** [[...].includes(event.type)]. *)
Definition is_revoking (t : option jsstring) : bool :=
  match t with
  | Some s => existsb (Js.eqb s) revoking_types
  | None => false
  end.

(** [event.data?.object || {}]. *)
Definition dataObject_of (event : Event) : DataObject :=
  match data_object event with
  | Some o => o
  | None => mkDataObject None None
  end.

Definition string_of (v : option jsstring) : jsstring :=
  match v with
  | Some s => s
  | None => []
  end.

(** [let email = dataObject.customer_email; if (!email &&
    dataObject.customer) { try { email = (await
    stripe.customers.retrieve(dataObject.customer)).email } catch {..} }]. *)
Definition resolve_email {Tg} (env : Env Tg) (dataObject : DataObject)
  : M Tg (option jsstring) :=
  let email := customer_email dataObject in
  if negb (truthy email) && truthy (customer dataObject)
  then
    try_catch
      (emit (ERetrieve (string_of (customer dataObject))) ;;
       match customers_retrieve env (string_of (customer dataObject)) with
       | Some e => ret e
       | None => throw ExnStripe
       end)
      (fun err => console SevError MsgFetchCustomerFailed ;; ret email)
  else ret email.

Definition description_of (err : Exn) : option jsstring :=
  match err with
  | ExnTelegram d => d
  | _ => None
  end.

(** [err.response?.description?.includes("USER_NOT_PARTICIPANT")]. *)
Definition is_not_participant (err : Exn) : bool :=
  match description_of err with
  | Some d => includes d (js "USER_NOT_PARTICIPANT")
  | None => false
  end.

(** [event.data?.object] and [event.type] on the parsed value: reading
    [data] of [null] throws a TypeError, before anything else is done. *)
Definition with_event {Tg A} (p : Parsed) (k : Event -> M Tg A) : M Tg A :=
  match p with
  | ParsedNull => throw ExnType
  | ParsedEvent event => k event
  end.

Definition ok200 : Response := mkResponse 200 BodyOK.
Definition invalid400 : Response := mkResponse 400 BodyInvalidSignature.
Definition error500 : Response := mkResponse 500 BodyWebhookError.

(* ================================================================== *)
(** ** The revision with the dashboard *)

Module Part000.

Definition removeUserFromGroup {Tg} (env : Env Tg) (telegramId : Z) : M Tg unit :=
  try_catch
    (telegram_call (EBan telegramId) (banChatMember env telegramId) ;;
     telegram_call (EUnban telegramId) (unbanChatMember env telegramId) ;;
     console SevLog (MsgAttemptedRemove telegramId))
    (fun err =>
       if is_not_participant err
       then console SevWarn (MsgNotInGroup telegramId)
       else console SevError (MsgFailedRemove telegramId err)).

(** The handler from [const dataObject = ...] to [res.status(200)]. *)
Definition reconcile {Tg} (env : Env Tg) (event : Event) : M Tg Response :=
  let dataObject := dataObject_of event in
  email <- resolve_email env dataObject ;;
  if negb (truthy email) then
    console SevWarn MsgNoEmail ;; ret ok200
  else
    telegramId <- getTelegramIdByEmail env (string_of email) ;;
    match telegramId with
    | None =>
        console SevWarn (MsgNoTelegramId (string_of email)) ;; ret ok200
    | Some id =>
        (if is_revoking (ev_type event)
         then console SevLog (MsgAttempting id (string_of email)) ;;
              removeUserFromGroup env id
         else ret tt) ;;
        ret ok200
    end.

Definition webhook {Tg} (env : Env Tg) (req : WebhookRequest) : M Tg Response :=
  try_catch
    (let sig := stripe_signature req in
     if verifySignature env then
       match constructEvent env (raw_body req) sig with
       | None => console SevError MsgSignatureFailed ;; ret invalid400
       | Some event => with_event event (reconcile env)
       end
     else
       match JSON_parse env (raw_body req) with
       | None => throw ExnParse
       | Some event => with_event event (reconcile env)
       end)
    (fun err => console SevError (MsgWebhookHandlerError err) ;; ret error500).

(** [token !== process.env.DASHBOARD_ACCESS_TOKEN]. *)
Definition token_differs (token : QueryValue) (configured : option jsstring) : bool :=
  match token, configured with
  | QUndefined, None => false
  | QString s, Some t => negb (Js.eqb s t)
  | _, _ => true
  end.

(** [order === "desc" ? "DESC" : "ASC"]. *)
Definition sortOrder_of (order : QueryValue) : SortOrder :=
  match order with
  | QString s => if Js.eqb s (js "desc") then DESC else ASC
  | _ => ASC
  end.

Definition is_desc (o : SortOrder) : bool :=
  match o with DESC => true | ASC => false end.

Definition oppositeOrder_of (o : SortOrder) : SortOrder :=
  match o with DESC => ASC | ASC => DESC end.

(** The handler after the token gate: the query and the page.  The client
    is released on the line after the query, not in a [finally]: a query
    that throws leaves it checked out. *)
Definition listing {Tg} (env : Env Tg) (req : DashboardRequest) : M Tg Response :=
  let sortOrder := sortOrder_of (q_order req) in
  let oppositeOrder := oppositeOrder_of sortOrder in
  try_catch
    (connect env ;;
     emit (EQuery (QSelectAll sortOrder)) ;;
     result <- with_table (fun t =>
       match sql_select_all (is_desc sortOrder) t with
       | inl e => throw (ExnStore e)
       | inr l => ret l
       end) ;;
     release ;;
     ret (mkResponse 200 (BodyDashboard (q_token req) oppositeOrder result)))
    (fun err =>
       console SevError (MsgDashboardError err) ;;
       ret (mkResponse 500 BodyErrorLoadingDashboard)).

Definition dashboard {Tg} (env : Env Tg) (req : DashboardRequest) : M Tg Response :=
  if token_differs (q_token req) (DASHBOARD_ACCESS_TOKEN env)
  then ret (mkResponse 403 BodyForbidden)
  else listing env req.

End Part000.

(* ================================================================== *)
(** ** app.js *)

Module AppJs.

Definition removeUserFromGroup {Tg} (env : Env Tg) (telegramId : Z) : M Tg unit :=
  try_catch
    (telegram_call (EBan telegramId) (banChatMember env telegramId) ;;
     telegram_call (EUnban telegramId) (unbanChatMember env telegramId) ;;
     console SevLog (MsgRemoved telegramId))
    (fun err => console SevError (MsgFailedRemove telegramId err)).

Definition reconcile {Tg} (env : Env Tg) (event : Event) : M Tg Response :=
  let dataObject := dataObject_of event in
  email <- resolve_email env dataObject ;;
  (if is_revoking (ev_type event) && truthy email then
     telegramId <- getTelegramIdByEmail env (string_of email) ;;
     match telegramId with
     | Some id =>
         console SevLog (MsgRemoving id (string_of email)) ;;
         removeUserFromGroup env id
     | None => ret tt
     end
   else ret tt) ;;
  ret ok200.

(** A rejected handler promise leaves the request without a response:
    the result is then [Throw].  The read of [event.data] is outside the
    [try], so a [null] event rejects the promise as a failed lookup does. *)
Definition webhook {Tg} (env : Env Tg) (req : WebhookRequest) : M Tg Response :=
  let sig := stripe_signature req in
  let parsed :=
    if verifySignature env then constructEvent env (raw_body req) sig
    else JSON_parse env (raw_body req) in
  match parsed with
  | None => console SevError MsgStripeWebhookError ;; ret invalid400
  | Some event => with_event event (reconcile env)
  end.

End AppJs.

(* ================================================================== *)
(** ** The routes, and a run of the server *)

(** [app.post(`/${WEBHOOK_SECRET_PATH}`)]: [bot.handleUpdate(req.body)
    .then(() => 200 "OK").catch(err => 400 "Bad Request")]. *)
Definition telegram_route {Tg} (handler : M Tg unit) : M Tg Response :=
  try_catch
    (handler ;; ret ok200)
    (fun err =>
       console SevError (MsgTelegramWebhookError err) ;;
       ret (mkResponse 400 BodyBadRequest)).

(** An inbound request, with the Telegram update already dispatched to the
    handler Telegraf selects for it. *)
Inductive Request :=
| ReqStart (from : option Z)
| ReqEmailCommand (from : option Z)
| ReqText (ctx : TextUpdate)
| ReqStripe (req : WebhookRequest)
| ReqDashboard (req : DashboardRequest).

Definition serve {Tg} (env : Env Tg) (r : Request) : M Tg Response :=
  match r with
  | ReqStart from => telegram_route (bot_start env from)
  | ReqEmailCommand from => telegram_route (bot_command_email env from)
  | ReqText ctx => telegram_route (bot_on_text env ctx)
  | ReqStripe req => Part000.webhook env req
  | ReqDashboard req => Part000.dashboard env req
  end.

(** Requests served one after the other, each under the answers the
    outside world gives at that time. *)
Fixpoint run {Tg} (reqs : list (Env Tg * Request)) (w : World Tg) : World Tg :=
  match reqs with
  | [] => w
  | (env, r) :: rest => run rest (snd (serve env r w))
  end.

(** The world once [initDb] has run on a database without the table. *)
Definition started {Tg} (env : Env Tg) (g : Tg) : World Tg :=
  snd (initDb env (mkWorld None g [])).

(* ================================================================== *)
(** ** Observations on a trace and on the store *)

(** The account ids [removeUserFromGroup] was entered with: each entry
    issues one [banChatMember] first. *)
Definition revokes (tr : list Effect) : list Z :=
  flat_map (fun e => match e with EBan id => [id] | _ => [] end) tr.

(** Every membership call sent to the messaging provider. *)
Definition telegram_calls (tr : list Effect) : list Effect :=
  filter (fun e => match e with EBan _ | EUnban _ => true | _ => false end) tr.

Definition store_queries (tr : list Effect) : list Query :=
  flat_map (fun e => match e with EQuery q => [q] | _ => [] end) tr.

Definition replies (tr : list Effect) : list Reply :=
  flat_map (fun e => match e with EReply r => [r] | _ => [] end) tr.

(** The clients checked out of the pool and the clients given back. *)
Definition connects (tr : list Effect) : nat :=
  List.length (filter (fun e => match e with EConnect => true | _ => false end) tr).

Definition releases (tr : list Effect) : nat :=
  List.length (filter (fun e => match e with ERelease => true | _ => false end) tr).

(** The clients a trace leaves checked out of the pool. *)
Definition checked_out (tr : list Effect) : Z :=
  Z.of_nat (connects tr) - Z.of_nat (releases tr).

(** A handler that gives back every client it takes. *)
Definition gives_back {Tg A} (m : M Tg A) : Prop :=
  forall w, checked_out (trace (snd (m w))) = checked_out (trace w).

(** The listing query is rejected: there is no table, or it has no
    [joined_at] column. *)
Definition query_rejected (d : option Table) : bool :=
  match d with
  | Some t => negb (hasColumn "joined_at" t)
  | None => true
  end.

(** The dashboard requests that pass the token gate, get a client and
    have their query rejected. *)
Definition listing_leaks {Tg} (env : Env Tg) (req : DashboardRequest)
    (d : option Table) : bool :=
  negb (Part000.token_differs (q_token req) (DASHBOARD_ACCESS_TOKEN env))
  && pool_connect env && query_rejected d.

(** The outcome of a revoke, as the specification names it. *)
Inductive Outcome :=
| removed
| not_a_member
| failed.

(** The outcome each removal log line stands for, with its severity. *)
Definition logged_outcomes (tr : list Effect) : list (Severity * Outcome) :=
  flat_map (fun e =>
    match e with
    | ELog sev (MsgAttemptedRemove _) => [(sev, removed)]
    | ELog sev (MsgRemoved _) => [(sev, removed)]
    | ELog sev (MsgNotInGroup _) => [(sev, not_a_member)]
    | ELog sev (MsgFailedRemove _ _) => [(sev, failed)]
    | _ => []
    end) tr.

Definition outcomes (tr : list Effect) : list Outcome :=
  map snd (logged_outcomes tr).

(** The provider's answer to a kick: the ban's error, or else what the
    unban answers. *)
Definition revoke_answer {Tg} (env : Env Tg) (id : Z) (g : Tg) : ApiAnswer :=
  match banChatMember env id g with
  | (ApiOk, g') => fst (unbanChatMember env id g')
  | (ApiError d, _) => ApiError d
  end.

(** The classification in the specification's words: a "never a member"
    answer is [not_a_member], any other error is [failed]. *)
Definition classify (a : ApiAnswer) : Outcome :=
  match a with
  | ApiOk => removed
  | ApiError (Some d) =>
      if includes d (js "USER_NOT_PARTICIPANT") then not_a_member else failed
  | ApiError None => failed
  end.

Definition severity_of (o : Outcome) : Severity :=
  match o with
  | removed => SevLog
  | not_a_member => SevWarn
  | failed => SevError
  end.

Definition severity_rank (s : Severity) : nat :=
  match s with
  | SevLog => 0
  | SevWarn => 1
  | SevError => 2
  end.

(** What the parse / authentication step returns; [None] when it throws. *)
Definition parsed_body {Tg} (env : Env Tg) (req : WebhookRequest) : option Parsed :=
  if verifySignature env
  then constructEvent env (raw_body req) (stripe_signature req)
  else JSON_parse env (raw_body req).

(** The event the parse / authentication step hands on, if any. *)
Definition authenticate {Tg} (env : Env Tg) (req : WebhookRequest) : option Event :=
  match parsed_body env req with
  | Some (ParsedEvent event) => Some event
  | _ => None
  end.

(** The value of [email] after the customer side-call. *)
Definition resolved_email {Tg} (env : Env Tg) (o : DataObject) : option jsstring :=
  if negb (truthy (customer_email o)) && truthy (customer o)
  then
    match customers_retrieve env (string_of (customer o)) with
    | Some e => e
    | None => customer_email o
    end
  else customer_email o.

(** What the store lookup by e-mail yields on a given table. *)
Definition lookup_account {Tg} (env : Env Tg) (d : option Table) (em : jsstring)
  : Result (option Z) :=
  if pool_connect env then
    match d with
    | Some t =>
        Ok (option_map telegram_id (hd_error (sql_select_id (LOWER env) em t)))
    | None => Throw (ExnStore UndefinedTable)
    end
  else Throw (ExnStore ConnectFailed).

(** The e-mail the store holds for an account, as the handlers read it. *)
Definition stored_email (t : Table) (id : Z) : option jsstring :=
  orNull (option_map email (hd_error (sql_select_email id t))).


(** A table without the [joined_at] column, none of whose rows carries a
    timestamp. *)
Definition undated (t : Table) : Prop :=
  hasColumn "joined_at" t = false /\
  forall r, In r (rows t) -> joined_at r = None.

(** The text handler's test for a message it takes as an e-mail. *)
Definition qualifies (text : jsstring) : bool :=
  negb (startsWith (trim text) (js "/"))
  && includes (trim text) (js "@") && includes (trim text) (js ".").

(** [token === configured], in the specification's words. *)
Definition strict_equal (token : QueryValue) (configured : option jsstring) : Prop :=
  match token, configured with
  | QUndefined, None => True
  | QString s, Some t => s = t
  | _, _ => False
  end.

(** Sortedness of a listing in the requested direction. *)
Fixpoint sorted_by (desc : bool) (l : list Row) : Prop :=
  match l with
  | [] => True
  | x :: l' => (forall y, In y l' -> order_le desc x y = true) /\ sorted_by desc l'
  end.

(** The group after a kick: the ban's effect, then the unban's if the ban
    was accepted. *)
Definition kicked {Tg} (env : Env Tg) (id : Z) (g : Tg) : Tg :=
  match banChatMember env id g with
  | (ApiOk, g') => snd (unbanChatMember env id g')
  | (ApiError _, g') => g'
  end.

(** The account an authenticated event makes the reconciler revoke. *)
Definition revoke_target {Tg} (env : Env Tg) (event : Event) (d : option Table)
  : option Z :=
  let em := resolved_email env (dataObject_of event) in
  if is_revoking (ev_type event) && truthy em then
    match lookup_account env d (string_of em) with
    | Ok (Some id) => Some id
    | _ => None
    end
  else None.

(** The group after the reconciler has handled an event. *)
Definition target_group {Tg} (env : Env Tg) (event : Event) (w : World Tg) : Tg :=
  match revoke_target env event (db w) with
  | Some id => kicked env id (group w)
  | None => group w
  end.

(** Whether the store lookup of the revision with the dashboard raises:
    it runs for every event whose e-mail resolved. *)
Definition lookup_raises {Tg} (env : Env Tg) (event : Event) (d : option Table)
  : bool :=
  let em := resolved_email env (dataObject_of event) in
  truthy em &&
  match lookup_account env d (string_of em) with
  | Throw _ => true
  | Ok _ => false
  end.

(** In app.js the lookup runs for revoking events only. *)
Definition lookup_raises_appjs {Tg} (env : Env Tg) (event : Event)
    (d : option Table) : bool :=
  is_revoking (ev_type event) && lookup_raises env event d.

(** What the reconciler of the revision with the dashboard returns. *)
Definition ack {Tg} (env : Env Tg) (event : Event) (d : option Table)
  : Result Response :=
  let em := resolved_email env (dataObject_of event) in
  if truthy em then
    match lookup_account env d (string_of em) with
    | Throw e => Throw e
    | Ok _ => Ok ok200
    end
  else Ok ok200.

(** What the reconciler of app.js returns. *)
Definition ack_appjs {Tg} (env : Env Tg) (event : Event) (d : option Table)
  : Result Response :=
  let em := resolved_email env (dataObject_of event) in
  if is_revoking (ev_type event) && truthy em then
    match lookup_account env d (string_of em) with
    | Throw e => Throw e
    | Ok _ => Ok ok200
    end
  else Ok ok200.

(* ================================================================== *)
(** ** Concrete worlds used in the examples *)

(** A provider that answers as section 4.3 of the specification describes:
    the group is its list of members, a ban removes a member, and a ban of
    an account that is not a member is answered "not a participant". *)
Definition member_ban (id : Z) (g : list Z) : ApiAnswer * list Z :=
  if existsb (Z.eqb id) g
  then (ApiOk, filter (fun x => negb (Z.eqb x id)) g)
  else (ApiError (Some (js "Bad Request: USER_NOT_PARTICIPANT")), g).

Definition member_unban (id : Z) (g : list Z) : ApiAnswer * list Z := (ApiOk, g).

Definition a_at_b : jsstring := js "a@b.com".

Definition payment_failed_event : Event :=
  mkEvent (Some (js "invoice.payment_failed"))
          (Some (mkDataObject (Some a_at_b) None)).

Definition checkout_event : Event :=
  mkEvent (Some (js "checkout.session.completed"))
          (Some (mkDataObject (Some a_at_b) None)).

(** Signature checking on; every body carries [ev]; the store answers iff
    [up]; the admin token is [tok]. *)
Definition env_with (ev : option Event) (up : bool) (tok : option jsstring)
  : Env (list Z) :=
  mkEnv true (fun _ _ => option_map ParsedEvent ev)
        (fun _ => option_map ParsedEvent ev) (fun _ => None) up None
        member_ban member_unban (fun _ => true) tok pg_lower.

(** Signature checking off; every body is the text "null". *)
Definition null_env : Env (list Z) :=
  mkEnv false (fun _ _ => None) (fun _ => Some ParsedNull) (fun _ => None)
        true None member_ban member_unban (fun _ => true) None pg_lower.

Definition some_request : WebhookRequest := mkWebhookRequest [] None.

Definition linked_555 : Table :=
  mkTable ["telegram_id"; "email"]%string [mkRow 555 a_at_b None].

Definition world_555 : World (list Z) := mkWorld (Some linked_555) [555%Z] [].

Definition text_from (id : Z) (s : string) : TextUpdate :=
  mkTextUpdate (Some id) (js s).

(** A table created outside the program, with the [joined_at] column. *)
Definition dated_table : Table :=
  mkTable ["telegram_id"; "email"; "joined_at"]%string
    [mkRow 7 (js "x@y.z") (Some 30%Z); mkRow 555 a_at_b (Some 10%Z)].

(* ================================================================== *)
(** ** Configuration and start-up (the revision with the dashboard) *)

(** [process.env]: each variable a string, or [None] when it is not set. *)
Record ProcessEnv := mkProcessEnv {
  TELEGRAM_BOT_TOKEN : option jsstring;
  TELEGRAM_GROUP_ID : option jsstring;
  RENDER_URL : option jsstring;
  WEBHOOK_SECRET_PATH : option jsstring;
  STRIPE_SECRET_KEY : option jsstring;
  STRIPE_WEBHOOK_SECRET : option jsstring;
  VERIFY_STRIPE_SIGNATURE : option jsstring;
  PORT : option jsstring;
  DATABASE_URL : option jsstring
}.

(** [const { .., X = dflt, .. } = process.env]: the default stands in for
    [undefined] only, not for the empty string. *)
Definition with_default (v : option jsstring) (dflt : jsstring) : jsstring :=
  match v with
  | Some s => s
  | None => dflt
  end.

(** [!TELEGRAM_BOT_TOKEN || !RENDER_URL || !STRIPE_SECRET_KEY ||
     !STRIPE_WEBHOOK_SECRET || !DATABASE_URL || !TELEGRAM_GROUP_ID]. *)
Definition missing_required (p : ProcessEnv) : bool :=
  negb (truthy (TELEGRAM_BOT_TOKEN p)) || negb (truthy (RENDER_URL p))
  || negb (truthy (STRIPE_SECRET_KEY p)) || negb (truthy (STRIPE_WEBHOOK_SECRET p))
  || negb (truthy (DATABASE_URL p)) || negb (truthy (TELEGRAM_GROUP_ID p)).

(** [const verifySignature = VERIFY_STRIPE_SIGNATURE === "true"]. *)
Definition verifySignature_of (p : ProcessEnv) : bool :=
  Js.eqb (with_default (VERIFY_STRIPE_SIGNATURE p) (js "true")) (js "true").

(** [s.replace(/\/$/, "")]: without the m flag [$] is the end of the
    string, so one final '/' is dropped. *)
Definition strip_trailing_slash (s : jsstring) : jsstring :=
  match rev s with
  | c :: r => if N.eqb c 47 then rev r else s
  | [] => s
  end.

Definition secret_path (p : ProcessEnv) : jsstring :=
  with_default (WEBHOOK_SECRET_PATH p) (js "telegram").

(** [`${RENDER_URL.replace(/\/$/, "")}/${WEBHOOK_SECRET_PATH}`]. *)
Definition WEBHOOK_URL (p : ProcessEnv) : jsstring :=
  strip_trailing_slash (string_of (RENDER_URL p)) ++ js "/" ++ secret_path p.

(** The [webhook] field of GET /status:
    [`${RENDER_URL}/${WEBHOOK_SECRET_PATH}`]. *)
Definition status_webhook (p : ProcessEnv) : jsstring :=
  string_of (RENDER_URL p) ++ js "/" ++ secret_path p.

(** The path of the Telegram route: [`/${WEBHOOK_SECRET_PATH}`]. *)
Definition telegram_path (p : ProcessEnv) : jsstring :=
  js "/" ++ secret_path p.

(** [PORT = 8080]: the number 8080, or the string of the variable. *)
Inductive Port :=
| PortNumber (n : Z)
| PortText (s : jsstring).

Definition port_of (p : ProcessEnv) : Port :=
  match PORT p with
  | Some s => PortText s
  | None => PortNumber 8080
  end.

(** What the start-up code does besides the statements of [initDb]. *)
Inductive BootEvent :=
| BootSetWebhook (url : jsstring)     (* bot.telegram.setWebhook(WEBHOOK_URL) *)
| BootLogWebhookSet (url : jsstring)  (* "Telegram webhook set to .." *)
| BootLogWebhookFailed                (* "Failed to set Telegram webhook:" *)
| BootListen (port : Port)            (* app.listen(PORT, ..) *)
| BootLogStartFailed (err : Exn)      (* "Failed to start server:" *)
| BootExit (code : Z).                (* process.exit(1) *)

(** [setTelegramWebhook]; [registered] tells whether the provider accepts
    the registration. *)
Definition setTelegramWebhook (p : ProcessEnv) (registered : bool) : list BootEvent :=
  BootSetWebhook (WEBHOOK_URL p)
  :: (if registered then [BootLogWebhookSet (WEBHOOK_URL p)]
      else [BootLogWebhookFailed]).

Inductive BootResult :=
| BootThrows                          (* "Missing required env vars" *)
| Booted (events : list BootEvent).

(** The module from its first line to the start-up block: the check of the
    required variables, then [initDb], [setTelegramWebhook], [app.listen]. *)
Definition boot {Tg} (env : Env Tg) (p : ProcessEnv) (registered : bool)
    (w : World Tg) : BootResult * World Tg :=
  if missing_required p then (BootThrows, w)
  else
    match initDb env w with
    | (Ok _, w') =>
        (Booted (setTelegramWebhook p registered ++ [BootListen (port_of p)]), w')
    | (Throw e, w') => (Booted [BootLogStartFailed e; BootExit 1], w')
    end.

Definition listens (r : BootResult) : bool :=
  match r with
  | Booted events =>
      existsb (fun e => match e with BootListen _ => true | _ => false end) events
  | BootThrows => false
  end.

Definition registrations (r : BootResult) : list jsstring :=
  match r with
  | Booted events =>
      flat_map (fun e => match e with BootSetWebhook u => [u] | _ => [] end) events
  | BootThrows => []
  end.

(* ================================================================== *)
(** ** The calls of a handler, written out *)

(** The world with further calls appended to its trace. *)
Definition log_to {Tg} (w : World Tg) (new : list Effect) : World Tg :=
  mkWorld (db w) (group w) (trace w ++ new).

Definition retrieves (tr : list Effect) : list jsstring :=
  flat_map (fun e => match e with ERetrieve c => [c] | _ => [] end) tr.

(** The table constraints: [telegram_id] PRIMARY KEY, [email] UNIQUE. *)
Definition keys_ok (t : Table) : Prop :=
  NoDup (map telegram_id (rows t)) /\ NoDup (map email (rows t)).

(** The log line of [removeUserFromGroup]'s catch block. *)
Definition removal_log (id : Z) (err : Exn) : Effect :=
  if is_not_participant err then ELog SevWarn (MsgNotInGroup id)
  else ELog SevError (MsgFailedRemove id err).

(** The calls of one kick, in the revision with the dashboard. *)
Definition kick_trace {Tg} (env : Env Tg) (id : Z) (g : Tg) : list Effect :=
  match banChatMember env id g with
  | (ApiOk, g') =>
      match fst (unbanChatMember env id g') with
      | ApiOk => [EBan id; EUnban id; ELog SevLog (MsgAttemptedRemove id)]
      | ApiError d => [EBan id; EUnban id; removal_log id (ExnTelegram d)]
      end
  | (ApiError d, _) => [EBan id; removal_log id (ExnTelegram d)]
  end.

(** The calls of one kick in app.js. *)
Definition kick_trace_appjs {Tg} (env : Env Tg) (id : Z) (g : Tg) : list Effect :=
  match banChatMember env id g with
  | (ApiOk, g') =>
      match fst (unbanChatMember env id g') with
      | ApiOk => [EBan id; EUnban id; ELog SevLog (MsgRemoved id)]
      | ApiError d =>
          [EBan id; EUnban id; ELog SevError (MsgFailedRemove id (ExnTelegram d))]
      end
  | (ApiError d, _) => [EBan id; ELog SevError (MsgFailedRemove id (ExnTelegram d))]
  end.

Definition resolve_trace {Tg} (env : Env Tg) (o : DataObject) : list Effect :=
  if negb (truthy (customer_email o)) && truthy (customer o)
  then
    ERetrieve (string_of (customer o))
    :: match customers_retrieve env (string_of (customer o)) with
       | Some _ => []
       | None => [ELog SevError MsgFetchCustomerFailed]
       end
  else [].

Definition lookup_trace {Tg} (env : Env Tg) (em : jsstring) : list Effect :=
  if pool_connect env then [EConnect; EQuery (QSelectId em); ERelease] else [].

(** The calls of the reconciler of the revision with the dashboard. *)
Definition reconcile_trace {Tg} (env : Env Tg) (event : Event)
    (d : option Table) (g : Tg) : list Effect :=
  let em := resolved_email env (dataObject_of event) in
  resolve_trace env (dataObject_of event)
  ++ (if truthy em then
        lookup_trace env (string_of em)
        ++ match lookup_account env d (string_of em) with
           | Ok (Some id) =>
               if is_revoking (ev_type event)
               then ELog SevLog (MsgAttempting id (string_of em))
                    :: kick_trace env id g
               else []
           | Ok None => [ELog SevWarn (MsgNoTelegramId (string_of em))]
           | Throw _ => []
           end
      else [ELog SevWarn MsgNoEmail]).

(** The calls of the reconciler of app.js. *)
Definition reconcile_trace_appjs {Tg} (env : Env Tg) (event : Event)
    (d : option Table) (g : Tg) : list Effect :=
  let em := resolved_email env (dataObject_of event) in
  resolve_trace env (dataObject_of event)
  ++ (if is_revoking (ev_type event) && truthy em then
        lookup_trace env (string_of em)
        ++ match lookup_account env d (string_of em) with
           | Ok (Some id) =>
               ELog SevLog (MsgRemoving id (string_of em))
               :: kick_trace_appjs env id g
           | _ => []
           end
      else []).

(** The calls of the webhook handler of the revision with the dashboard. *)
Definition webhook_trace {Tg} (env : Env Tg) (req : WebhookRequest)
    (d : option Table) (g : Tg) : list Effect :=
  match parsed_body env req with
  | None =>
      [ELog SevError (if verifySignature env then MsgSignatureFailed
                      else MsgWebhookHandlerError ExnParse)]
  | Some ParsedNull => [ELog SevError (MsgWebhookHandlerError ExnType)]
  | Some (ParsedEvent event) =>
      reconcile_trace env event d g
      ++ match ack env event d with
         | Ok _ => []
         | Throw e => [ELog SevError (MsgWebhookHandlerError e)]
         end
  end.

(** The calls of the webhook handler of app.js. *)
Definition webhook_trace_appjs {Tg} (env : Env Tg) (req : WebhookRequest)
    (d : option Table) (g : Tg) : list Effect :=
  match parsed_body env req with
  | None => [ELog SevError MsgStripeWebhookError]
  | Some ParsedNull => []
  | Some (ParsedEvent event) => reconcile_trace_appjs env event d g
  end.

(** The answer of the webhook handler of the revision with the dashboard. *)
Definition webhook_response {Tg} (env : Env Tg) (req : WebhookRequest)
    (d : option Table) : Response :=
  match parsed_body env req with
  | None => if verifySignature env then invalid400 else error500
  | Some ParsedNull => error500
  | Some (ParsedEvent event) =>
      match ack env event d with
      | Ok r => r
      | Throw _ => error500
      end
  end.

(** The group after the webhook handler has run. *)
Definition webhook_group {Tg} (env : Env Tg) (req : WebhookRequest)
    (w : World Tg) : Tg :=
  match parsed_body env req with
  | Some (ParsedEvent event) => target_group env event w
  | _ => group w
  end.

(** The store statement of [getEmailByUser]. *)
Definition select_email_trace {Tg} (env : Env Tg) (id : Z) : list Effect :=
  if pool_connect env then [EConnect; EQuery (QSelectEmail id); ERelease] else [].

(** The e-mail read for an account, or the exception of the read. *)
Definition read_email {Tg} (env : Env Tg) (d : option Table) (id : Z)
  : Result (option jsstring) :=
  if pool_connect env then
    match d with
    | Some t => Ok (stored_email t id)
    | None => Throw (ExnStore UndefinedTable)
    end
  else Throw (ExnStore ConnectFailed).

Definition example_env : ProcessEnv :=
  mkProcessEnv (Some (js "token")) (Some (js "-100")) (Some (js "https://x.onrender.com/"))
               None (Some (js "sk")) (Some (js "whsec")) None None (Some (js "postgres://db")).

(* ================================================================== *)
(** * Properties *)

Unset Implicit Arguments.

(** ** Strings *)

Lemma jseqb_refl (a : jsstring) : Js.eqb a a = true.
Proof.
  induction a as [|x a IH]; cbn; [reflexivity|].
  now rewrite N.eqb_refl, IH.
Qed.

Lemma jseqb_eq (a b : jsstring) : Js.eqb a b = true <-> a = b.
Proof.
  split.
  - revert b. induction a as [|x a IH]; intros [|y b] H; cbn in H;
      try discriminate; [reflexivity|].
    apply andb_true_iff in H as [Hx Hab].
    apply N.eqb_eq in Hx. subst y. f_equal. now apply IH.
  - intros ->. apply jseqb_refl.
Qed.

Lemma trimStart_keeps_head (c : N) (s : jsstring) :
  isWhiteSpace c = false -> trimStart (c :: s) = c :: s.
Proof. intros H. cbn [trimStart]. now rewrite H. Qed.

Lemma trimStart_rev_last (s : jsstring) (c : N) :
  isWhiteSpace c = false ->
  exists s', rev (trimStart (rev (c :: s))) = c :: s'.
Proof.
  intros Hc. cbn [rev].
  induction (rev s) as [|x l IH]; cbn [app trimStart].
  - rewrite Hc. cbn. now exists [].
  - destruct (isWhiteSpace x).
    + exact IH.
    + change (x :: l ++ [c]) with ((x :: l) ++ [c]).
      rewrite rev_app_distr. cbn [rev app]. now eexists.
Qed.

Lemma trimStart_head (s : jsstring) c r :
  trimStart s = c :: r -> isWhiteSpace c = false.
Proof.
  induction s as [|x s IH]; cbn [trimStart]; [discriminate|].
  destruct (isWhiteSpace x) eqn:Hx; [exact IH|].
  now intros [= <- _].
Qed.

(** [trim] leaves no white space at either end. *)
Lemma trim_no_leading_space (s : jsstring) c r :
  trim s = c :: r -> isWhiteSpace c = false.
Proof.
  unfold trim, trimEnd.
  destruct (trimStart s) as [|x u] eqn:Hu; [discriminate|].
  pose proof (trimStart_head s x u Hu) as Hx.
  destruct (trimStart_rev_last u x Hx) as [s' ->].
  now intros [= <- _].
Qed.

Lemma trim_no_trailing_space (s : jsstring) c r :
  trim s = r ++ [c] -> isWhiteSpace c = false.
Proof.
  unfold trim, trimEnd. intros H.
  apply (f_equal (@rev N)) in H.
  rewrite rev_involutive, rev_app_distr in H. cbn in H.
  exact (trimStart_head _ _ _ H).
Qed.

(** A text whose first code unit is '/' still starts with '/' once trimmed. *)
Lemma trim_keeps_slash (text : jsstring) :
  startsWith text (js "/") = true -> startsWith (trim text) (js "/") = true.
Proof.
  unfold startsWith, trim, trimEnd.
  destruct text as [|c s]; cbn [isPrefix js map list_ascii_of_string]; [discriminate|].
  intros H. apply andb_true_iff in H as [H _]. apply N.eqb_eq in H.
  assert (Hc : isWhiteSpace c = false) by (subst c; reflexivity).
  rewrite (trimStart_keeps_head c s Hc).
  destruct (trimStart_rev_last s c Hc) as [s' ->].
  cbn. subst c. reflexivity.
Qed.

(** ** Traces *)

Lemma revokes_app (a b : list Effect) : revokes (a ++ b) = revokes a ++ revokes b.
Proof. apply flat_map_app. Qed.

Lemma store_queries_app (a b : list Effect) :
  store_queries (a ++ b) = store_queries a ++ store_queries b.
Proof. apply flat_map_app. Qed.

Lemma replies_app (a b : list Effect) : replies (a ++ b) = replies a ++ replies b.
Proof. apply flat_map_app. Qed.

Lemma logged_outcomes_app (a b : list Effect) :
  logged_outcomes (a ++ b) = logged_outcomes a ++ logged_outcomes b.
Proof. apply flat_map_app. Qed.

Lemma telegram_calls_app (a b : list Effect) :
  telegram_calls (a ++ b) = telegram_calls a ++ telegram_calls b.
Proof. apply filter_app. Qed.

Ltac run_monad :=
  unfold telegram_call, console, reply, connect, finally, release, with_table,
    set_db, emit, try_catch, bind, ret, throw in *;
  cbn [fst snd db group trace] in *.

Ltac close_trace :=
  repeat split;
  try (rewrite <- ?app_assoc; cbn [app]; reflexivity).

Ltac observe :=
  rewrite ?revokes_app, ?logged_outcomes_app, ?telegram_calls_app,
    ?store_queries_app.

(** ** The Membership Enforcer *)

(** What one kick does to the world. *)
Lemma remove_spec {Tg} (env : Env Tg) (id : Z) (w : World Tg) :
  exists new,
    Part000.removeUserFromGroup env id w
      = (Ok tt, mkWorld (db w) (kicked env id (group w)) (trace w ++ new)) /\
    revokes new = [id] /\
    store_queries new = [] /\
    logged_outcomes new =
      [(severity_of (classify (revoke_answer env id (group w))),
        classify (revoke_answer env id (group w)))] /\
    telegram_calls new =
      match fst (banChatMember env id (group w)) with
      | ApiOk => [EBan id; EUnban id]
      | ApiError _ => [EBan id]
      end.
Proof.
  unfold Part000.removeUserFromGroup, revoke_answer, kicked. run_monad.
  destruct (banChatMember env id (group w)) as [[|d] g]; cbn.
  - destruct (unbanChatMember env id g) as [[|d'] g']; cbn.
    + eexists; close_trace.
    + unfold is_not_participant; cbn.
      destruct d' as [d'|]; [destruct (includes d' _)|]; cbn; eexists; close_trace.
  - unfold is_not_participant; cbn.
    destruct d as [d|]; [destruct (includes d _)|]; cbn; eexists; close_trace.
Qed.

Lemma remove_spec_appjs {Tg} (env : Env Tg) (id : Z) (w : World Tg) :
  exists new,
    AppJs.removeUserFromGroup env id w
      = (Ok tt, mkWorld (db w) (kicked env id (group w)) (trace w ++ new)) /\
    revokes new = [id] /\
    store_queries new = [] /\
    logged_outcomes new =
      match revoke_answer env id (group w) with
      | ApiOk => [(SevLog, removed)]
      | ApiError _ => [(SevError, failed)]
      end.
Proof.
  unfold AppJs.removeUserFromGroup, revoke_answer, kicked. run_monad.
  destruct (banChatMember env id (group w)) as [[|d] g]; cbn.
  - destruct (unbanChatMember env id g) as [[|d'] g']; cbn; eexists; close_trace.
  - eexists; close_trace.
Qed.

(** In app.js the same function logs every error with console.error. *)
Remark appjs_logs_every_error_alike {Tg} (env : Env Tg) (id : Z) (w : World Tg) d :
  revoke_answer env id (group w) = ApiError d ->
  exists new,
    trace (snd (AppJs.removeUserFromGroup env id w)) = trace w ++ new /\
    logged_outcomes new = [(SevError, failed)].
Proof.
  intros H. destruct (remove_spec_appjs env id w) as (new & E & _ & _ & L).
  rewrite E, H in *. exists new. auto.
Qed.

(** C5.  In the revision with the dashboard every call of
    [removeUserFromGroup] returns normally and writes one removal log
    line: the line and its severity are those of the classification of the
    provider's answer, where an error whose description contains
    USER_NOT_PARTICIPANT is [not_a_member], logged with console.warn, and
    every other error is [failed], logged with console.error, a higher
    severity.  The call sends one ban and at most one unban: nothing is
    retried after an error.  The [removeUserFromGroup] of app.js does not
    classify: whatever error the provider answers, a "not a participant"
    one included, it writes the "Failed to remove" line with
    console.error. *)
Theorem C5_not_a_member_by_revision {Tg} (env : Env Tg) (id : Z) (w : World Tg) :
  let res := Part000.removeUserFromGroup env id w in
  let res_appjs := AppJs.removeUserFromGroup env id w in
  let o := classify (revoke_answer env id (group w)) in
  fst res = Ok tt /\
  db (snd res) = db w /\
  (exists new,
      trace (snd res) = trace w ++ new /\
      logged_outcomes new = [(severity_of o, o)] /\
      telegram_calls new =
        match fst (banChatMember env id (group w)) with
        | ApiOk => [EBan id; EUnban id]
        | ApiError _ => [EBan id]
        end) /\
  (forall d, includes d (js "USER_NOT_PARTICIPANT") = true ->
             classify (ApiError (Some d)) = not_a_member) /\
  (forall d, includes d (js "USER_NOT_PARTICIPANT") = false ->
             classify (ApiError (Some d)) = failed) /\
  classify (ApiError None) = failed /\
  not_a_member <> failed /\
  (severity_rank (severity_of not_a_member) < severity_rank (severity_of failed))%nat /\
  (o = not_a_member ->
   exists new,
     trace (snd res_appjs) = trace w ++ new /\
     logged_outcomes new = [(SevError, failed)] /\
     logged_outcomes new <> [(severity_of o, o)]) /\
  (forall d, revoke_answer env id (group w) = ApiError d ->
   exists new,
     trace (snd res_appjs) = trace w ++ new /\
     logged_outcomes new = [(SevError, failed)]).
Proof.
  cbv zeta.
  destruct (remove_spec env id w) as (new & E & R & Q & L & T).
  rewrite E. cbn [fst snd db trace].
  split; [reflexivity|]. split; [reflexivity|].
  split; [exists new; auto|].
  split; [intros d H; unfold classify; now rewrite H|].
  split; [intros d H; unfold classify; now rewrite H|].
  split; [reflexivity|]. split; [discriminate|].
  split; [cbn; lia|]. split.
  - intros Ho.
    destruct (revoke_answer env id (group w)) as [|d] eqn:Ha; [discriminate|].
    destruct (appjs_logs_every_error_alike env id w d Ha) as (n & Ht & Hl).
    exists n. rewrite Ho, Hl. repeat split; [assumption | discriminate].
  - intros d Ha. exact (appjs_logs_every_error_alike env id w d Ha).
Qed.

(** ** The Event Reconciler *)

Lemma resolve_spec {Tg} (env : Env Tg) (o : DataObject) (w : World Tg) :
  exists new,
    resolve_email env o w
      = (Ok (resolved_email env o), mkWorld (db w) (group w) (trace w ++ new)) /\
    revokes new = [] /\ store_queries new = [] /\
    logged_outcomes new = [] /\ telegram_calls new = [].
Proof.
  unfold resolve_email, resolved_email. run_monad.
  destruct (negb (truthy (customer_email o)) && truthy (customer o)); cbn.
  - destruct (customers_retrieve env _); cbn; eexists; close_trace.
  - exists []. rewrite app_nil_r. destruct w; close_trace.
Qed.

Lemma lookup_spec {Tg} (env : Env Tg) (em : jsstring) (w : World Tg) :
  exists new,
    getTelegramIdByEmail env em w
      = (lookup_account env (db w) em, mkWorld (db w) (group w) (trace w ++ new)) /\
    revokes new = [] /\ logged_outcomes new = [] /\ telegram_calls new = [] /\
    store_queries new = if pool_connect env then [QSelectId em] else [].
Proof.
  unfold getTelegramIdByEmail, lookup_account. run_monad.
  destruct (pool_connect env); cbn.
  - destruct (db w) eqn:Hd; cbn; rewrite ?Hd; eexists; close_trace.
  - exists []. rewrite app_nil_r. destruct w; close_trace.
Qed.

Ltac settle_trace :=
  eexists; split; [ rewrite <- ?app_assoc; reflexivity |].

Lemma reconcile_spec {Tg} (env : Env Tg) (event : Event) (w : World Tg) :
  exists new,
    Part000.reconcile env event w
      = (ack env event (db w),
         mkWorld (db w) (target_group env event w) (trace w ++ new)) /\
    revokes new =
      match revoke_target env event (db w) with Some id => [id] | None => [] end /\
    (revoke_target env event (db w) = None -> telegram_calls new = []) /\
    logged_outcomes new =
      match revoke_target env event (db w) with
      | Some id => [(severity_of (classify (revoke_answer env id (group w))),
                     classify (revoke_answer env id (group w)))]
      | None => []
      end.
Proof.
  unfold Part000.reconcile, ack, target_group, revoke_target.
  destruct (resolve_spec env (dataObject_of event) w) as (n1 & E1 & R1 & Q1 & L1 & T1).
  unfold bind at 1. rewrite E1. clear E1.
  set (em := resolved_email env (dataObject_of event)).
  destruct (truthy em) eqn:Hem; cbn [negb andb].
  - destruct (lookup_spec env (string_of em) (mkWorld (db w) (group w) (trace w ++ n1)))
      as (n2 & E2 & R2 & L2 & T2 & Q2).
    unfold bind at 1. rewrite E2. clear E2. cbn [db group trace].
    rewrite andb_true_r.
    destruct (lookup_account env (db w) (string_of em)) as [[id|]|e].
    + destruct (is_revoking (ev_type event)).
      * destruct (remove_spec env id
           (mkWorld (db w) (group w)
              (((trace w ++ n1) ++ n2) ++ [ELog SevLog (MsgAttempting id (string_of em))])))
          as (n3 & E3 & R3 & Q3 & L3 & T3).
        unfold bind, console, emit, ret. cbn [db group trace]. rewrite E3.
        cbn [db group trace]. settle_trace.
        observe. rewrite R1, R2, R3, L1, L2, L3. cbn.
        repeat split. discriminate.
      * unfold bind, ret. cbn. settle_trace.
        observe. rewrite R1, R2, L1, L2, T1, T2. repeat split.
    + unfold bind, console, emit, ret. cbn.
      destruct (is_revoking _);
        (settle_trace; observe; rewrite R1, R2, L1, L2, T1, T2; repeat split).
    + destruct (is_revoking _);
        (settle_trace; observe; rewrite R1, R2, L1, L2, T1, T2; repeat split).
  - unfold bind, console, emit, ret. cbn.
    rewrite andb_false_r. settle_trace.
    observe. rewrite R1, L1, T1. repeat split.
Qed.

Lemma reconcile_spec_appjs {Tg} (env : Env Tg) (event : Event) (w : World Tg) :
  exists new,
    AppJs.reconcile env event w
      = (ack_appjs env event (db w),
         mkWorld (db w) (target_group env event w) (trace w ++ new)) /\
    revokes new =
      match revoke_target env event (db w) with Some id => [id] | None => [] end /\
    (revoke_target env event (db w) = None -> telegram_calls new = []).
Proof.
  unfold AppJs.reconcile, ack_appjs, target_group, revoke_target.
  destruct (resolve_spec env (dataObject_of event) w) as (n1 & E1 & R1 & Q1 & L1 & T1).
  unfold bind at 1. rewrite E1. clear E1.
  set (em := resolved_email env (dataObject_of event)).
  destruct (is_revoking (ev_type event) && truthy em) eqn:Hgo.
  - destruct (lookup_spec env (string_of em) (mkWorld (db w) (group w) (trace w ++ n1)))
      as (n2 & E2 & R2 & L2 & T2 & Q2).
    unfold bind at 1. unfold bind at 1. rewrite E2. clear E2. cbn [db group trace].
    destruct (lookup_account env (db w) (string_of em)) as [[id|]|e].
    + destruct (remove_spec_appjs env id
           (mkWorld (db w) (group w)
              (((trace w ++ n1) ++ n2) ++ [ELog SevLog (MsgRemoving id (string_of em))])))
          as (n3 & E3 & R3 & Q3 & L3).
      unfold bind, console, emit, ret. cbn [db group trace]. rewrite E3.
      cbn [db group trace]. settle_trace.
      observe. rewrite R1, R2, R3. cbn. repeat split. discriminate.
    + unfold bind, ret. cbn. settle_trace.
      observe. rewrite R1, R2, T1, T2. repeat split.
    + settle_trace. observe. rewrite R1, R2, T1, T2. repeat split.
  - unfold bind, ret. cbn. settle_trace.
    observe. rewrite R1, T1. repeat split.
Qed.

Lemma authenticate_parsed {Tg} (env : Env Tg) req event :
  authenticate env req = Some event <->
  parsed_body env req = Some (ParsedEvent event).
Proof.
  unfold authenticate. destruct (parsed_body env req) as [[|e]|]; split;
    intros H; try discriminate; now (injection H as ->).
Qed.

Lemma authenticate_none {Tg} (env : Env Tg) req :
  authenticate env req = None <->
  parsed_body env req = None \/ parsed_body env req = Some ParsedNull.
Proof.
  unfold authenticate. destruct (parsed_body env req) as [[|e]|]; split;
    intros H; auto; try discriminate; destruct H; discriminate.
Qed.

Lemma webhook_authenticated {Tg} (env : Env Tg) req (w : World Tg) event :
  authenticate env req = Some event ->
  exists new,
    Part000.webhook env req w
      = (Ok (match ack env event (db w) with Ok r => r | Throw _ => error500 end),
         mkWorld (db w) (target_group env event w) (trace w ++ new)) /\
    revokes new =
      match revoke_target env event (db w) with Some id => [id] | None => [] end /\
    (revoke_target env event (db w) = None -> telegram_calls new = []) /\
    logged_outcomes new =
      match revoke_target env event (db w) with
      | Some id => [(severity_of (classify (revoke_answer env id (group w))),
                     classify (revoke_answer env id (group w)))]
      | None => []
      end.
Proof.
  intros Hauth. apply authenticate_parsed in Hauth.
  unfold parsed_body in Hauth. unfold Part000.webhook.
  destruct (reconcile_spec env event w) as (new & E & R & T & L).
  assert (Hrun :
    try_catch (Part000.reconcile env event)
      (fun err => console SevError (MsgWebhookHandlerError err);; ret error500) w
    = (Ok (match ack env event (db w) with Ok r => r | Throw _ => error500 end),
       mkWorld (db w) (target_group env event w)
         (trace w ++ new ++
            match ack env event (db w) with
            | Ok _ => []
            | Throw e => [ELog SevError (MsgWebhookHandlerError e)]
            end))).
  { unfold try_catch. rewrite E.
    destruct (ack env event (db w)); run_monad.
    - now rewrite app_nil_r.
    - now rewrite <- app_assoc. }
  exists (new ++ match ack env event (db w) with
                 | Ok _ => []
                 | Throw e => [ELog SevError (MsgWebhookHandlerError e)]
                 end).
  split.
  - unfold try_catch, with_event in *.
    destruct (verifySignature env); rewrite Hauth; exact Hrun.
  - observe. destruct (ack env event (db w)); cbn; rewrite ?app_nil_r; auto.
Qed.

Lemma webhook_rejected {Tg} (env : Env Tg) req (w : World Tg) :
  parsed_body env req = None ->
  Part000.webhook env req w
    = (Ok (if verifySignature env then invalid400 else error500),
       mkWorld (db w) (group w)
         (trace w ++ [ELog SevError
                        (if verifySignature env then MsgSignatureFailed
                         else MsgWebhookHandlerError ExnParse)])).
Proof.
  unfold parsed_body, Part000.webhook. intros Hauth.
  unfold try_catch. destruct (verifySignature env); rewrite Hauth; reflexivity.
Qed.

(** A body that parses to [null]: the TypeError of [event.data] is caught
    by the outer handler. *)
Lemma webhook_null {Tg} (env : Env Tg) req (w : World Tg) :
  parsed_body env req = Some ParsedNull ->
  Part000.webhook env req w
    = (Ok error500,
       mkWorld (db w) (group w)
         (trace w ++ [ELog SevError (MsgWebhookHandlerError ExnType)])).
Proof.
  unfold parsed_body, Part000.webhook. intros Hauth.
  unfold try_catch. destruct (verifySignature env); rewrite Hauth; reflexivity.
Qed.

Lemma webhook_authenticated_appjs {Tg} (env : Env Tg) req (w : World Tg) event :
  authenticate env req = Some event ->
  exists new,
    AppJs.webhook env req w
      = (ack_appjs env event (db w),
         mkWorld (db w) (target_group env event w) (trace w ++ new)) /\
    revokes new =
      match revoke_target env event (db w) with Some id => [id] | None => [] end /\
    (revoke_target env event (db w) = None -> telegram_calls new = []).
Proof.
  intros Hauth. apply authenticate_parsed in Hauth.
  unfold parsed_body in Hauth. unfold AppJs.webhook. rewrite Hauth.
  apply reconcile_spec_appjs.
Qed.

Lemma webhook_rejected_appjs {Tg} (env : Env Tg) req (w : World Tg) :
  parsed_body env req = None ->
  AppJs.webhook env req w
    = (Ok invalid400,
       mkWorld (db w) (group w) (trace w ++ [ELog SevError MsgStripeWebhookError])).
Proof.
  unfold parsed_body, AppJs.webhook. intros ->. reflexivity.
Qed.

(** In app.js the same TypeError is outside every [try]: no call is made
    and no response is sent. *)
Lemma webhook_null_appjs {Tg} (env : Env Tg) req (w : World Tg) :
  parsed_body env req = Some ParsedNull ->
  AppJs.webhook env req w = (Throw ExnType, w).
Proof.
  unfold parsed_body, AppJs.webhook. intros ->. reflexivity.
Qed.

Lemma is_revoking_spec (t : option jsstring) :
  is_revoking t = true <->
  In t [Some (js "invoice.payment_failed"); Some (js "customer.subscription.deleted");
        Some (js "charge.failed"); Some (js "charge.dispute.created")].
Proof.
  unfold is_revoking, revoking_types. destruct t as [s|].
  - cbn [existsb In]. rewrite !orb_true_iff, !jseqb_eq.
    split.
    + intros [H|[H|[H|[H|H]]]]; try discriminate; subst; auto 6.
    + intros [H|[H|[H|[H|[]]]]]; inversion H; auto.
  - cbn. split; [discriminate|].
    intros [H|[H|[H|[H|[]]]]]; discriminate.
Qed.

Lemma revoke_target_resolved {Tg} (env : Env Tg) event d em id :
  resolved_email env (dataObject_of event) = Some em ->
  em <> [] ->
  lookup_account env d em = Ok (Some id) ->
  revoke_target env event d = if is_revoking (ev_type event) then Some id else None.
Proof.
  intros Hem Hne Hlook. unfold revoke_target. rewrite Hem. cbn [string_of].
  rewrite Hlook. destruct em; [congruence|]. cbn [truthy].
  now rewrite andb_true_r.
Qed.

Lemma revoke_target_not_revoking {Tg} (env : Env Tg) event d :
  is_revoking (ev_type event) = false -> revoke_target env event d = None.
Proof. intros H. unfold revoke_target. now rewrite H. Qed.

Lemma app_one_neq {A} (l : list A) (x : A) : l <> l ++ [x].
Proof.
  intros H. apply (f_equal (@List.length A)) in H.
  rewrite length_app in H. cbn in H. lia.
Qed.

(** C1.  For an authenticated event, in both revisions: the handler enters
    the Membership Enforcer with the account the resolved e-mail maps to
    exactly when the event type is one of the four revoking types, and an
    event of any other type sends no membership call to the provider,
    whatever its e-mail or account resolve to. *)
Theorem C1_revoke_iff_revoking_type {Tg} (env : Env Tg) req (w : World Tg) event :
  authenticate env req = Some event ->
  let after := trace (snd (Part000.webhook env req w)) in
  let after_appjs := trace (snd (AppJs.webhook env req w)) in
  (is_revoking (ev_type event) = true <->
   In (ev_type event)
      [Some (js "invoice.payment_failed"); Some (js "customer.subscription.deleted");
       Some (js "charge.failed"); Some (js "charge.dispute.created")]) /\
  (forall em id,
      resolved_email env (dataObject_of event) = Some em ->
      em <> [] ->
      lookup_account env (db w) em = Ok (Some id) ->
      (revokes after = revokes (trace w) ++ [id]
       <-> is_revoking (ev_type event) = true) /\
      (revokes after_appjs = revokes (trace w) ++ [id]
       <-> is_revoking (ev_type event) = true)) /\
  (is_revoking (ev_type event) = false ->
   telegram_calls after = telegram_calls (trace w) /\
   telegram_calls after_appjs = telegram_calls (trace w)).
Proof.
  intros Hauth. cbv zeta.
  destruct (webhook_authenticated env req w event Hauth) as (n & E & R & T & _).
  destruct (webhook_authenticated_appjs env req w event Hauth) as (n' & E' & R' & T').
  rewrite E, E'. cbn [snd trace].
  split; [apply is_revoking_spec|]. split.
  - intros em id Hem Hne Hlook.
    rewrite !revokes_app, R, R'.
    rewrite (revoke_target_resolved env event (db w) em id Hem Hne Hlook).
    destruct (is_revoking (ev_type event)).
    + split; split; auto.
    + rewrite app_nil_r.
      split; (split; [intros H; now apply app_one_neq in H | discriminate]).
  - intros Hno. rewrite !telegram_calls_app.
    rewrite T, T' by now apply revoke_target_not_revoking.
    now rewrite app_nil_r.
Qed.

Lemma C1_witness :
  authenticate (env_with (Some payment_failed_event) true None) some_request
    = Some payment_failed_event /\
  revokes (trace (snd (Part000.webhook
                         (env_with (Some payment_failed_event) true None)
                         some_request world_555))) = [555%Z].
Proof.
  split; [reflexivity|].
  destruct (C1_revoke_iff_revoking_type
              (env_with (Some payment_failed_event) true None)
              some_request world_555 payment_failed_event eq_refl)
    as (_ & H & _).
  destruct (H a_at_b 555%Z eq_refl ltac:(discriminate) eq_refl) as [[_ H1] _].
  exact (H1 eq_refl).
Defined.

(** The specification's two scenarios, run. *)
Example scenario_payment_failed :
  Part000.webhook (env_with (Some payment_failed_event) true None)
                  some_request world_555
  = (Ok ok200,
     mkWorld (Some linked_555) []
       [EConnect; EQuery (QSelectId a_at_b); ERelease;
        ELog SevLog (MsgAttempting 555 a_at_b);
        EBan 555; EUnban 555; ELog SevLog (MsgAttemptedRemove 555)]).
Proof. reflexivity. Qed.

Example scenario_checkout_completed :
  Part000.webhook (env_with (Some checkout_event) true None)
                  some_request world_555
  = (Ok ok200,
     mkWorld (Some linked_555) [555%Z]
       [EConnect; EQuery (QSelectId a_at_b); ERelease]).
Proof. reflexivity. Qed.

(** C2, as stated, fails: an authenticated event whose store lookup raises
    is answered with status 500. *)
Lemma C2_counterexample :
  authenticate (env_with (Some payment_failed_event) false None) some_request
    = Some payment_failed_event /\
  fst (Part000.webhook (env_with (Some payment_failed_event) false None)
         some_request world_555)
    = Ok (mkResponse 500 BodyWebhookError).
Proof. split; reflexivity. Qed.

(** There app.js leaves the request without any response. *)
Example appjs_lookup_failure_unanswered :
  fst (AppJs.webhook (env_with (Some payment_failed_event) false None)
         some_request world_555)
    = Throw (ExnStore ConnectFailed).
Proof. reflexivity. Qed.

Lemma ack_no_raise {Tg} (env : Env Tg) event d :
  lookup_raises env event d = false -> ack env event d = Ok ok200.
Proof.
  unfold lookup_raises, ack.
  destruct (truthy _); cbn [andb]; [|reflexivity].
  destruct (lookup_account _ _ _); [reflexivity|discriminate].
Qed.

Lemma ack_appjs_no_raise {Tg} (env : Env Tg) event d :
  lookup_raises_appjs env event d = false -> ack_appjs env event d = Ok ok200.
Proof.
  unfold lookup_raises_appjs, lookup_raises, ack_appjs.
  destruct (is_revoking _); cbn [andb]; [|reflexivity].
  destruct (truthy _); cbn [andb]; [|reflexivity].
  destruct (lookup_account _ _ _); [reflexivity|discriminate].
Qed.

(** C2, amended.  The handler of the revision with the dashboard always
    answers, once its [pool.connect()] has settled.  For a parsed and authenticated event the answer is 200 "OK"
    whenever the store lookup does not raise, whatever the e-mail, the
    account and the revoke come to; a status other than 200 means that the
    body was not parsed or authenticated, that it parsed to [null], or that
    the store lookup raised.  In app.js an authenticated event whose
    lookup does not raise is answered 200 "OK", and an unparsed or
    unauthenticated one 400.  A body that parses to [null] is answered 500
    by the revision with the dashboard and not at all by app.js. *)
Theorem C2_ack_unless_lookup_raises {Tg} (env : Env Tg) req (w : World Tg) :
  (exists r,
      fst (Part000.webhook env req w) = Ok r /\
      (forall event,
          authenticate env req = Some event ->
          lookup_raises env event (db w) = false -> r = ok200) /\
      (status r <> 200%Z ->
       parsed_body env req = None \/
       parsed_body env req = Some ParsedNull \/
       exists event, authenticate env req = Some event /\
                     lookup_raises env event (db w) = true)) /\
  (forall event,
      authenticate env req = Some event ->
      lookup_raises_appjs env event (db w) = false ->
      fst (AppJs.webhook env req w) = Ok ok200) /\
  (parsed_body env req = None ->
   fst (AppJs.webhook env req w) = Ok invalid400) /\
  (parsed_body env req = Some ParsedNull ->
   fst (Part000.webhook env req w) = Ok error500 /\
   fst (AppJs.webhook env req w) = Throw ExnType).
Proof.
  split; [|split; [|split]].
  - destruct (parsed_body env req) as [[|event]|] eqn:Hp.
    + rewrite webhook_null by assumption. cbn [fst].
      eexists. split; [reflexivity|]. split.
      * intros ev Hauth. apply authenticate_parsed in Hauth. congruence.
      * intros _. right. now left.
    + apply authenticate_parsed in Hp.
      destruct (webhook_authenticated env req w event Hp) as (n & E & _).
      rewrite E. cbn [fst]. eexists. split; [reflexivity|]. split.
      * intros ev Hauth. rewrite Hp in Hauth. injection Hauth as <-.
        intros Hno. now rewrite ack_no_raise.
      * intros Hst. right. right. exists event. split; [assumption|].
        destruct (lookup_raises env event (db w)) eqn:Hr; [reflexivity|].
        rewrite ack_no_raise in Hst by assumption. now cbn in Hst.
    + rewrite webhook_rejected by assumption. cbn [fst].
      eexists. split; [reflexivity|]. split.
      * intros ev Hauth. apply authenticate_parsed in Hauth. congruence.
      * intros _. now left.
  - intros event Hauth Hno.
    destruct (webhook_authenticated_appjs env req w event Hauth) as (n & E & _).
    rewrite E. cbn [fst]. now apply ack_appjs_no_raise.
  - intros Hauth. now rewrite webhook_rejected_appjs.
  - intros Hnull. now rewrite webhook_null, webhook_null_appjs.
Qed.

Lemma C2_witness :
  fst (Part000.webhook (env_with (Some payment_failed_event) true None)
         some_request world_555) = Ok ok200.
Proof.
  destruct (C2_ack_unless_lookup_raises
              (env_with (Some payment_failed_event) true None)
              some_request world_555) as ((r & Hr & Hok & _) & _).
  rewrite Hr. f_equal. exact (Hok payment_failed_event eq_refl eq_refl).
Defined.

(** C3.  With signature checking on, an event whose signature does not
    verify is answered 400 "Invalid signature" in both revisions; the only
    thing the handler does is write one error log line: no statement is
    sent to the store, no call to the messaging provider, and the table and
    the group are what they were. *)
Theorem C3_bad_signature_rejected {Tg} (env : Env Tg) req (w : World Tg) :
  verifySignature env = true ->
  constructEvent env (raw_body req) (stripe_signature req) = None ->
  let res := Part000.webhook env req w in
  let res_appjs := AppJs.webhook env req w in
  fst res = Ok (mkResponse 400 BodyInvalidSignature) /\
  fst res_appjs = Ok (mkResponse 400 BodyInvalidSignature) /\
  trace (snd res) = trace w ++ [ELog SevError MsgSignatureFailed] /\
  trace (snd res_appjs) = trace w ++ [ELog SevError MsgStripeWebhookError] /\
  store_queries (trace (snd res)) = store_queries (trace w) /\
  store_queries (trace (snd res_appjs)) = store_queries (trace w) /\
  telegram_calls (trace (snd res)) = telegram_calls (trace w) /\
  telegram_calls (trace (snd res_appjs)) = telegram_calls (trace w) /\
  db (snd res) = db w /\ group (snd res) = group w /\
  db (snd res_appjs) = db w /\ group (snd res_appjs) = group w.
Proof.
  intros Hv Hsig. cbv zeta.
  assert (Hauth : parsed_body env req = None)
    by (unfold parsed_body; now rewrite Hv).
  rewrite webhook_rejected, webhook_rejected_appjs by assumption.
  rewrite Hv. cbn [fst snd db group trace].
  rewrite !store_queries_app, !telegram_calls_app. cbn. rewrite !app_nil_r.
  repeat split.
Qed.

Lemma C3_witness :
  fst (Part000.webhook (env_with None true None) some_request world_555)
    = Ok (mkResponse 400 BodyInvalidSignature) /\
  store_queries (trace (snd (Part000.webhook (env_with None true None)
                               some_request world_555))) = [].
Proof.
  destruct (C3_bad_signature_rejected (env_with None true None)
              some_request world_555 eq_refl eq_refl)
    as (H1 & _ & _ & _ & H2 & _).
  split; [exact H1 | exact H2].
Defined.

(** C4, as stated, fails: with a provider that answers the removal of a
    non-member "not a participant", the first delivery of a revoking event
    for a member of the group is classified [removed] and the second
    [not_a_member]. *)
Lemma C4_counterexample :
  let env := env_with (Some payment_failed_event) true None in
  let first := Part000.webhook env some_request world_555 in
  let second := Part000.webhook env some_request (snd first) in
  outcomes (trace (snd first)) = [removed] /\
  outcomes (trace (snd second)) = [removed; not_a_member] /\
  removed <> not_a_member.
Proof. cbv zeta. repeat split. discriminate. Qed.

(** C4, amended.  Two deliveries of the same revoking event against the
    same stored mapping are both answered 200 "OK", leave the table as it
    is, and enter the Membership Enforcer with the same account both
    times.  The outcome of each delivery is the classification of what the
    provider answers at that time, so the two outcomes need not be equal;
    when the provider answers the second removal with a "not a
    participant" error, the second outcome is [not_a_member]. *)
Theorem C4_redelivery {Tg} (env : Env Tg) req (w : World Tg) event em id :
  authenticate env req = Some event ->
  is_revoking (ev_type event) = true ->
  resolved_email env (dataObject_of event) = Some em ->
  em <> [] ->
  lookup_account env (db w) em = Ok (Some id) ->
  let first := Part000.webhook env req w in
  let second := Part000.webhook env req (snd first) in
  fst first = Ok ok200 /\ fst second = Ok ok200 /\
  db (snd first) = db w /\ db (snd second) = db w /\
  revokes (trace (snd first)) = revokes (trace w) ++ [id] /\
  revokes (trace (snd second)) = revokes (trace (snd first)) ++ [id] /\
  outcomes (trace (snd first))
    = outcomes (trace w) ++ [classify (revoke_answer env id (group w))] /\
  outcomes (trace (snd second))
    = outcomes (trace (snd first))
      ++ [classify (revoke_answer env id (group (snd first)))] /\
  (forall d,
      revoke_answer env id (group (snd first)) = ApiError (Some d) ->
      includes d (js "USER_NOT_PARTICIPANT") = true ->
      outcomes (trace (snd second))
        = outcomes (trace (snd first)) ++ [not_a_member]).
Proof.
  intros Hauth Hrev Hem Hne Hlook. cbv zeta.
  assert (Hack : forall d, d = db w -> ack env event d = Ok ok200).
  { intros d ->. unfold ack. rewrite Hem. cbn [string_of]. rewrite Hlook.
    now destruct (truthy _). }
  assert (Htarget : revoke_target env event (db w) = Some id).
  { rewrite (revoke_target_resolved env event (db w) em id Hem Hne Hlook).
    now rewrite Hrev. }
  destruct (webhook_authenticated env req w event Hauth) as (n1 & E1 & R1 & _ & L1).
  rewrite E1. cbn [fst snd db trace group].
  set (w1 := mkWorld (db w) (target_group env event w) (trace w ++ n1)).
  destruct (webhook_authenticated env req w1 event Hauth) as (n2 & E2 & R2 & _ & L2).
  rewrite E2. cbn [fst snd db trace group]. subst w1. cbn [db trace group] in *.
  rewrite Htarget in *. rewrite (Hack _ eq_refl).
  unfold outcomes. rewrite !revokes_app, !logged_outcomes_app, !map_app.
  rewrite R1, R2, L1, L2. cbn [map snd].
  repeat split.
  intros d Hans Hinc. rewrite Hans. unfold classify. now rewrite Hinc.
Qed.

Lemma C4_witness :
  let env := env_with (Some payment_failed_event) true None in
  let first := Part000.webhook env some_request world_555 in
  let second := Part000.webhook env some_request (snd first) in
  fst first = Ok ok200 /\ fst second = Ok ok200 /\
  revokes (trace (snd second)) = [555%Z; 555%Z].
Proof.
  cbv zeta.
  destruct (C4_redelivery (env_with (Some payment_failed_event) true None)
              some_request world_555 payment_failed_event a_at_b 555%Z
              eq_refl eq_refl eq_refl ltac:(discriminate) eq_refl)
    as (H1 & H2 & _ & _ & H3 & H4 & _).
  split; [exact H1|]. split; [exact H2|].
  rewrite H4, H3. reflexivity.
Defined.

Lemma C5_witness :
  logged_outcomes
    (trace (snd (Part000.removeUserFromGroup
                   (env_with None true None) 555 (mkWorld None [] []))))
  = [(SevWarn, not_a_member)] /\
  logged_outcomes
    (trace (snd (AppJs.removeUserFromGroup
                   (env_with None true None) 555 (mkWorld None [] []))))
  = [(SevError, failed)].
Proof.
  destruct (C5_not_a_member_by_revision (env_with None true None) 555
              (mkWorld None [] []))
    as (_ & _ & (new & Ht & Hl & _) & _ & _ & _ & _ & _ & Happ & _).
  split.
  - rewrite Ht. exact Hl.
  - destruct (Happ eq_refl) as (n & Hn & Hf & _). rewrite Hn. exact Hf.
Defined.

(** ** The store and the linking flow *)

Lemma includes_nonempty (s p : jsstring) :
  p <> [] -> includes s p = true -> s <> [].
Proof.
  intros Hp H ->. destruct p; [congruence|]. discriminate.
Qed.

Lemma qualifies_spec (text : jsstring) :
  qualifies text = true ->
  startsWith (trim text) (js "/") = false /\
  includes (trim text) (js "@") = true /\
  includes (trim text) (js ".") = true /\
  trim text <> [].
Proof.
  unfold qualifies. rewrite !andb_true_iff, negb_true_iff.
  intros [[H1 H2] H3]. repeat split; auto.
  apply (includes_nonempty _ (js "@")); [discriminate|assumption].
Qed.

Lemma getEmail_spec {Tg} (env : Env Tg) (id : Z) (w : World Tg) :
  exists new,
    getEmailByUser env id w
      = (if pool_connect env then
           match db w with
           | Some t => Ok (stored_email t id)
           | None => Throw (ExnStore UndefinedTable)
           end
         else Throw (ExnStore ConnectFailed),
         mkWorld (db w) (group w) (trace w ++ new)) /\
    replies new = [].
Proof.
  unfold getEmailByUser, stored_email. run_monad.
  destruct (pool_connect env); cbn.
  - destruct (db w) eqn:Hd; cbn; rewrite ?Hd; eexists; close_trace.
  - exists []. rewrite app_nil_r. destruct w; close_trace.
Qed.

Lemma insert_up {Tg} (env : Env Tg) (id : Z) (em : jsstring) (w : World Tg) t :
  pool_connect env = true -> db w = Some t ->
  insertOrUpdateUser env id em w
    = (match sql_upsert (joined_at_default env) id em t with
       | inl e => Throw (ExnStore e)
       | inr _ => Ok true
       end,
       mkWorld (match sql_upsert (joined_at_default env) id em t with
                | inl _ => Some t
                | inr t' => Some t'
                end)
               (group w)
               (trace w ++ [EConnect; EQuery (QUpsert id em); ERelease])).
Proof.
  intros Hup Hd. unfold insertOrUpdateUser. run_monad. rewrite Hup. cbn.
  rewrite Hd.
  destruct (sql_upsert (joined_at_default env) id em t); cbn;
    now rewrite <- ?app_assoc.
Qed.

Lemma reply_spec {Tg} (env : Env Tg) (r : Reply) (w : World Tg) :
  reply env r w
    = (if sendMessage env r then Ok tt else Throw (ExnTelegram None),
       mkWorld (db w) (group w) (trace w ++ [EReply r])).
Proof. run_monad. now destruct (sendMessage env r). Qed.

Lemma no_user_some (uid : Z) : uid <> 0%Z -> no_user (Some uid) = false.
Proof. intros H. cbn. now apply Z.eqb_neq. Qed.

Lemma orNull_stored (t : Table) (id : Z) :
  orNull (stored_email t id) = stored_email t id.
Proof.
  unfold stored_email, orNull at 1.
  destruct (option_map email (hd_error (sql_select_email id t))) as [[|c s]|];
    reflexivity.
Qed.

(** The text handler on a qualifying message of an identified account,
    while the store answers. *)
Lemma on_text_qualifying {Tg} (env : Env Tg) (w : World Tg) t uid text :
  db w = Some t -> pool_connect env = true -> uid <> 0%Z ->
  qualifies text = true ->
  exists new,
    match stored_email t uid with
    | Some old =>
        snd (bot_on_text env (mkTextUpdate (Some uid) text) w)
          = mkWorld (db w) (group w) (trace w ++ new) /\
        replies new = [ReplyAlreadyLinked old]
    | None =>
        match sql_upsert (joined_at_default env) uid (trim text) t with
        | inr t' =>
            snd (bot_on_text env (mkTextUpdate (Some uid) text) w)
              = mkWorld (Some t') (group w) (trace w ++ new) /\
            replies new = [ReplyLinked (trim text)]
        | inl e =>
            bot_on_text env (mkTextUpdate (Some uid) text) w
              = (Throw (ExnStore e), mkWorld (db w) (group w) (trace w ++ new)) /\
            replies new = []
        end
    end.
Proof.
  intros Hd Hup Hid Hq.
  destruct (qualifies_spec text Hq) as (Hslash & Hat & Hdot & Hne).
  remember (bot_on_text env (mkTextUpdate (Some uid) text) w) as res eqn:Hrun.
  unfold bot_on_text in Hrun. cbn [from_id message_text] in Hrun.
  rewrite (no_user_some uid Hid), Hslash, Hat, Hdot in Hrun.
  cbn [andb negb user_of] in Hrun.
  destruct (getEmail_spec env uid w) as (n1 & E1 & P1).
  unfold bind at 1 in Hrun. rewrite E1, Hup, Hd in Hrun. clear E1.
  rewrite orNull_stored in Hrun.
  destruct (stored_email t uid) as [old|].
  - rewrite reply_spec in Hrun. subst res. cbn [snd db group trace]. rewrite Hd.
    settle_trace. rewrite replies_app, P1. reflexivity.
  - unfold bind at 1 in Hrun.
    erewrite insert_up in Hrun by (try eassumption; reflexivity).
    cbn [db group trace] in Hrun.
    destruct (sql_upsert (joined_at_default env) uid (trim text) t) as [e|t'].
    + subst res. rewrite Hd. settle_trace. rewrite !replies_app, P1. reflexivity.
    + rewrite reply_spec in Hrun. subst res. cbn [snd db group trace].
      settle_trace. rewrite !replies_app, P1. reflexivity.
Qed.

Lemma no_user_false (from : option Z) :
  no_user from = false -> exists uid, from = Some uid /\ uid <> 0%Z.
Proof.
  destruct from as [uid|]; cbn; [|discriminate].
  intros H. exists uid. split; [reflexivity|]. now apply Z.eqb_neq.
Qed.

(** The only way the text handler changes the table: a qualifying message
    of an identified account without a stored e-mail, upserted. *)
Lemma on_text_db {Tg} (env : Env Tg) (ctx : TextUpdate) (w : World Tg) :
  db (snd (bot_on_text env ctx w)) = db w \/
  exists uid t t',
    from_id ctx = Some uid /\ uid <> 0%Z /\
    qualifies (message_text ctx) = true /\
    db w = Some t /\ stored_email t uid = None /\
    sql_upsert (joined_at_default env) uid (trim (message_text ctx)) t = inr t' /\
    db (snd (bot_on_text env ctx w)) = Some t'.
Proof.
  destruct (no_user (from_id ctx)) eqn:Hno.
  { left. unfold bot_on_text. rewrite Hno. now rewrite reply_spec. }
  destruct (no_user_false _ Hno) as (uid & Hfrom & Hid).
  destruct (qualifies (message_text ctx)) eqn:Hq.
  - destruct (pool_connect env) eqn:Hup; [destruct (db w) as [t|] eqn:Hd|].
    + destruct ctx as [from text]. cbn [from_id message_text] in *. subst from.
      destruct (on_text_qualifying env w t uid text Hd Hup Hid Hq) as (new & H).
      destruct (stored_email t uid) as [old|] eqn:Hst.
      * left. destruct H as [-> _]. now rewrite <- Hd.
      * destruct (sql_upsert (joined_at_default env) uid (trim text) t)
          as [e|t'] eqn:Hu.
        -- left. destruct H as [-> _]. cbn. now rewrite <- Hd.
        -- right. exists uid, t, t'. destruct H as [-> _]. now repeat split.
    + left. unfold bot_on_text. rewrite Hno.
      destruct (startsWith _ _); [cbn; auto|].
      destruct (negb _); [rewrite reply_spec; cbn; auto|].
      destruct (getEmail_spec env (user_of (from_id ctx)) w) as (n1 & E1 & _).
      unfold bind. rewrite E1, Hup, Hd. reflexivity.
    + left. unfold bot_on_text. rewrite Hno.
      destruct (startsWith _ _); [reflexivity|].
      destruct (negb _); [now rewrite reply_spec|].
      destruct (getEmail_spec env (user_of (from_id ctx)) w) as (n1 & E1 & _).
      unfold bind. rewrite E1, Hup. reflexivity.
  - left. unfold bot_on_text. rewrite Hno.
    unfold qualifies in Hq.
    destruct (startsWith (trim (message_text ctx)) (js "/")); [reflexivity|].
    cbn [negb andb] in Hq. rewrite Hq. cbn [negb]. now rewrite reply_spec.
Qed.

Lemma status_handlers_db {Tg} (env : Env Tg) (from : option Z) (w : World Tg) :
  db (snd (bot_start env from w)) = db w /\
  db (snd (bot_command_email env from w)) = db w.
Proof.
  unfold bot_start, bot_command_email.
  destruct (no_user from); [split; reflexivity|].
  destruct (getEmail_spec env (user_of from) w) as (n1 & E1 & _).
  unfold bind. rewrite E1.
  destruct (pool_connect env); [destruct (db w) as [t|] eqn:Hd|];
    try (split; reflexivity).
  rewrite orNull_stored.
  destruct (stored_email t (user_of from)); rewrite !reply_spec; cbn; auto.
Qed.

Lemma telegram_route_db {Tg} (h : M Tg unit) (w : World Tg) :
  db (snd (telegram_route h w)) = db (snd (h w)).
Proof.
  unfold telegram_route. run_monad. now destruct (h w) as [[[]|e] w'].
Qed.

Lemma webhook_db {Tg} (env : Env Tg) req (w : World Tg) :
  db (snd (Part000.webhook env req w)) = db w.
Proof.
  destruct (parsed_body env req) as [[|event]|] eqn:Hp.
  - now rewrite webhook_null.
  - apply authenticate_parsed in Hp.
    destruct (webhook_authenticated env req w event Hp) as (n & E & _).
    now rewrite E.
  - now rewrite webhook_rejected.
Qed.

Lemma dashboard_db {Tg} (env : Env Tg) req (w : World Tg) :
  db (snd (Part000.dashboard env req w)) = db w.
Proof.
  unfold Part000.dashboard, Part000.listing.
  destruct (Part000.token_differs _ _); [reflexivity|].
  run_monad. destruct (pool_connect env); [|reflexivity]. cbn.
  destruct (db w) as [t|] eqn:Hd; cbn; rewrite ?Hd; [|reflexivity].
  now destruct (sql_select_all _ t).
Qed.

(** Every request leaves the table as it is, but for the one write of the
    text handler. *)
Lemma serve_db {Tg} (env : Env Tg) (r : Request) (w : World Tg) :
  db (snd (serve env r w)) = db w \/
  exists ctx uid t t',
    r = ReqText ctx /\
    from_id ctx = Some uid /\ uid <> 0%Z /\
    qualifies (message_text ctx) = true /\
    db w = Some t /\ stored_email t uid = None /\
    sql_upsert (joined_at_default env) uid (trim (message_text ctx)) t = inr t' /\
    db (snd (serve env r w)) = Some t'.
Proof.
  destruct r as [from|from|ctx|req|req]; cbn [serve].
  - left. rewrite telegram_route_db. apply status_handlers_db.
  - left. rewrite telegram_route_db. apply status_handlers_db.
  - rewrite telegram_route_db.
    destruct (on_text_db env ctx w) as [H|(uid & t & t' & H)]; [now left|].
    right. exists ctx, uid, t, t'. tauto.
  - left. apply webhook_db.
  - left. apply dashboard_db.
Qed.

(** ** What an upsert does to the rows *)

Lemma upsert_rows dflt id em t t' r :
  sql_upsert dflt id em t = inr t' ->
  In r (rows t') ->
  In r (rows t) \/ (telegram_id r = id /\ email r = em).
Proof.
  unfold sql_upsert.
  destruct (existsb (owned_by_other id em) (rows t)); [discriminate|].
  destruct (existsb _ (rows t)); intros [= <-]; cbn [rows].
  - rewrite in_map_iff. intros (x & <- & Hx). unfold set_email.
    destruct (Z.eqb_spec (telegram_id x) id); [right; cbn; auto | now left].
  - rewrite in_app_iff. intros [H|[<-|[]]]; [now left | right; cbn; auto].
Qed.


Lemma upsert_columns dflt id em t t' :
  sql_upsert dflt id em t = inr t' -> columns t' = columns t.
Proof.
  unfold sql_upsert.
  destruct (existsb (owned_by_other id em) (rows t)); [discriminate|].
  now destruct (existsb _ (rows t)); intros [= <-].
Qed.

(** The update step of the store: on an account that has a row, an
    accepted upsert leaves it with the new e-mail. *)
Lemma upsert_replaces dflt id em t t' r :
  sql_upsert dflt id em t = inr t' ->
  In r (rows t') -> telegram_id r = id -> email r = em.
Proof.
  unfold sql_upsert.
  destruct (existsb (owned_by_other id em) (rows t)); [discriminate|].
  destruct (existsb (fun r => Z.eqb (telegram_id r) id) (rows t)) eqn:Hex;
    intros [= <-]; cbn [rows].
  - rewrite in_map_iff. intros (x & <- & Hx). unfold set_email.
    destruct (Z.eqb_spec (telegram_id x) id); cbn; congruence.
  - rewrite in_app_iff. intros [H|[<-|[]]] Hid; [|reflexivity].
    exfalso. assert (Ht : existsb (fun r => Z.eqb (telegram_id r) id) (rows t) = true).
    { apply existsb_exists. exists r. split; [assumption|]. now apply Z.eqb_eq. }
    congruence.
Qed.

(** ** Linking *)

Lemma filter_nil_existsb {A} (f : A -> bool) (l : list A) :
  filter f l = [] -> existsb f l = false.
Proof.
  induction l as [|x l IH]; cbn; [reflexivity|].
  destruct (f x); [discriminate|]. exact IH.
Qed.

Lemma upsert_fresh dflt id em t :
  sql_select_email id t = [] ->
  existsb (owned_by_other id em) (rows t) = false ->
  sql_upsert dflt id em t
    = inr (mkTable (columns t)
             (rows t ++ [mkRow id em (insert_default dflt t)])).
Proof.
  intros Hsel Hown. unfold sql_upsert. rewrite Hown.
  now rewrite (filter_nil_existsb _ _ Hsel).
Qed.

Lemma select_after_insert (dflt : option Z) id em t :
  sql_select_email id t = [] ->
  sql_select_email id (mkTable (columns t) (rows t ++ [mkRow id em dflt]))
    = [mkRow id em dflt].
Proof.
  unfold sql_select_email. cbn [rows]. intros H.
  rewrite filter_app, H. cbn. now rewrite Z.eqb_refl.
Qed.

(** C6, as stated, fails: the e-mail an unlinked account sends may be
    stored for another account already; the unique index on the e-mail
    column then rejects the write, no link is stored and no confirmation
    is sent. *)
Lemma C6_counterexample :
  let t := mkTable ["telegram_id"; "email"]%string [mkRow 1 a_at_b None] in
  let res := bot_on_text (env_with None true None) (text_from 2 "a@b.com")
               (mkWorld (Some t) [] []) in
  sql_select_email 2 t = [] /\
  qualifies (js "a@b.com") = true /\
  fst res = Throw (ExnStore UniqueViolation) /\
  db (snd res) = Some t /\
  replies (trace (snd res)) = [].
Proof. cbv zeta. repeat split. Qed.

(** C6, amended.  While the store answers, and for an account id other
    than 0 with no row in the table: one non-command text containing '@'
    and '.' whose trimmed form is not the stored e-mail of another account
    appends exactly one row, the account with that trimmed text, and the
    confirmation is sent; a second such message from the same account
    leaves the table as it is, so the account still has that one row with
    the first e-mail, and the reply is the already-linked message naming
    that e-mail. *)
Theorem C6_link_once {Tg} (env1 env2 : Env Tg) (w : World Tg) t uid text1 text2 :
  db w = Some t ->
  pool_connect env1 = true -> pool_connect env2 = true ->
  uid <> 0%Z ->
  sql_select_email uid t = [] ->
  qualifies text1 = true -> qualifies text2 = true ->
  existsb (owned_by_other uid (trim text1)) (rows t) = false ->
  let w1 := snd (bot_on_text env1 (mkTextUpdate (Some uid) text1) w) in
  let w2 := snd (bot_on_text env2 (mkTextUpdate (Some uid) text2) w1) in
  let link := mkRow uid (trim text1) (insert_default (joined_at_default env1) t) in
  let t1 := mkTable (columns t) (rows t ++ [link]) in
  db w1 = Some t1 /\
  sql_select_email uid t1 = [link] /\
  replies (trace w1) = replies (trace w) ++ [ReplyLinked (trim text1)] /\
  db w2 = Some t1 /\
  replies (trace w2) = replies (trace w1) ++ [ReplyAlreadyLinked (trim text1)].
Proof.
  intros Hd Hup1 Hup2 Hid Hsel Hq1 Hq2 Hown. cbv zeta.
  destruct (on_text_qualifying env1 w t uid text1 Hd Hup1 Hid Hq1) as (n1 & H1).
  assert (Hst : stored_email t uid = None)
    by (unfold stored_email; now rewrite Hsel).
  rewrite Hst, (upsert_fresh _ uid (trim text1) t Hsel Hown) in H1.
  destruct H1 as [E1 P1]. rewrite E1. cbn [db trace].
  set (link := mkRow uid (trim text1) (insert_default (joined_at_default env1) t)).
  set (t1 := mkTable (columns t) (rows t ++ [link])).
  assert (Hsel1 : sql_select_email uid t1 = [link])
    by (apply select_after_insert; assumption).
  assert (Hst1 : stored_email t1 uid = Some (trim text1)).
  { unfold stored_email. rewrite Hsel1. cbn.
    destruct (qualifies_spec text1 Hq1) as (_ & _ & _ & Hne).
    now destruct (trim text1). }
  destruct (on_text_qualifying env2 (mkWorld (Some t1) (group w) (trace w ++ n1))
              t1 uid text2 eq_refl Hup2 Hid Hq2) as (n2 & H2).
  rewrite Hst1 in H2. destruct H2 as [E2 P2]. rewrite E2. cbn [db trace].
  rewrite !replies_app, P1, P2. repeat split; assumption.
Qed.

Lemma C6_witness :
  let env := env_with None true None in
  let w1 := snd (bot_on_text env (text_from 555 " a@b.com ")
                   (started env [])) in
  let w2 := snd (bot_on_text env (text_from 555 "other@b.com") w1) in
  db w1 = Some linked_555 /\ db w2 = Some linked_555 /\
  replies (trace w2) = [ReplyLinked a_at_b; ReplyAlreadyLinked a_at_b].
Proof.
  cbv zeta.
  destruct (C6_link_once (env_with None true None) (env_with None true None)
              (started (env_with None true None) []) created_table 555%Z
              (js " a@b.com ") (js "other@b.com")
              eq_refl eq_refl eq_refl ltac:(discriminate) eq_refl eq_refl eq_refl
              eq_refl)
    as (H1 & _ & H2 & H3 & H4).
  split; [exact H1|]. split; [exact H3|].
  unfold text_from. rewrite H4, H2. reflexivity.
Defined.





(** ** The stored e-mails *)

(** Where a row of the table comes from. *)
Lemma run_rows {Tg} (reqs : list (Env Tg * Request)) :
  forall (w : World Tg) t r,
    db (run reqs w) = Some t -> In r (rows t) ->
    (exists t0, db w = Some t0 /\ In r (rows t0)) \/
    (exists env ctx,
        In (env, ReqText ctx) reqs /\
        from_id ctx = Some (telegram_id r) /\
        email r = trim (message_text ctx) /\
        qualifies (message_text ctx) = true).
Proof.
  induction reqs as [|[env q] reqs IH]; intros w t r Hd Hin; cbn [run] in Hd.
  - left. now exists t.
  - destruct (IH _ t r Hd Hin) as [(t1 & Hd1 & Hin1) | (env' & ctx & Hq & H)].
    + destruct (serve_db env q w)
        as [E | (ctx & uid & t0 & t' & -> & Hfrom & _ & Hqual & Hd0 & _ & Hu & E)].
      * left. exists t1. split; [congruence|assumption].
      * rewrite E in Hd1. injection Hd1 as <-.
        destruct (upsert_rows _ _ _ _ _ r Hu Hin1) as [Hold | [Hid Hem]].
        -- left. now exists t0.
        -- right. exists env, ctx. subst uid. repeat split; auto. now left.
    + right. exists env', ctx. split; [now right | assumption].
Qed.

Lemma started_rows {Tg} (env0 : Env Tg) (g : Tg) t r :
  db (started env0 g) = Some t -> In r (rows t) -> False.
Proof.
  unfold started, initDb. run_monad.
  destruct (pool_connect env0); cbn; [|discriminate].
  now intros [= <-].
Qed.

(** C10.  From a database [initDb] initialised, after any sequence of
    requests: every stored e-mail is the trimmed text of a text message of
    the row's account, contains '@' and '.', and does not start with '/'.
    A message whose text, as sent or once trimmed, starts with '/' leaves
    the table as it is and sends nothing to the store. *)
Theorem C10_stored_emails {Tg} (env0 : Env Tg) (g : Tg)
    (reqs : list (Env Tg * Request)) :
  (forall t r,
      db (run reqs (started env0 g)) = Some t -> In r (rows t) ->
      (exists env ctx,
          In (env, ReqText ctx) reqs /\
          from_id ctx = Some (telegram_id r) /\
          email r = trim (message_text ctx)) /\
      includes (email r) (js "@") = true /\
      includes (email r) (js ".") = true /\
      startsWith (email r) (js "/") = false) /\
  (forall env ctx (w : World Tg),
      startsWith (message_text ctx) (js "/") = true \/
      startsWith (trim (message_text ctx)) (js "/") = true ->
      db (snd (bot_on_text env ctx w)) = db w /\
      store_queries (trace (snd (bot_on_text env ctx w))) = store_queries (trace w)).
Proof.
  split.
  - intros t r Hd Hin.
    destruct (run_rows reqs _ t r Hd Hin)
      as [(t0 & Hd0 & Hin0) | (env & ctx & Hq & Hfrom & Hem & Hqual)].
    + destruct (started_rows env0 g t0 r Hd0 Hin0).
    + destruct (qualifies_spec _ Hqual) as (Hs & Ha & Hdot & _).
      rewrite Hem. repeat split; auto. now exists env, ctx.
  - intros env ctx w Hslash.
    assert (Ht : startsWith (trim (message_text ctx)) (js "/") = true).
    { destruct Hslash as [H|H]; [now apply trim_keeps_slash | assumption]. }
    unfold bot_on_text. rewrite Ht.
    destruct (no_user (from_id ctx)).
    + rewrite reply_spec. cbn [snd db trace].
      rewrite store_queries_app. cbn. now rewrite app_nil_r.
    + split; reflexivity.
Qed.

Lemma C10_witness :
  let env := env_with None true None in
  let reqs := [(env, ReqText (text_from 555 " a@b.com "));
               (env, ReqText (text_from 555 "/x@y.z"))] in
  db (run reqs (started env [])) = Some linked_555 /\
  includes a_at_b (js "@") = true /\
  startsWith a_at_b (js "/") = false.
Proof.
  cbv zeta. split; [reflexivity|].
  destruct (C10_stored_emails (env_with None true None) []
              [(env_with None true None, ReqText (text_from 555 " a@b.com "));
               (env_with None true None, ReqText (text_from 555 "/x@y.z"))])
    as [H _].
  destruct (H linked_555 (mkRow 555 a_at_b None) eq_refl (or_introl eq_refl))
    as (_ & Ha & _ & Hs).
  split; [exact Ha | exact Hs].
Defined.

(** ** The admin listing *)

Lemma joined_le_total (a b : option Z) :
  joined_le a b = true \/ joined_le b a = true.
Proof. destruct a, b; cbn; auto. rewrite !Z.leb_le. lia. Qed.

Lemma joined_le_trans (a b c : option Z) :
  joined_le a b = true -> joined_le b c = true -> joined_le a c = true.
Proof.
  destruct a, b, c; cbn; auto; try discriminate.
  rewrite !Z.leb_le. lia.
Qed.

Lemma order_le_total desc (a b : Row) :
  order_le desc a b = false -> order_le desc b a = true.
Proof.
  unfold order_le. intros H.
  destruct desc;
    [destruct (joined_le_total (joined_at b) (joined_at a))
    |destruct (joined_le_total (joined_at a) (joined_at b))]; congruence.
Qed.

Lemma order_le_trans desc (a b c : Row) :
  order_le desc a b = true -> order_le desc b c = true -> order_le desc a c = true.
Proof.
  unfold order_le. destruct desc; intros H1 H2.
  - exact (joined_le_trans _ _ _ H2 H1).
  - exact (joined_le_trans _ _ _ H1 H2).
Qed.

Lemma insert_sorted_perm desc r l : Permutation (r :: l) (insert_sorted desc r l).
Proof.
  induction l as [|x l IH]; cbn [insert_sorted]; [reflexivity|].
  destruct (order_le desc r x); [reflexivity|].
  rewrite perm_swap. now apply perm_skip.
Qed.

Lemma sort_rows_perm desc l : Permutation l (sort_rows desc l).
Proof.
  induction l as [|r l IH]; cbn [sort_rows]; [reflexivity|].
  rewrite <- insert_sorted_perm. now apply perm_skip.
Qed.

Lemma insert_sorted_sorted desc r l :
  sorted_by desc l -> sorted_by desc (insert_sorted desc r l).
Proof.
  induction l as [|x l IH]; cbn [insert_sorted sorted_by].
  - intros _. split; [intros y []|exact I].
  - intros [Hx Hl]. destruct (order_le desc r x) eqn:Hrx; cbn [sorted_by].
    + split; [|split; assumption].
      intros y [<-|Hy]; [assumption|].
      apply (order_le_trans desc r x y Hrx). now apply Hx.
    + split; [|now apply IH].
      intros y Hy.
      apply (Permutation_in _ (Permutation_sym (insert_sorted_perm desc r l))) in Hy.
      destruct Hy as [<-|Hy]; [now apply order_le_total | now apply Hx].
Qed.

Lemma sort_rows_sorted desc l : sorted_by desc (sort_rows desc l).
Proof.
  induction l as [|r l IH]; cbn [sort_rows]; [exact I|].
  now apply insert_sorted_sorted.
Qed.

(** What the handler does once the gate is passed. *)
Lemma listing_spec {Tg} (env : Env Tg) req (w : World Tg) :
  fst (Part000.listing env req w)
  = Ok (if pool_connect env then
          match db w with
          | Some t =>
              match sql_select_all (Part000.is_desc (Part000.sortOrder_of (q_order req))) t with
              | inr l =>
                  mkResponse 200
                    (BodyDashboard (q_token req)
                       (Part000.oppositeOrder_of (Part000.sortOrder_of (q_order req))) l)
              | inl _ => mkResponse 500 BodyErrorLoadingDashboard
              end
          | None => mkResponse 500 BodyErrorLoadingDashboard
          end
        else mkResponse 500 BodyErrorLoadingDashboard).
Proof.
  unfold Part000.listing. run_monad.
  destruct (pool_connect env); [|reflexivity]. cbn.
  destruct (db w) as [t|]; [|reflexivity]. cbn.
  now destruct (sql_select_all _ t).
Qed.

Lemma listing_not_forbidden {Tg} (env : Env Tg) req (w : World Tg) :
  exists r, fst (Part000.listing env req w) = Ok r /\ status r <> 403%Z.
Proof.
  rewrite listing_spec. eexists. split; [reflexivity|].
  destruct (pool_connect env); [|discriminate].
  destruct (db w) as [t|]; [|discriminate].
  destruct (sql_select_all _ t); discriminate.
Qed.

Lemma token_differs_spec token configured :
  Part000.token_differs token configured = true <-> ~ strict_equal token configured.
Proof.
  destruct token as [|s|], configured as [t|]; cbn;
    try (split; [intros _ [] | reflexivity]).
  - split; [discriminate | intros H; destruct (H I)].
  - rewrite negb_true_iff, <- not_true_iff_false. now rewrite jseqb_eq.
Qed.

Lemma upsert_undated dflt id em t t' :
  undated t -> sql_upsert dflt id em t = inr t' -> undated t'.
Proof.
  intros [Hcol Hrows] Hu. split.
  - unfold hasColumn in *. now rewrite (upsert_columns _ _ _ _ _ Hu).
  - revert Hu. unfold sql_upsert, insert_default.
    destruct (existsb (owned_by_other id em) (rows t)); [discriminate|].
    destruct (existsb _ (rows t)); intros [= <-] r; cbn [rows].
    + rewrite in_map_iff. intros (x & <- & Hx). unfold set_email.
      destruct (Z.eqb _ _); cbn; now apply Hrows.
    + rewrite in_app_iff, Hcol. intros [H|[<-|[]]]; [now apply Hrows | reflexivity].
Qed.

Lemma run_undated {Tg} (reqs : list (Env Tg * Request)) :
  forall (w : World Tg),
    (forall t, db w = Some t -> undated t) ->
    forall t, db (run reqs w) = Some t -> undated t.
Proof.
  induction reqs as [|[env q] reqs IH]; intros w Hw t Hd; cbn [run] in Hd.
  - now apply Hw.
  - apply (IH (snd (serve env q w))); [|assumption].
    intros t1 Hd1.
    destruct (serve_db env q w)
      as [E | (ctx & uid & t0 & t' & _ & _ & _ & _ & Hd0 & _ & Hu & E)].
    + apply Hw. congruence.
    + rewrite E in Hd1. injection Hd1 as <-.
      exact (upsert_undated _ _ _ _ _ (Hw t0 Hd0) Hu).
Qed.

Lemma started_undated {Tg} (env0 : Env Tg) (g : Tg) t :
  db (started env0 g) = Some t -> undated t.
Proof.
  unfold started, initDb. run_monad.
  destruct (pool_connect env0); cbn; [|discriminate].
  intros [= <-]. split; [reflexivity | intros r []].
Qed.

(** The table [initDb] created never gets a [joined_at] column, and the
    listing query is rejected on it. *)
Lemma created_table_has_no_joined_at {Tg} (env0 : Env Tg) (g : Tg)
    (reqs : list (Env Tg * Request)) t :
  db (run reqs (started env0 g)) = Some t -> hasColumn "joined_at" t = false.
Proof.
  intros Hd.
  exact (proj1 (run_undated reqs _ (started_undated env0 g) t Hd)).
Qed.

Lemma listing_fails_after_start {Tg} (env0 env : Env Tg) (g : Tg)
    (reqs : list (Env Tg * Request)) req :
  fst (Part000.listing env req (run reqs (started env0 g)))
    = Ok (mkResponse 500 BodyErrorLoadingDashboard).
Proof.
  rewrite listing_spec.
  destruct (pool_connect env); [|reflexivity].
  destruct (db (run reqs (started env0 g))) as [t|] eqn:Hd; [|reflexivity].
  unfold sql_select_all.
  now rewrite (created_table_has_no_joined_at env0 g reqs t Hd).
Qed.

(** C8.  On a database the program itself initialised, whatever requests
    were served since: a dashboard request with the right token is
    answered 500 "Error loading dashboard", because the table [initDb]
    creates has no [joined_at] column for the query to order by.  The rows
    the text handler stores there carry no timestamp. *)
Theorem C8_listing_fails_on_created_table {Tg} (env0 env : Env Tg) (g : Tg)
    (reqs : list (Env Tg * Request)) req :
  Part000.token_differs (q_token req) (DASHBOARD_ACCESS_TOKEN env) = false ->
  fst (Part000.dashboard env req (run reqs (started env0 g)))
    = Ok (mkResponse 500 BodyErrorLoadingDashboard) /\
  (forall t, db (run reqs (started env0 g)) = Some t ->
             hasColumn "joined_at" t = false /\
             forall r, In r (rows t) -> joined_at r = None).
Proof.
  intros Hgate. split.
  - unfold Part000.dashboard. rewrite Hgate. apply listing_fails_after_start.
  - intros t Hd. exact (run_undated reqs _ (started_undated env0 g) t Hd).
Qed.

Lemma C8_witness :
  let env := env_with None true (Some (js "secret")) in
  let w := run [(env, ReqText (text_from 555 "a@b.com"))] (started env []) in
  db w = Some linked_555 /\
  fst (Part000.dashboard env (mkDashboardRequest (QString (js "secret")) QUndefined) w)
    = Ok (mkResponse 500 BodyErrorLoadingDashboard).
Proof.
  cbv zeta. split; [reflexivity|].
  exact (proj1 (C8_listing_fails_on_created_table
                  (env_with None true (Some (js "secret")))
                  (env_with None true (Some (js "secret"))) []
                  [(env_with None true (Some (js "secret")),
                    ReqText (text_from 555 "a@b.com"))]
                  (mkDashboardRequest (QString (js "secret")) QUndefined)
                  eq_refl)).
Defined.

Lemma listing_queries {Tg} (env : Env Tg) req (w : World Tg) :
  pool_connect env = true ->
  store_queries (trace (snd (Part000.listing env req w)))
    = store_queries (trace w) ++ [QSelectAll (Part000.sortOrder_of (q_order req))].
Proof.
  intros Hup. unfold Part000.listing. run_monad. rewrite Hup. cbn.
  destruct (db w) as [t|]; cbn.
  - destruct (sql_select_all _ t); cbn; observe; cbn; now rewrite ?app_nil_r.
  - observe. cbn. now rewrite ?app_nil_r.
Qed.

(** C9.  The dashboard answers 403 exactly when the token parameter and
    the configured token are not strictly equal, and then does nothing
    else.  With the token not configured and the parameter omitted the gate
    is passed: the request is handled by the listing step, which sends the
    query for the whole table whenever the pool connects.  On a table that
    has the [joined_at] column the page then lists every row of the table,
    ordered in the requested direction; on the table [initDb] created the
    query is rejected and the answer is 500 "Error loading dashboard". *)
Theorem C9_token_gate {Tg} (env : Env Tg) req (w : World Tg) :
  (exists r,
      fst (Part000.dashboard env req w) = Ok r /\
      (status r = 403%Z <->
       ~ strict_equal (q_token req) (DASHBOARD_ACCESS_TOKEN env)) /\
      (status r = 403%Z -> snd (Part000.dashboard env req w) = w)) /\
  (q_token req = QUndefined -> DASHBOARD_ACCESS_TOKEN env = None ->
   Part000.dashboard env req w = Part000.listing env req w /\
   (pool_connect env = true ->
    store_queries (trace (snd (Part000.dashboard env req w)))
      = store_queries (trace w)
        ++ [QSelectAll (Part000.sortOrder_of (q_order req))]) /\
   (forall t,
     db w = Some t -> pool_connect env = true -> hasColumn "joined_at" t = true ->
     exists listed,
       fst (Part000.dashboard env req w)
         = Ok (mkResponse 200
                 (BodyDashboard QUndefined
                    (Part000.oppositeOrder_of (Part000.sortOrder_of (q_order req)))
                    listed)) /\
       Permutation (rows t) listed /\
       sorted_by (Part000.is_desc (Part000.sortOrder_of (q_order req))) listed) /\
   (forall env0 g reqs,
     w = run reqs (started env0 g) ->
     fst (Part000.dashboard env req w)
       = Ok (mkResponse 500 BodyErrorLoadingDashboard))).
Proof.
  split.
  - unfold Part000.dashboard.
    destruct (Part000.token_differs (q_token req) (DASHBOARD_ACCESS_TOKEN env)) eqn:Hg.
    + eexists. split; [reflexivity|]. cbn.
      split; [|reflexivity].
      split; [intros _; now apply token_differs_spec | reflexivity].
    + destruct (listing_not_forbidden env req w) as (r & Hr & Hs).
      exists r. split; [assumption|]. split; [|contradiction].
      split; [contradiction|].
      intros H. apply token_differs_spec in H. congruence.
  - intros Htok Hcfg. unfold Part000.dashboard. rewrite Htok, Hcfg.
    cbn [Part000.token_differs]. split; [reflexivity|].
    split; [apply listing_queries|]. split.
    + intros t Hd Hup Hcol. rewrite listing_spec, Hup, Hd, Htok.
      unfold sql_select_all. rewrite Hcol.
      eexists. split; [reflexivity|]. split.
      * apply sort_rows_perm.
      * apply sort_rows_sorted.
    + intros env0 g reqs ->. apply listing_fails_after_start.
Qed.

Lemma C9_witness :
  fst (Part000.dashboard (env_with None true None)
         (mkDashboardRequest QUndefined (QString (js "desc")))
         (mkWorld (Some dated_table) [] []))
  = Ok (mkResponse 200
          (BodyDashboard QUndefined ASC
             [mkRow 7 (js "x@y.z") (Some 30%Z); mkRow 555 a_at_b (Some 10%Z)])) /\
  fst (Part000.dashboard (env_with None true None)
         (mkDashboardRequest QUndefined QUndefined)
         (started (env_with None true None) []))
  = Ok (mkResponse 500 BodyErrorLoadingDashboard).
Proof.
  split.
  - destruct (C9_token_gate (env_with None true None)
                (mkDashboardRequest QUndefined (QString (js "desc")))
                (mkWorld (Some dated_table) [] [])) as [_ H].
    destruct (H eq_refl eq_refl) as [E _].
    rewrite E. reflexivity.
  - destruct (C9_token_gate (env_with None true None)
                (mkDashboardRequest QUndefined QUndefined)
                (started (env_with None true None) [])) as [_ H].
    destruct (H eq_refl eq_refl) as (_ & _ & _ & Hfail).
    exact (Hfail (env_with None true None) [] [] eq_refl).
Defined.

(* ================================================================== *)
(** * Further properties of the code *)

(** ** The store functions *)

Lemma set_email_id id em r : telegram_id (set_email id em r) = telegram_id r.
Proof. unfold set_email. now destruct (Z.eqb _ _). Qed.

Lemma set_email_other id em l :
  ~ In id (map telegram_id l) -> map (set_email id em) l = l.
Proof.
  induction l as [|r l IH]; cbn; [reflexivity|].
  intros H. rewrite IH by tauto. f_equal. unfold set_email.
  destruct (Z.eqb_spec (telegram_id r) id); [tauto | reflexivity].
Qed.

Lemma set_email_emails id em l x :
  In x (map email (map (set_email id em) l)) -> x = em \/ In x (map email l).
Proof.
  rewrite map_map, in_map_iff. intros (r & <- & Hr). unfold set_email.
  destruct (Z.eqb _ _); cbn; [now left|]. right. now apply in_map.
Qed.

Lemma not_owned id em l :
  existsb (owned_by_other id em) l = false ->
  forall r, In r l -> telegram_id r <> id -> email r <> em.
Proof.
  intros H r Hin Hid Hem.
  assert (Ht : existsb (owned_by_other id em) l = true).
  { apply existsb_exists. exists r. split; [assumption|].
    unfold owned_by_other. apply andb_true_iff. split.
    - apply negb_true_iff. now apply Z.eqb_neq.
    - now apply jseqb_eq. }
  congruence.
Qed.

Lemma no_row_for id l :
  existsb (fun r => Z.eqb (telegram_id r) id) l = false ->
  ~ In id (map telegram_id l).
Proof.
  intros H Hin. apply in_map_iff in Hin as (r & Hid & Hr).
  assert (Ht : existsb (fun r => Z.eqb (telegram_id r) id) l = true).
  { apply existsb_exists. exists r. split; [assumption|]. now apply Z.eqb_eq. }
  congruence.
Qed.

Lemma update_keeps_emails id em l :
  NoDup (map telegram_id l) -> NoDup (map email l) ->
  (forall r, In r l -> telegram_id r <> id -> email r <> em) ->
  NoDup (map email (map (set_email id em) l)).
Proof.
  induction l as [|r l IH]; cbn [map]; intros Hids Hems Hown; [constructor|].
  inversion Hids as [|? ? Hnotin Hids']. inversion Hems as [|? ? Hnotin' Hems'].
  subst. unfold set_email at 1.
  destruct (Z.eqb_spec (telegram_id r) id) as [Heq|Hne]; cbn [email].
  - rewrite set_email_other by congruence.
    constructor; [|assumption].
    intros Hin. apply in_map_iff in Hin as (x & Hx & Hxl).
    apply (Hown x); [now right | | assumption].
    intros Hxid. apply Hnotin. rewrite Heq, <- Hxid. now apply in_map.
  - constructor.
    + intros Hin. apply set_email_emails in Hin as [Hin|Hin]; [|contradiction].
      apply (Hown r); [now left | assumption | assumption].
    + apply IH; auto. intros x Hx. apply Hown. now right.
Qed.

(** An accepted upsert keeps the two constraints of the table. *)
Lemma upsert_keeps_keys dflt id em t t' :
  keys_ok t -> sql_upsert dflt id em t = inr t' -> keys_ok t'.
Proof.
  intros [Hids Hems]. unfold sql_upsert.
  destruct (existsb (owned_by_other id em) (rows t)) eqn:Hown; [discriminate|].
  destruct (existsb (fun r => Z.eqb (telegram_id r) id) (rows t)) eqn:Hex;
    intros [= <-]; unfold keys_ok; cbn [rows].
  - split.
    + rewrite map_map.
      replace (map (fun r => telegram_id (set_email id em r)) (rows t))
        with (map telegram_id (rows t)); [assumption|].
      apply map_ext. intros r. now rewrite set_email_id.
    + apply update_keeps_emails; auto. now apply not_owned.
  - pose proof (no_row_for _ _ Hex) as Hno.
    rewrite !map_app. cbn [map telegram_id email]. split.
    + apply NoDup_app; [assumption | repeat constructor; intros [] |].
      intros a Ha [<-|[]]. contradiction.
    + apply NoDup_app; [assumption | repeat constructor; intros [] |].
      intros a Ha [<-|[]]. apply in_map_iff in Ha as (r & Hr & Hin).
      apply (not_owned _ _ _ Hown r Hin); [|assumption].
      intros Hid. apply Hno. rewrite <- Hid. now apply in_map.
Qed.

(** X1.  Whatever requests are served, the table keeps its two
    constraints: if no two rows shared a [telegram_id] and no two rows
    shared an e-mail before, the same holds afterwards. *)
Theorem X1_run_keeps_keys {Tg} (reqs : list (Env Tg * Request)) (w : World Tg) :
  (forall t, db w = Some t -> keys_ok t) ->
  forall t, db (run reqs w) = Some t -> keys_ok t.
Proof.
  revert w. induction reqs as [|[env q] reqs IH]; intros w Hw t Hd; cbn [run] in Hd.
  - now apply Hw.
  - apply (IH (snd (serve env q w))); [|assumption].
    intros t1 Hd1.
    destruct (serve_db env q w)
      as [E | (ctx & uid & t0 & t' & _ & _ & _ & _ & Hd0 & _ & Hu & E)].
    + apply Hw. congruence.
    + rewrite E in Hd1. injection Hd1 as <-.
      exact (upsert_keeps_keys _ _ _ _ _ (Hw t0 Hd0) Hu).
Qed.

Lemma X1_witness :
  keys_ok linked_555.
Proof.
  apply (X1_run_keeps_keys
           [(env_with None true None, ReqText (text_from 555 "a@b.com"))]
           (started (env_with None true None) [])).
  - intros t [= <-]. split; constructor.
  - reflexivity.
Defined.

Lemma hd_filter {A} (f : A -> bool) (l : list A) :
  existsb f l = true -> exists x, hd_error (filter f l) = Some x /\ In x l /\ f x = true.
Proof.
  induction l as [|a l IH]; cbn; [discriminate|].
  destruct (f a) eqn:Ha; cbn.
  - intros _. exists a. auto.
  - intros H. destruct (IH H) as (x & Hx & Hin & Hf). exists x. auto.
Qed.

Lemma upsert_then_select dflt id em t t' :
  sql_upsert dflt id em t = inr t' ->
  exists r, hd_error (sql_select_email id t') = Some r /\ email r = em.
Proof.
  intros Hu.
  assert (Hex : existsb (fun r => Z.eqb (telegram_id r) id) (rows t') = true).
  { revert Hu. unfold sql_upsert.
    destruct (existsb (owned_by_other id em) (rows t)); [discriminate|].
    destruct (existsb (fun r => Z.eqb (telegram_id r) id) (rows t)) eqn:Hex;
      intros [= <-]; cbn [rows].
    - apply existsb_exists in Hex as (r & Hr & Hid).
      apply existsb_exists. exists (set_email id em r). split.
      + now apply in_map.
      + now rewrite set_email_id.
    - rewrite existsb_app. cbn. now rewrite Z.eqb_refl, orb_true_r. }
  destruct (hd_filter _ _ Hex) as (r & Hhd & Hin & Hid).
  exists r. split; [exact Hhd|].
  apply (upsert_replaces _ _ _ _ _ r Hu Hin). now apply Z.eqb_eq.
Qed.

Lemma insert_ok {Tg} (env : Env Tg) id em (w : World Tg) :
  fst (insertOrUpdateUser env id em w) = Ok true ->
  exists t t',
    db w = Some t /\ pool_connect env = true /\
    sql_upsert (joined_at_default env) id em t = inr t' /\
    snd (insertOrUpdateUser env id em w)
      = mkWorld (Some t') (group w)
          (trace w ++ [EConnect; EQuery (QUpsert id em); ERelease]).
Proof.
  destruct (pool_connect env) eqn:Hup.
  - destruct (db w) as [t|] eqn:Hd.
    + rewrite (insert_up env id em w t Hup Hd). cbn [fst snd].
      destruct (sql_upsert (joined_at_default env) id em t) as [e|t'] eqn:Hu;
        [discriminate|].
      intros _. exists t, t'. auto.
    + unfold insertOrUpdateUser. run_monad. rewrite Hup. cbn. rewrite Hd.
      discriminate.
  - unfold insertOrUpdateUser. run_monad. rewrite Hup. discriminate.
Qed.

(** X2.  What [insertOrUpdateUser] stored for an account is what
    [getEmailByUser] reads back for it, except that a stored empty string
    reads back as [null]. *)
Theorem X2_insert_then_getEmail {Tg} (env1 env2 : Env Tg) id em (w : World Tg) :
  fst (insertOrUpdateUser env1 id em w) = Ok true ->
  pool_connect env2 = true ->
  fst (getEmailByUser env2 id (snd (insertOrUpdateUser env1 id em w)))
    = Ok (if Js.eqb em [] then None else Some em).
Proof.
  intros Hins Hup.
  destruct (insert_ok env1 id em w Hins) as (t & t' & _ & _ & Hu & ->).
  destruct (getEmail_spec env2 id
              (mkWorld (Some t') (group w)
                 (trace w ++ [EConnect; EQuery (QUpsert id em); ERelease])))
    as (n & E & _).
  rewrite E, Hup. cbn [fst db]. f_equal.
  destruct (upsert_then_select _ _ _ _ _ Hu) as (r & Hhd & Hem).
  unfold stored_email. rewrite Hhd. cbn [option_map]. rewrite Hem.
  now destruct em.
Qed.

Lemma X2_witness :
  fst (getEmailByUser (env_with None true None) 7
         (snd (insertOrUpdateUser (env_with None true None) 7 (js "x@y.z")
                 world_555)))
  = Ok (Some (js "x@y.z")).
Proof.
  exact (X2_insert_then_getEmail (env_with None true None) (env_with None true None)
           7%Z (js "x@y.z") world_555 eq_refl eq_refl).
Defined.

Lemma hd_filter_none {A} (f : A -> bool) (l : list A) :
  hd_error (filter f l) = None <-> forall x, In x l -> f x = false.
Proof.
  induction l as [|a l IH]; cbn.
  - split; [intros _ x [] | reflexivity].
  - destruct (f a) eqn:Ha; cbn.
    + split; [discriminate|]. intros H. rewrite (H a) in Ha by now left.
      discriminate.
    + rewrite IH. split.
      * intros H x [<-|Hx]; auto.
      * intros H x Hx. apply H. now right.
Qed.

Lemma hd_filter_some {A} (f : A -> bool) (l : list A) x :
  hd_error (filter f l) = Some x -> In x l /\ f x = true.
Proof.
  intros H.
  assert (Hin : In x (filter f l)) by (destruct (filter f l); inversion H; now left).
  now apply filter_In in Hin.
Qed.

(** X3.  While the store answers, [getTelegramIdByEmail] finds an account
    exactly when some row's e-mail and the given one have the same image
    under the database's [LOWER], whatever the locale makes that function
    be; the account it returns is that of such a row, and the answer is the
    same for every spelling of the e-mail that [LOWER] maps to the same
    string. *)
Theorem X3_lookup_ignores_case {Tg} (env : Env Tg) em (w : World Tg) t :
  pool_connect env = true -> db w = Some t ->
  exists r,
    fst (getTelegramIdByEmail env em w) = Ok r /\
    (forall id, r = Some id ->
       exists row, In row (rows t) /\ telegram_id row = id /\
                   LOWER env (email row) = LOWER env em) /\
    (r = None <->
       forall row, In row (rows t) -> LOWER env (email row) <> LOWER env em) /\
    (forall em', LOWER env em' = LOWER env em ->
       fst (getTelegramIdByEmail env em' w) = Ok r).
Proof.
  intros Hup Hd.
  destruct (lookup_spec env em w) as (n & E & _).
  rewrite E. cbn [fst]. unfold lookup_account. rewrite Hup, Hd.
  eexists. split; [reflexivity|]. unfold sql_select_id. split; [|split].
  - intros id Hid.
    destruct (hd_error _) as [row|] eqn:Hhd; [|discriminate].
    injection Hid as <-. apply hd_filter_some in Hhd as [Hin Hf].
    exists row. split; [assumption|]. split; [reflexivity|]. now apply jseqb_eq.
  - split.
    + intros Hnone row Hin Heq.
      destruct (hd_error _) as [x|] eqn:Hhd; [discriminate|].
      rewrite hd_filter_none in Hhd. specialize (Hhd row Hin). cbn in Hhd.
      apply jseqb_eq in Heq. congruence.
    + intros Hall.
      destruct (hd_error _) as [x|] eqn:Hhd; [|reflexivity].
      apply hd_filter_some in Hhd as [Hin Hf].
      apply jseqb_eq in Hf. destruct (Hall x Hin Hf).
  - intros em' Hlow.
    destruct (lookup_spec env em' w) as (n' & E' & _).
    rewrite E'. cbn [fst]. unfold lookup_account, sql_select_id.
    now rewrite Hup, Hd, Hlow.
Qed.

Lemma X3_witness :
  fst (getTelegramIdByEmail (env_with None true None) (js "A@B.Com") world_555)
    = Ok (Some 555%Z).
Proof.
  destruct (X3_lookup_ignores_case (env_with None true None) a_at_b world_555
              linked_555 eq_refl eq_refl) as (r & Hr & _ & _ & Hcase).
  rewrite (Hcase (js "A@B.Com") eq_refl). rewrite <- Hr. reflexivity.
Defined.

Lemma upsert_other dflt id em t t' id' :
  sql_upsert dflt id em t = inr t' -> id' <> id ->
  sql_select_email id' t' = sql_select_email id' t.
Proof.
  unfold sql_upsert, sql_select_email.
  destruct (existsb (owned_by_other id em) (rows t)); [discriminate|].
  destruct (existsb _ (rows t)); intros [= <-] Hne; cbn [rows].
  - induction (rows t) as [|r l IH]; cbn [map filter]; [reflexivity|].
    rewrite set_email_id, IH. unfold set_email.
    destruct (Z.eqb_spec (telegram_id r) id) as [Heq|]; [|reflexivity].
    destruct (Z.eqb_spec (telegram_id r) id'); [congruence | reflexivity].
  - rewrite filter_app. cbn.
    destruct (Z.eqb_spec id id'); [congruence|]. now rewrite app_nil_r.
Qed.

(** X4.  A request changes the rows of one account at most: unless it is a
    text message of account [id'], what the table holds for [id'] after the
    request is what it held before. *)
Theorem X4_other_accounts_untouched {Tg} (env : Env Tg) q (w : World Tg) t t' id' :
  db w = Some t ->
  db (snd (serve env q w)) = Some t' ->
  (forall ctx, q = ReqText ctx -> from_id ctx <> Some id') ->
  sql_select_email id' t' = sql_select_email id' t.
Proof.
  intros Hd Hd' Hother.
  destruct (serve_db env q w)
    as [E | (ctx & uid & t0 & t1 & Hq & Hfrom & _ & _ & Hd0 & _ & Hu & E)].
  - congruence.
  - rewrite Hd0 in Hd. injection Hd as <-. rewrite E in Hd'. injection Hd' as <-.
    apply (upsert_other _ _ _ _ _ _ Hu).
    intros ->. exact (Hother ctx Hq Hfrom).
Qed.

Lemma X4_witness :
  sql_select_email 555
    (mkTable ["telegram_id"; "email"]%string
       [mkRow 555 a_at_b None; mkRow 7 (js "x@y.z") None])
  = sql_select_email 555 linked_555.
Proof.
  apply (X4_other_accounts_untouched (env_with None true None)
           (ReqText (text_from 7 "x@y.z")) world_555).
  - reflexivity.
  - reflexivity.
  - intros ctx [= <-]. discriminate.
Defined.

(** X5.  [initDb] on a reachable store never touches a table that exists,
    creates the empty two-column table where there is none, and changes
    nothing when it runs again; on an unreachable store it throws before
    any statement is sent. *)
Theorem X5_initDb_keeps_table {Tg} (env1 env2 : Env Tg) (w : World Tg) :
  (pool_connect env1 = true ->
   fst (initDb env1 w) = Ok tt /\
   (forall t, db w = Some t -> db (snd (initDb env1 w)) = Some t) /\
   (db w = None -> db (snd (initDb env1 w)) = Some created_table) /\
   db (snd (initDb env2 (snd (initDb env1 w)))) = db (snd (initDb env1 w)) /\
   store_queries (trace (snd (initDb env1 w)))
     = store_queries (trace w) ++ [QCreateTable]) /\
  (pool_connect env1 = false ->
   initDb env1 w = (Throw (ExnStore ConnectFailed), w)).
Proof.
  unfold initDb. run_monad. split; intros Hup; rewrite Hup; cbn.
  - split; [reflexivity|]. split; [|split; [|split]].
    + now intros t ->.
    + now intros ->.
    + destruct (pool_connect env2); cbn; [|reflexivity].
      now destruct (db w).
    + rewrite !store_queries_app. cbn. now rewrite !app_nil_r.
  - reflexivity.
Qed.

Lemma X5_witness :
  db (snd (initDb (env_with None true None) world_555)) = Some linked_555.
Proof.
  destruct (X5_initDb_keeps_table (env_with None true None)
              (env_with None true None) world_555) as [H _].
  destruct (H eq_refl) as (_ & Hkeep & _).
  exact (Hkeep linked_555 eq_refl).
Defined.

(** ** The calls of the webhook handlers, exactly *)

Lemma world_eta {Tg} (w : World Tg) :
  mkWorld (db w) (group w) (trace w ++ []) = w.
Proof. rewrite app_nil_r. now destruct w. Qed.

Ltac same_world :=
  unfold log_to; cbn [db group trace];
  rewrite <- ?app_assoc; cbn [app]; rewrite ?app_nil_r;
  try reflexivity; try (rewrite <- ?app_assoc; reflexivity).

Lemma kick_exact {Tg} (env : Env Tg) id (w : World Tg) :
  Part000.removeUserFromGroup env id w
    = (Ok tt, mkWorld (db w) (kicked env id (group w))
                (trace w ++ kick_trace env id (group w))).
Proof.
  unfold Part000.removeUserFromGroup, kicked, kick_trace, removal_log. run_monad.
  destruct (banChatMember env id (group w)) as [[|d] g]; cbn.
  - destruct (unbanChatMember env id g) as [[|d'] g']; cbn.
    + now rewrite <- ?app_assoc.
    + destruct (is_not_participant (ExnTelegram d')); cbn; now rewrite <- ?app_assoc.
  - destruct (is_not_participant (ExnTelegram d)); cbn; now rewrite <- ?app_assoc.
Qed.

Lemma kick_exact_appjs {Tg} (env : Env Tg) id (w : World Tg) :
  AppJs.removeUserFromGroup env id w
    = (Ok tt, mkWorld (db w) (kicked env id (group w))
                (trace w ++ kick_trace_appjs env id (group w))).
Proof.
  unfold AppJs.removeUserFromGroup, kicked, kick_trace_appjs. run_monad.
  destruct (banChatMember env id (group w)) as [[|d] g]; cbn.
  - destruct (unbanChatMember env id g) as [[|d'] g']; cbn; now rewrite <- ?app_assoc.
  - now rewrite <- ?app_assoc.
Qed.

Lemma resolve_exact {Tg} (env : Env Tg) o (w : World Tg) :
  resolve_email env o w
    = (Ok (resolved_email env o), log_to w (resolve_trace env o)).
Proof.
  unfold resolve_email, resolved_email, resolve_trace, log_to. run_monad.
  destruct (negb (truthy (customer_email o)) && truthy (customer o)); cbn.
  - destruct (customers_retrieve env _); cbn; now rewrite <- ?app_assoc.
  - now rewrite world_eta.
Qed.

Lemma lookup_exact {Tg} (env : Env Tg) em (w : World Tg) :
  getTelegramIdByEmail env em w
    = (lookup_account env (db w) em, log_to w (lookup_trace env em)).
Proof.
  unfold getTelegramIdByEmail, lookup_account, lookup_trace, log_to. run_monad.
  destruct (pool_connect env); cbn.
  - destruct (db w); cbn; now rewrite <- ?app_assoc.
  - now rewrite world_eta.
Qed.

Lemma reconcile_exact {Tg} (env : Env Tg) event (w : World Tg) :
  Part000.reconcile env event w
    = (ack env event (db w),
       mkWorld (db w) (target_group env event w)
         (trace w ++ reconcile_trace env event (db w) (group w))).
Proof.
  unfold Part000.reconcile, ack, target_group, revoke_target, reconcile_trace.
  unfold bind at 1. rewrite resolve_exact.
  set (em := resolved_email env (dataObject_of event)).
  destruct (truthy em) eqn:Hem; cbn [negb].
  - unfold bind at 1. rewrite lookup_exact. unfold log_to. cbn [db group trace].
    rewrite andb_true_r.
    destruct (lookup_account env (db w) (string_of em)) as [[id|]|e].
    + destruct (is_revoking (ev_type event)).
      * unfold bind, console, emit, ret. cbn [db group trace].
        rewrite kick_exact. cbn [db group trace].
        now rewrite <- ?app_assoc.
      * unfold bind, ret. cbn. now rewrite <- ?app_assoc, ?app_nil_r.
    + unfold bind, console, emit, ret. cbn.
      destruct (is_revoking _); now rewrite <- ?app_assoc.
    + destruct (is_revoking _); now rewrite <- ?app_assoc, ?app_nil_r.
  - unfold bind, console, emit, ret, log_to. cbn.
    rewrite andb_false_r. now rewrite <- ?app_assoc.
Qed.

Lemma reconcile_exact_appjs {Tg} (env : Env Tg) event (w : World Tg) :
  AppJs.reconcile env event w
    = (ack_appjs env event (db w),
       mkWorld (db w) (target_group env event w)
         (trace w ++ reconcile_trace_appjs env event (db w) (group w))).
Proof.
  unfold AppJs.reconcile, ack_appjs, target_group, revoke_target,
    reconcile_trace_appjs.
  unfold bind at 1. rewrite resolve_exact.
  set (em := resolved_email env (dataObject_of event)).
  destruct (is_revoking (ev_type event) && truthy em) eqn:Hgo.
  - unfold bind at 1. unfold bind at 1. rewrite lookup_exact.
    unfold log_to. cbn [db group trace].
    destruct (lookup_account env (db w) (string_of em)) as [[id|]|e].
    + unfold bind, console, emit, ret. cbn [db group trace].
      rewrite kick_exact_appjs. cbn [db group trace].
      now rewrite <- ?app_assoc.
    + unfold bind, ret. cbn. now rewrite <- ?app_assoc, ?app_nil_r.
    + now rewrite <- ?app_assoc, ?app_nil_r.
  - unfold bind, ret, log_to. cbn. now rewrite <- ?app_assoc, ?app_nil_r.
Qed.

Lemma webhook_exact {Tg} (env : Env Tg) req (w : World Tg) :
  Part000.webhook env req w
    = (Ok (webhook_response env req (db w)),
       mkWorld (db w) (webhook_group env req w)
         (trace w ++ webhook_trace env req (db w) (group w))).
Proof.
  unfold webhook_response, webhook_group, webhook_trace.
  destruct (parsed_body env req) as [[|event]|] eqn:Hauth.
  - now rewrite webhook_null.
  - assert (Hrun :
      try_catch (Part000.reconcile env event)
        (fun err => console SevError (MsgWebhookHandlerError err);; ret error500) w
      = (Ok (match ack env event (db w) with Ok r => r | Throw _ => error500 end),
         mkWorld (db w) (target_group env event w)
           (trace w ++ reconcile_trace env event (db w) (group w) ++
              match ack env event (db w) with
              | Ok _ => []
              | Throw e => [ELog SevError (MsgWebhookHandlerError e)]
              end))).
    { unfold try_catch. rewrite reconcile_exact.
      destruct (ack env event (db w)); run_monad.
      - now rewrite app_nil_r.
      - now rewrite <- app_assoc. }
    unfold parsed_body in Hauth.
    unfold Part000.webhook, try_catch, with_event in *.
    destruct (verifySignature env); rewrite Hauth; exact Hrun.
  - rewrite webhook_rejected by assumption. now destruct (verifySignature env).
Qed.

Lemma webhook_exact_appjs {Tg} (env : Env Tg) req (w : World Tg) :
  AppJs.webhook env req w
    = (match parsed_body env req with
       | None => Ok invalid400
       | Some ParsedNull => Throw ExnType
       | Some (ParsedEvent event) => ack_appjs env event (db w)
       end,
       mkWorld (db w) (webhook_group env req w)
         (trace w ++ webhook_trace_appjs env req (db w) (group w))).
Proof.
  unfold webhook_group, webhook_trace_appjs.
  destruct (parsed_body env req) as [[|event]|] eqn:Hauth.
  - rewrite webhook_null_appjs by assumption. rewrite app_nil_r.
    now destruct w.
  - unfold parsed_body in Hauth. unfold AppJs.webhook. rewrite Hauth.
    apply reconcile_exact_appjs.
  - now rewrite webhook_rejected_appjs.
Qed.

Lemma retrieves_app (a b : list Effect) :
  retrieves (a ++ b) = retrieves a ++ retrieves b.
Proof. apply flat_map_app. Qed.

Ltac kick_cases env id g :=
  unfold kick_trace, kick_trace_appjs, removal_log;
  destruct (banChatMember env id g) as [[|?d] ?g];
  [destruct (fst (unbanChatMember env id _)) as [|?d]|];
  try destruct (is_not_participant _); reflexivity.

Lemma kick_trace_quiet {Tg} (env : Env Tg) id g :
  store_queries (kick_trace env id g) = [] /\
  replies (kick_trace env id g) = [] /\
  retrieves (kick_trace env id g) = [] /\
  store_queries (kick_trace_appjs env id g) = [] /\
  replies (kick_trace_appjs env id g) = [] /\
  retrieves (kick_trace_appjs env id g) = [].
Proof. repeat split; kick_cases env id g. Qed.

Lemma kick_trace_calls {Tg} (env : Env Tg) id g :
  telegram_calls (kick_trace env id g)
    = match fst (banChatMember env id g) with
      | ApiOk => [EBan id; EUnban id]
      | ApiError _ => [EBan id]
      end /\
  telegram_calls (kick_trace_appjs env id g)
    = match fst (banChatMember env id g) with
      | ApiOk => [EBan id; EUnban id]
      | ApiError _ => [EBan id]
      end.
Proof. split; kick_cases env id g. Qed.

Lemma resolve_trace_quiet {Tg} (env : Env Tg) o :
  store_queries (resolve_trace env o) = [] /\
  replies (resolve_trace env o) = [] /\
  telegram_calls (resolve_trace env o) = [] /\
  retrieves (resolve_trace env o)
    = if negb (truthy (customer_email o)) && truthy (customer o)
      then [string_of (customer o)] else [].
Proof.
  unfold resolve_trace.
  destruct (negb (truthy (customer_email o)) && truthy (customer o));
    [destruct (customers_retrieve env _)|]; repeat split.
Qed.

Lemma lookup_trace_quiet {Tg} (env : Env Tg) em :
  store_queries (lookup_trace env em)
    = (if pool_connect env then [QSelectId em] else []) /\
  replies (lookup_trace env em) = [] /\
  telegram_calls (lookup_trace env em) = [] /\
  retrieves (lookup_trace env em) = [].
Proof. unfold lookup_trace. destruct (pool_connect env); repeat split. Qed.

Ltac observe_all :=
  rewrite ?store_queries_app, ?replies_app, ?telegram_calls_app, ?retrieves_app,
    ?revokes_app.

(** What the reconcilers send, by kind of call. *)
Lemma reconcile_trace_observed {Tg} (env : Env Tg) event d (g : Tg) :
  let em := resolved_email env (dataObject_of event) in
  let o := dataObject_of event in
  store_queries (reconcile_trace env event d g)
    = (if truthy em && pool_connect env then [QSelectId (string_of em)] else []) /\
  store_queries (reconcile_trace_appjs env event d g)
    = (if is_revoking (ev_type event) && truthy em && pool_connect env
       then [QSelectId (string_of em)] else []) /\
  replies (reconcile_trace env event d g) = [] /\
  replies (reconcile_trace_appjs env event d g) = [] /\
  retrieves (reconcile_trace env event d g)
    = (if negb (truthy (customer_email o)) && truthy (customer o)
       then [string_of (customer o)] else []) /\
  retrieves (reconcile_trace_appjs env event d g)
    = (if negb (truthy (customer_email o)) && truthy (customer o)
       then [string_of (customer o)] else []) /\
  telegram_calls (reconcile_trace env event d g)
    = match revoke_target env event d with
      | Some id => telegram_calls (kick_trace env id g)
      | None => []
      end /\
  telegram_calls (reconcile_trace_appjs env event d g)
    = match revoke_target env event d with
      | Some id => telegram_calls (kick_trace env id g)
      | None => []
      end.
Proof.
  cbv zeta. unfold reconcile_trace, reconcile_trace_appjs, revoke_target.
  destruct (resolve_trace_quiet env (dataObject_of event)) as (Q1 & P1 & T1 & S1).
  set (em := resolved_email env (dataObject_of event)).
  destruct (lookup_trace_quiet env (string_of em)) as (Q2 & P2 & T2 & S2).
  observe_all. rewrite Q1, P1, T1, S1. cbn [app].
  destruct (is_revoking (ev_type event)), (truthy em); cbn [andb];
    observe_all; rewrite ?Q2, ?P2, ?T2, ?S2; cbn [app]; rewrite ?app_nil_r.
  all: destruct (lookup_account env d (string_of em)) as [[id|]|e].
  all: try (cbn; rewrite ?app_nil_r; repeat split; fail).
  all: destruct (kick_trace_quiet env id g) as (K1 & K2 & K3 & K4 & K5 & K6).
  all: destruct (kick_trace_calls env id g) as (C1 & C2).
  all: change (ELog SevLog (MsgAttempting id (string_of em)) :: kick_trace env id g)
         with ([ELog SevLog (MsgAttempting id (string_of em))] ++ kick_trace env id g).
  all: change (ELog SevLog (MsgRemoving id (string_of em)) :: kick_trace_appjs env id g)
         with ([ELog SevLog (MsgRemoving id (string_of em))] ++ kick_trace_appjs env id g).
  all: observe_all; rewrite ?K1, ?K2, ?K3, ?K4, ?K5, ?K6, ?C1, ?C2.
  all: cbn; rewrite ?app_nil_r; repeat split.
Qed.

Lemma webhook_trace_observed {Tg} (env : Env Tg) req d (g : Tg) :
  store_queries (webhook_trace env req d g)
    = match authenticate env req with
      | Some event => store_queries (reconcile_trace env event d g)
      | None => []
      end /\
  replies (webhook_trace env req d g)
    = match authenticate env req with
      | Some event => replies (reconcile_trace env event d g)
      | None => []
      end /\
  retrieves (webhook_trace env req d g)
    = match authenticate env req with
      | Some event => retrieves (reconcile_trace env event d g)
      | None => []
      end /\
  telegram_calls (webhook_trace env req d g)
    = match authenticate env req with
      | Some event => telegram_calls (reconcile_trace env event d g)
      | None => []
      end.
Proof.
  unfold webhook_trace, authenticate.
  destruct (parsed_body env req) as [[|event]|].
  - repeat split.
  - observe_all. destruct (ack env event d); cbn; rewrite ?app_nil_r; repeat split.
  - repeat split.
Qed.

(** X6.  The Stripe webhook, in both revisions and for every request,
    leaves the table as it is, sends no message to any user, and sends the
    store at most one statement, the lookup of an account by e-mail. *)
Theorem X6_webhook_read_only {Tg} (env : Env Tg) req (w : World Tg) :
  let after := snd (Part000.webhook env req w) in
  let after_appjs := snd (AppJs.webhook env req w) in
  db after = db w /\ db after_appjs = db w /\
  replies (trace after) = replies (trace w) /\
  replies (trace after_appjs) = replies (trace w) /\
  (exists qs, store_queries (trace after) = store_queries (trace w) ++ qs /\
              (qs = [] \/ exists em, qs = [QSelectId em])) /\
  (exists qs, store_queries (trace after_appjs) = store_queries (trace w) ++ qs /\
              (qs = [] \/ exists em, qs = [QSelectId em])).
Proof.
  cbv zeta. rewrite webhook_exact, webhook_exact_appjs. cbn [snd db trace].
  observe_all.
  destruct (webhook_trace_observed env req (db w) (group w)) as (Q & P & _ & _).
  rewrite Q, P. unfold webhook_trace_appjs, authenticate.
  destruct (parsed_body env req) as [[|event]|];
    cbn [replies flat_map store_queries].
  - rewrite !app_nil_r. repeat split; exists []; rewrite app_nil_r; auto.
  - destruct (reconcile_trace_observed env event (db w) (group w))
      as (Q1 & Q2 & P1 & P2 & _).
    rewrite Q1, Q2, P1, P2, app_nil_r.
    repeat split; eexists; (split; [reflexivity|]).
    + match goal with |- (if ?c then _ else _) = _ \/ _ => destruct c end;
        [right; eauto | now left].
    + match goal with |- (if ?c then _ else _) = _ \/ _ => destruct c end;
        [right; eauto | now left].
  - rewrite !app_nil_r. repeat split; exists []; rewrite app_nil_r; auto.
Qed.

(** X7.  For an authenticated event of a non-revoking type whose e-mail
    resolved, the revision with the dashboard still sends the store its
    lookup, while app.js sends nothing and answers 200 "OK"; when that
    lookup raises, the revision with the dashboard answers 500. *)
Theorem X7_non_revoking_store_read {Tg} (env : Env Tg) req (w : World Tg) event :
  authenticate env req = Some event ->
  is_revoking (ev_type event) = false ->
  truthy (resolved_email env (dataObject_of event)) = true ->
  store_queries (trace (snd (Part000.webhook env req w)))
    = store_queries (trace w)
      ++ (if pool_connect env
          then [QSelectId (string_of (resolved_email env (dataObject_of event)))]
          else []) /\
  store_queries (trace (snd (AppJs.webhook env req w))) = store_queries (trace w) /\
  fst (AppJs.webhook env req w) = Ok ok200 /\
  (lookup_raises env event (db w) = true ->
   fst (Part000.webhook env req w) = Ok error500).
Proof.
  intros Hauth Hno Hem.
  pose proof (proj1 (authenticate_parsed env req event) Hauth) as Hp.
  rewrite webhook_exact, webhook_exact_appjs. cbn [fst snd trace].
  observe_all.
  destruct (webhook_trace_observed env req (db w) (group w)) as (Q & _).
  rewrite Q. unfold webhook_trace_appjs, webhook_response. rewrite Hauth, Hp.
  destruct (reconcile_trace_observed env event (db w) (group w)) as (Q1 & Q2 & _).
  rewrite Q1, Q2, Hno, Hem. cbn [andb]. rewrite app_nil_r.
  split; [reflexivity|]. split; [reflexivity|]. split.
  - unfold ack_appjs. now rewrite Hno.
  - intros Hr. destruct (ack env event (db w)) as [r|e] eqn:Hack; [|reflexivity].
    unfold lookup_raises, ack in *. rewrite Hem in *. cbn [andb] in Hr.
    destruct (lookup_account _ _ _); discriminate.
Qed.

Lemma X7_witness :
  fst (Part000.webhook (env_with (Some checkout_event) false None)
         some_request world_555) = Ok error500 /\
  fst (AppJs.webhook (env_with (Some checkout_event) false None)
         some_request world_555) = Ok ok200.
Proof.
  destruct (X7_non_revoking_store_read (env_with (Some checkout_event) false None)
              some_request world_555 checkout_event eq_refl eq_refl eq_refl)
    as (_ & _ & H200 & H500).
  split; [exact (H500 eq_refl) | exact H200].
Defined.

(** X8.  The two revisions of the webhook send the messaging provider the
    same calls and leave the same group and table, for every request;
    whenever the revision with the dashboard answers 200, app.js answers
    200 "OK" too; a body whose parse or verification throws is answered
    400 by app.js, and 400 or, with signature checking off, 500 by the
    revision with the dashboard; a body that parses to [null] is answered
    500 by the revision with the dashboard and left unanswered by
    app.js. *)
Theorem X8_revisions_agree {Tg} (env : Env Tg) req (w : World Tg) :
  let res := Part000.webhook env req w in
  let res_appjs := AppJs.webhook env req w in
  telegram_calls (trace (snd res)) = telegram_calls (trace (snd res_appjs)) /\
  group (snd res) = group (snd res_appjs) /\
  db (snd res) = db (snd res_appjs) /\
  (forall r, fst res = Ok r -> status r = 200%Z -> fst res_appjs = Ok ok200) /\
  (parsed_body env req = None ->
   fst res = Ok (if verifySignature env then invalid400 else error500) /\
   fst res_appjs = Ok invalid400) /\
  (parsed_body env req = Some ParsedNull ->
   fst res = Ok error500 /\ fst res_appjs = Throw ExnType).
Proof.
  cbv zeta. rewrite webhook_exact, webhook_exact_appjs. cbn [fst snd db group trace].
  observe_all.
  destruct (webhook_trace_observed env req (db w) (group w)) as (_ & _ & _ & T).
  rewrite T. unfold webhook_trace_appjs, webhook_response, authenticate.
  destruct (parsed_body env req) as [[|event]|].
  - split; [reflexivity|]. split; [reflexivity|]. split; [reflexivity|].
    split; [|split; [discriminate | intros _; split; reflexivity]].
    intros r [= <-]. discriminate.
  - destruct (reconcile_trace_observed env event (db w) (group w))
      as (_ & _ & _ & _ & _ & _ & T1 & T2).
    rewrite T1, T2.
    split; [reflexivity|]. split; [reflexivity|]. split; [reflexivity|].
    split; [|split; discriminate].
    intros r [= <-]. unfold ack, ack_appjs.
    destruct (truthy _); [|now rewrite andb_false_r].
    destruct (lookup_account _ _ _); [now destruct (is_revoking _) | discriminate].
  - split; [reflexivity|]. split; [reflexivity|]. split; [reflexivity|].
    split; [|split; [intros _; split; reflexivity | discriminate]].
    intros r [= <-]. destruct (verifySignature env); discriminate.
Qed.

(** X9.  The webhook asks Stripe for a customer exactly when the event is
    authenticated, its object has no (or an empty) [customer_email] and has
    a [customer]; it asks once, for that customer, in both revisions. *)
Theorem X9_stripe_side_call {Tg} (env : Env Tg) req (w : World Tg) :
  let asked :=
    match authenticate env req with
    | Some event =>
        if negb (truthy (customer_email (dataObject_of event)))
           && truthy (customer (dataObject_of event))
        then [string_of (customer (dataObject_of event))]
        else []
    | None => []
    end in
  retrieves (trace (snd (Part000.webhook env req w))) = retrieves (trace w) ++ asked /\
  retrieves (trace (snd (AppJs.webhook env req w))) = retrieves (trace w) ++ asked.
Proof.
  cbv zeta. rewrite webhook_exact, webhook_exact_appjs. cbn [snd trace].
  observe_all.
  destruct (webhook_trace_observed env req (db w) (group w)) as (_ & _ & S & _).
  rewrite S. unfold webhook_trace_appjs, authenticate.
  destruct (parsed_body env req) as [[|event]|]; try (split; reflexivity).
  destruct (reconcile_trace_observed env event (db w) (group w))
    as (_ & _ & _ & _ & S1 & S2 & _).
  now rewrite S1, S2.
Qed.

(** X10.  An authenticated event whose e-mail does not resolve is answered
    200 "OK" by both revisions without any statement to the store and
    without any call to the messaging provider; a customer lookup that
    throws leaves the e-mail as the event gave it. *)
Theorem X10_unresolved_email {Tg} (env : Env Tg) req (w : World Tg) event :
  authenticate env req = Some event ->
  truthy (resolved_email env (dataObject_of event)) = false ->
  fst (Part000.webhook env req w) = Ok ok200 /\
  fst (AppJs.webhook env req w) = Ok ok200 /\
  store_queries (trace (snd (Part000.webhook env req w))) = store_queries (trace w) /\
  store_queries (trace (snd (AppJs.webhook env req w))) = store_queries (trace w) /\
  telegram_calls (trace (snd (Part000.webhook env req w))) = telegram_calls (trace w) /\
  telegram_calls (trace (snd (AppJs.webhook env req w))) = telegram_calls (trace w) /\
  (customers_retrieve env (string_of (customer (dataObject_of event))) = None ->
   resolved_email env (dataObject_of event) = customer_email (dataObject_of event)).
Proof.
  intros Hauth Hem.
  pose proof (proj1 (authenticate_parsed env req event) Hauth) as Hp.
  rewrite webhook_exact, webhook_exact_appjs. cbn [fst snd trace].
  observe_all.
  destruct (webhook_trace_observed env req (db w) (group w)) as (Q & _ & _ & T).
  rewrite Q, T. unfold webhook_trace_appjs, webhook_response. rewrite Hauth, Hp.
  destruct (reconcile_trace_observed env event (db w) (group w))
    as (Q1 & Q2 & _ & _ & _ & _ & T1 & T2).
  rewrite Q1, Q2, T1, T2. unfold revoke_target, ack, ack_appjs.
  rewrite Hem, !andb_false_r. cbn [andb]. rewrite !app_nil_r.
  repeat split.
  intros Hthrow. unfold resolved_email. rewrite Hthrow.
  match goal with |- (if ?c then _ else _) = _ => destruct c end; reflexivity.
Qed.

Lemma X10_witness :
  fst (Part000.webhook
         (env_with (Some (mkEvent (Some (js "invoice.payment_failed"))
                            (Some (mkDataObject None (Some (js "cus_1"))))))
                   true None)
         some_request world_555) = Ok ok200.
Proof.
  exact (proj1 (X10_unresolved_email
                  (env_with (Some (mkEvent (Some (js "invoice.payment_failed"))
                                     (Some (mkDataObject None (Some (js "cus_1"))))))
                            true None)
                  some_request world_555 _ eq_refl eq_refl)).
Defined.

(** X11.  An authenticated event whose e-mail resolves but is not the
    e-mail of any stored account is answered 200 "OK" by both revisions
    without any call to the messaging provider. *)
Theorem X11_unknown_email {Tg} (env : Env Tg) req (w : World Tg) event :
  authenticate env req = Some event ->
  truthy (resolved_email env (dataObject_of event)) = true ->
  lookup_account env (db w)
    (string_of (resolved_email env (dataObject_of event))) = Ok None ->
  fst (Part000.webhook env req w) = Ok ok200 /\
  fst (AppJs.webhook env req w) = Ok ok200 /\
  telegram_calls (trace (snd (Part000.webhook env req w))) = telegram_calls (trace w) /\
  telegram_calls (trace (snd (AppJs.webhook env req w))) = telegram_calls (trace w) /\
  group (snd (Part000.webhook env req w)) = group w /\
  group (snd (AppJs.webhook env req w)) = group w.
Proof.
  intros Hauth Hem Hlook.
  rewrite webhook_exact, webhook_exact_appjs. cbn [fst snd trace group].
  observe_all.
  destruct (webhook_trace_observed env req (db w) (group w)) as (_ & _ & _ & T).
  rewrite T. unfold webhook_trace_appjs, webhook_response, webhook_group.
  rewrite Hauth, (proj1 (authenticate_parsed env req event) Hauth).
  destruct (reconcile_trace_observed env event (db w) (group w))
    as (_ & _ & _ & _ & _ & _ & T1 & T2).
  rewrite T1, T2. unfold target_group, revoke_target, ack, ack_appjs.
  rewrite Hem, Hlook.
  destruct (is_revoking _); cbn [andb]; rewrite ?app_nil_r; repeat split.
Qed.

Lemma X11_witness :
  fst (Part000.webhook (env_with (Some payment_failed_event) true None)
         some_request (started (env_with None true None) [555%Z])) = Ok ok200 /\
  group (snd (Part000.webhook (env_with (Some payment_failed_event) true None)
                some_request (started (env_with None true None) [555%Z])))
    = [555%Z].
Proof.
  destruct (X11_unknown_email (env_with (Some payment_failed_event) true None)
              some_request (started (env_with None true None) [555%Z])
              payment_failed_event eq_refl eq_refl eq_refl)
    as (H1 & _ & _ & _ & H2 & _).
  split; [exact H1 | exact H2].
Defined.

(** X12.  [removeUserFromGroup] of app.js never throws and leaves the
    table as it is; it sends the unban only after an accepted ban, and
    writes one log line: "Removed" with console.log when both calls were
    accepted, "Failed to remove" with console.error otherwise. *)
Theorem X12_appjs_kick {Tg} (env : Env Tg) id (w : World Tg) :
  let res := AppJs.removeUserFromGroup env id w in
  fst res = Ok tt /\
  db (snd res) = db w /\
  exists new,
    trace (snd res) = trace w ++ new /\
    telegram_calls new
      = match fst (banChatMember env id (group w)) with
        | ApiOk => [EBan id; EUnban id]
        | ApiError _ => [EBan id]
        end /\
    logged_outcomes new
      = match revoke_answer env id (group w) with
        | ApiOk => [(SevLog, removed)]
        | ApiError _ => [(SevError, failed)]
        end.
Proof.
  cbv zeta. rewrite kick_exact_appjs. cbn [fst snd db trace].
  split; [reflexivity|]. split; [reflexivity|].
  eexists. split; [reflexivity|].
  split; [apply kick_trace_calls|].
  unfold kick_trace_appjs, revoke_answer.
  destruct (banChatMember env id (group w)) as [[|d] g]; [|reflexivity].
  now destruct (fst (unbanChatMember env id g)).
Qed.

Lemma X6_witness :
  db (snd (Part000.webhook (env_with (Some payment_failed_event) true None)
             some_request world_555)) = Some linked_555.
Proof.
  exact (proj1 (X6_webhook_read_only (env_with (Some payment_failed_event) true None)
                  some_request world_555)).
Defined.

Lemma X8_witness :
  fst (Part000.webhook null_env some_request world_555) = Ok error500 /\
  fst (AppJs.webhook null_env some_request world_555) = Throw ExnType.
Proof.
  destruct (X8_revisions_agree null_env some_request world_555)
    as (_ & _ & _ & _ & _ & H).
  exact (H eq_refl).
Defined.

(** ** The Telegram handlers *)

Lemma getEmail_exact {Tg} (env : Env Tg) id (w : World Tg) :
  getEmailByUser env id w
    = (read_email env (db w) id, log_to w (select_email_trace env id)).
Proof.
  unfold getEmailByUser, read_email, select_email_trace, stored_email, log_to.
  run_monad. destruct (pool_connect env); cbn.
  - destruct (db w); cbn; now rewrite <- ?app_assoc.
  - now rewrite world_eta.
Qed.

Lemma route_exact {Tg} (h : M Tg unit) (w : World Tg) :
  telegram_route h w
    = match h w with
      | (Ok _, w') => (Ok ok200, w')
      | (Throw e, w') =>
          (Ok (mkResponse 400 BodyBadRequest),
           log_to w' [ELog SevError (MsgTelegramWebhookError e)])
      end.
Proof.
  unfold telegram_route, log_to. run_monad. now destruct (h w) as [[[]|e] w'].
Qed.

(** The two status commands, for an identified sender. *)
Lemma status_commands_exact {Tg} (env : Env Tg) from (w : World Tg) :
  no_user from = false ->
  bot_start env from w
    = match read_email env (db w) (user_of from) with
      | Ok (Some e) =>
          (if sendMessage env (ReplyStartLinked e) then Ok tt
           else Throw (ExnTelegram None),
           log_to w (select_email_trace env (user_of from)
                     ++ [EReply (ReplyStartLinked e)]))
      | Ok None =>
          (if sendMessage env ReplyStartHello then Ok tt
           else Throw (ExnTelegram None),
           log_to w (select_email_trace env (user_of from)
                     ++ [EReply ReplyStartHello]))
      | Throw e => (Throw e, log_to w (select_email_trace env (user_of from)))
      end /\
  bot_command_email env from w
    = match read_email env (db w) (user_of from) with
      | Ok (Some e) =>
          (if sendMessage env (ReplyYourEmail e) then Ok tt
           else Throw (ExnTelegram None),
           log_to w (select_email_trace env (user_of from)
                     ++ [EReply (ReplyYourEmail e)]))
      | Ok None =>
          (if sendMessage env ReplyNoEmailLinked then Ok tt
           else Throw (ExnTelegram None),
           log_to w (select_email_trace env (user_of from)
                     ++ [EReply ReplyNoEmailLinked]))
      | Throw e => (Throw e, log_to w (select_email_trace env (user_of from)))
      end.
Proof.
  intros Hno. unfold bot_start, bot_command_email. rewrite Hno.
  unfold bind. rewrite getEmail_exact.
  unfold read_email.
  destruct (pool_connect env); [destruct (db w) as [t|]|]; try (split; reflexivity).
  rewrite orNull_stored.
  destruct (stored_email t (user_of from)); rewrite !reply_spec;
    unfold log_to; cbn [db group trace]; rewrite <- !app_assoc; split; reflexivity.
Qed.

(** X13.  [/start] and [/email] only read: they never change the table or
    the group.  Without a sender id they do nothing at all; for an
    identified sender, while the store answers, they send the one lookup of
    that account and one reply, which names the stored e-mail when there is
    one; when the store cannot be reached they throw without replying. *)
Theorem X13_status_commands {Tg} (env : Env Tg) from (w : World Tg) :
  db (snd (bot_start env from w)) = db w /\
  db (snd (bot_command_email env from w)) = db w /\
  group (snd (bot_start env from w)) = group w /\
  group (snd (bot_command_email env from w)) = group w /\
  (no_user from = true ->
   bot_start env from w = (Ok tt, w) /\ bot_command_email env from w = (Ok tt, w)) /\
  (no_user from = false -> pool_connect env = true ->
   forall t, db w = Some t ->
     trace (snd (bot_start env from w))
       = trace w ++ [EConnect; EQuery (QSelectEmail (user_of from)); ERelease;
                     EReply (match stored_email t (user_of from) with
                             | Some e => ReplyStartLinked e
                             | None => ReplyStartHello
                             end)] /\
     trace (snd (bot_command_email env from w))
       = trace w ++ [EConnect; EQuery (QSelectEmail (user_of from)); ERelease;
                     EReply (match stored_email t (user_of from) with
                             | Some e => ReplyYourEmail e
                             | None => ReplyNoEmailLinked
                             end)]) /\
  (no_user from = false -> pool_connect env = false ->
   bot_start env from w = (Throw (ExnStore ConnectFailed), w) /\
   bot_command_email env from w = (Throw (ExnStore ConnectFailed), w)).
Proof.
  destruct (no_user from) eqn:Hno.
  - unfold bot_start, bot_command_email. rewrite Hno.
    repeat split; discriminate.
  - destruct (status_commands_exact env from w Hno) as [E1 E2].
    rewrite E1, E2. unfold read_email, select_email_trace.
    assert (Hdb : forall (r : Result unit) new, db (snd (r, log_to w new)) = db w)
      by reflexivity.
    assert (Hgr : forall (r : Result unit) new, group (snd (r, log_to w new)) = group w)
      by reflexivity.
    split; [|split; [|split; [|split; [|split; [|split]]]]].
    + destruct (pool_connect env); [destruct (db w) as [t|]|]; try apply Hdb.
      destruct (stored_email t _); apply Hdb.
    + destruct (pool_connect env); [destruct (db w) as [t|]|]; try apply Hdb.
      destruct (stored_email t _); apply Hdb.
    + destruct (pool_connect env); [destruct (db w) as [t|]|]; try apply Hgr.
      destruct (stored_email t _); apply Hgr.
    + destruct (pool_connect env); [destruct (db w) as [t|]|]; try apply Hgr.
      destruct (stored_email t _); apply Hgr.
    + discriminate.
    + intros _ Hup t Hd. rewrite Hup, Hd.
      destruct (stored_email t (user_of from)); split; reflexivity.
    + intros _ Hup. rewrite Hup. unfold log_to. rewrite world_eta.
      split; reflexivity.
Qed.

Lemma X13_witness :
  trace (snd (bot_command_email (env_with None true None) (Some 555%Z) world_555))
    = [EConnect; EQuery (QSelectEmail 555); ERelease;
       EReply (ReplyYourEmail a_at_b)].
Proof.
  destruct (X13_status_commands (env_with None true None) (Some 555%Z) world_555)
    as (_ & _ & _ & _ & _ & H & _).
  exact (proj2 (H eq_refl eq_refl linked_555 eq_refl)).
Defined.

(** The text handler on a qualifying message of an identified sender,
    while the store answers: result and calls. *)
Lemma on_text_exact {Tg} (env : Env Tg) (w : World Tg) t uid text :
  db w = Some t -> pool_connect env = true -> uid <> 0%Z ->
  qualifies text = true ->
  bot_on_text env (mkTextUpdate (Some uid) text) w
    = match stored_email t uid with
      | Some old =>
          (if sendMessage env (ReplyAlreadyLinked old) then Ok tt
           else Throw (ExnTelegram None),
           log_to w [EConnect; EQuery (QSelectEmail uid); ERelease;
                     EReply (ReplyAlreadyLinked old)])
      | None =>
          match sql_upsert (joined_at_default env) uid (trim text) t with
          | inl e =>
              (Throw (ExnStore e),
               log_to w [EConnect; EQuery (QSelectEmail uid); ERelease;
                         EConnect; EQuery (QUpsert uid (trim text)); ERelease])
          | inr t' =>
              (if sendMessage env (ReplyLinked (trim text)) then Ok tt
               else Throw (ExnTelegram None),
               mkWorld (Some t') (group w)
                 (trace w ++ [EConnect; EQuery (QSelectEmail uid); ERelease;
                              EConnect; EQuery (QUpsert uid (trim text)); ERelease;
                              EReply (ReplyLinked (trim text))]))
          end
      end.
Proof.
  intros Hd Hup Hid Hq.
  destruct (qualifies_spec text Hq) as (Hslash & Hat & Hdot & Hne).
  unfold bot_on_text. cbn [from_id message_text].
  rewrite (no_user_some uid Hid), Hslash, Hat, Hdot. cbn [andb negb user_of].
  unfold bind at 1. rewrite getEmail_exact.
  unfold read_email, select_email_trace, log_to. rewrite Hup, Hd.
  rewrite orNull_stored.
  destruct (stored_email t uid) as [old|].
  - rewrite reply_spec. cbn [db group trace]. now rewrite <- app_assoc.
  - unfold bind at 1.
    erewrite insert_up by (try eassumption; reflexivity). cbn [db group trace].
    destruct (sql_upsert (joined_at_default env) uid (trim text) t) as [e|t'].
    + now rewrite <- app_assoc.
    + rewrite reply_spec. cbn [db group trace]. now rewrite <- !app_assoc.
Qed.

(** X14.  The text handler reaches the store only for a qualifying message
    of an identified sender.  A sender without an id is told so, whatever
    the text, command or not; a text that starts with '/' once trimmed is
    dropped without any call; any other text that does not look like an
    e-mail gets the guidance reply. *)
Theorem X14_text_store_access {Tg} (env : Env Tg) ctx (w : World Tg) :
  (no_user (from_id ctx) = true ->
   snd (bot_on_text env ctx w) = log_to w [EReply ReplyCouldNotIdentify]) /\
  (no_user (from_id ctx) = false ->
   startsWith (trim (message_text ctx)) (js "/") = true ->
   bot_on_text env ctx w = (Ok tt, w)) /\
  (no_user (from_id ctx) = false ->
   startsWith (trim (message_text ctx)) (js "/") = false ->
   qualifies (message_text ctx) = false ->
   snd (bot_on_text env ctx w) = log_to w [EReply ReplyGuidance]) /\
  (store_queries (trace (snd (bot_on_text env ctx w))) <> store_queries (trace w) ->
   no_user (from_id ctx) = false /\ qualifies (message_text ctx) = true).
Proof.
  assert (Hquiet : forall r,
            store_queries (trace (log_to w [EReply r])) = store_queries (trace w)).
  { intros r. unfold log_to. cbn [trace]. rewrite store_queries_app. cbn.
    apply app_nil_r. }
  unfold bot_on_text, qualifies.
  destruct (no_user (from_id ctx)).
  - rewrite reply_spec. cbn [snd]. fold (log_to w [EReply ReplyCouldNotIdentify]).
    split; [reflexivity|]. split; [discriminate|]. split; [discriminate|].
    intros H. now rewrite Hquiet in H.
  - destruct (startsWith (trim (message_text ctx)) (js "/")); cbn [negb andb].
    + split; [discriminate|]. split; [reflexivity|]. split; [discriminate|].
      intros H. now destruct H.
    + destruct (includes _ (js "@") && includes _ (js ".")) eqn:Hmail; cbn [negb].
      * split; [discriminate|]. split; [discriminate|]. split; [discriminate|].
        intros _. split; reflexivity.
      * rewrite reply_spec. cbn [snd]. fold (log_to w [EReply ReplyGuidance]).
        split; [discriminate|]. split; [discriminate|]. split; [reflexivity|].
        intros H. now rewrite Hquiet in H.
Qed.

Lemma X14_witness :
  snd (bot_on_text (env_with None true None) (mkTextUpdate None (js "/start"))
         world_555)
    = log_to world_555 [EReply ReplyCouldNotIdentify].
Proof.
  exact (proj1 (X14_text_store_access (env_with None true None)
                  (mkTextUpdate None (js "/start")) world_555) eq_refl).
Defined.

(** X15.  The link is written before the confirmation is sent: when the
    confirmation cannot be delivered the handler throws and the Telegram
    route answers 400 "Bad Request", yet the row is in the table, and the
    same message delivered again is answered with the already-linked reply. *)
Theorem X15_link_survives_failed_reply {Tg} (env env2 : Env Tg) (w : World Tg)
    t t' uid text :
  db w = Some t -> pool_connect env = true -> uid <> 0%Z ->
  qualifies text = true ->
  stored_email t uid = None ->
  sql_upsert (joined_at_default env) uid (trim text) t = inr t' ->
  sendMessage env (ReplyLinked (trim text)) = false ->
  pool_connect env2 = true ->
  let ctx := mkTextUpdate (Some uid) text in
  let res := serve env (ReqText ctx) w in
  fst (bot_on_text env ctx w) = Throw (ExnTelegram None) /\
  fst res = Ok (mkResponse 400 BodyBadRequest) /\
  db (snd res) = Some t' /\
  stored_email t' uid = Some (trim text) /\
  replies (trace (snd (serve env2 (ReqText ctx) (snd res))))
    = replies (trace (snd res)) ++ [ReplyAlreadyLinked (trim text)] /\
  db (snd (serve env2 (ReqText ctx) (snd res))) = Some t'.
Proof.
  intros Hd Hup Hid Hq Hst Hu Hsend Hup2. cbv zeta.
  pose proof (on_text_exact env w t uid text Hd Hup Hid Hq) as E.
  rewrite Hst, Hu, Hsend in E.
  assert (Hst' : stored_email t' uid = Some (trim text)).
  { destruct (upsert_then_select _ _ _ _ _ Hu) as (r & Hhd & Hem).
    unfold stored_email. rewrite Hhd. cbn [option_map]. rewrite Hem.
    destruct (qualifies_spec text Hq) as (_ & _ & _ & Hne).
    now destruct (trim text). }
  cbn [serve]. rewrite route_exact, E. cbn [fst snd log_to db group trace].
  split; [reflexivity|]. split; [reflexivity|]. split; [reflexivity|].
  split; [exact Hst'|].
  rewrite route_exact.
  erewrite (on_text_exact env2 _ t' uid text) by first [eassumption | reflexivity].
  rewrite Hst'. unfold log_to. cbn [db group trace].
  destruct (sendMessage env2 _); cbn [snd db trace log_to];
    rewrite ?replies_app; cbn; rewrite ?app_nil_r; split; reflexivity.
Qed.

Lemma X15_witness :
  let env := mkEnv true (fun _ _ => None) (fun _ => None) (fun _ => None) true None
               member_ban member_unban (fun _ => false) None pg_lower in
  let res := serve env (ReqText (text_from 555 "a@b.com")) (started env []) in
  fst res = Ok (mkResponse 400 BodyBadRequest) /\ db (snd res) = Some linked_555.
Proof.
  cbv zeta.
  destruct (X15_link_survives_failed_reply
              (mkEnv true (fun _ _ => None) (fun _ => None) (fun _ => None) true None
                 member_ban member_unban (fun _ => false) None pg_lower)
              (env_with None true None)
              (started (env_with None true None) []) created_table linked_555
              555%Z (js "a@b.com")
              eq_refl eq_refl ltac:(discriminate) eq_refl eq_refl eq_refl eq_refl
              eq_refl)
    as (_ & H1 & H2 & _).
  split; [exact H1 | exact H2].
Defined.

(** X16.  When the e-mail an unlinked account sends is already stored for
    another account, the upsert is rejected by the unique index: the
    Telegram route answers 400 "Bad Request", the sender gets no reply at
    all, and the table is left as it is. *)
Theorem X16_email_taken {Tg} (env : Env Tg) (w : World Tg) t uid text :
  db w = Some t -> pool_connect env = true -> uid <> 0%Z ->
  qualifies text = true ->
  stored_email t uid = None ->
  existsb (owned_by_other uid (trim text)) (rows t) = true ->
  let res := serve env (ReqText (mkTextUpdate (Some uid) text)) w in
  fst res = Ok (mkResponse 400 BodyBadRequest) /\
  db (snd res) = db w /\
  replies (trace (snd res)) = replies (trace w) /\
  store_queries (trace (snd res))
    = store_queries (trace w) ++ [QSelectEmail uid; QUpsert uid (trim text)].
Proof.
  intros Hd Hup Hid Hq Hst Hown. cbv zeta.
  pose proof (on_text_exact env w t uid text Hd Hup Hid Hq) as E.
  rewrite Hst in E. unfold sql_upsert in E. rewrite Hown in E.
  cbn [serve]. rewrite route_exact, E. unfold log_to. cbn [fst snd db group trace].
  rewrite !replies_app, !store_queries_app. cbn. rewrite !app_nil_r.
  repeat split.
Qed.

Lemma X16_witness :
  let res := serve (env_with None true None) (ReqText (text_from 2 "a@b.com"))
               world_555 in
  fst res = Ok (mkResponse 400 BodyBadRequest) /\ db (snd res) = Some linked_555.
Proof.
  cbv zeta.
  destruct (X16_email_taken (env_with None true None) world_555 linked_555 2%Z
              (js "a@b.com") eq_refl eq_refl ltac:(discriminate) eq_refl eq_refl
              eq_refl) as (H1 & H2 & _).
  split; [exact H1 | exact H2].
Defined.

(** X17.  Link, then revoke: once an unlinked account has sent an e-mail
    that the database's [LOWER] maps to the image of no stored e-mail, a
    revoking event carrying an e-mail with that same image makes the
    webhook enter the Membership Enforcer with that account, and is
    answered 200 "OK".  [LOWER] is the one of the database's locale,
    whatever it folds. *)
Theorem X17_link_then_revoke {Tg} (env1 env2 : Env Tg) (w : World Tg)
    t uid text req event em :
  db w = Some t -> pool_connect env1 = true -> uid <> 0%Z ->
  qualifies text = true ->
  sql_select_email uid t = [] ->
  sql_select_id (LOWER env2) (trim text) t = [] ->
  authenticate env2 req = Some event ->
  is_revoking (ev_type event) = true ->
  resolved_email env2 (dataObject_of event) = Some em ->
  LOWER env2 em = LOWER env2 (trim text) ->
  em <> [] ->
  pool_connect env2 = true ->
  let w1 := snd (serve env1 (ReqText (mkTextUpdate (Some uid) text)) w) in
  let res := Part000.webhook env2 req w1 in
  fst res = Ok ok200 /\
  revokes (trace (snd res)) = revokes (trace w) ++ [uid].
Proof.
  intros Hd Hup Hid Hq Hsel Hnone Hauth Hrev Hem Hlow Hem_ne Hup2. cbv zeta.
  destruct (qualifies_spec text Hq) as (_ & _ & _ & Hne).
  assert (Hown : existsb (owned_by_other uid (trim text)) (rows t) = false).
  { destruct (existsb _ (rows t)) eqn:Hex; [|reflexivity].
    apply existsb_exists in Hex as (r & Hin & Hr).
    unfold owned_by_other in Hr. apply andb_true_iff in Hr as [_ Hr].
    apply jseqb_eq in Hr.
    assert (Hin' : In r (sql_select_id (LOWER env2) (trim text) t)).
    { apply filter_In. split; [assumption|]. rewrite Hr. apply jseqb_refl. }
    rewrite Hnone in Hin'. destruct Hin'. }
  assert (Hst : stored_email t uid = None)
    by (unfold stored_email; now rewrite Hsel).
  pose proof (on_text_exact env1 w t uid text Hd Hup Hid Hq) as E.
  rewrite Hst, (upsert_fresh _ uid (trim text) t Hsel Hown) in E.
  cbn [serve]. rewrite route_exact, E.
  set (link := mkRow uid (trim text) (insert_default (joined_at_default env1) t)) in *.
  set (t1 := mkTable (columns t) (rows t ++ [link])) in *.
  set (tr1 := trace w ++ [EConnect; EQuery (QSelectEmail uid); ERelease;
                            EConnect; EQuery (QUpsert uid (trim text)); ERelease;
                            EReply (ReplyLinked (trim text))]) in *.
  assert (Hw1 : exists w1 : World Tg,
            db w1 = Some t1 /\ revokes (trace w1) = revokes (trace w) /\
            snd (let (r, w') := (if sendMessage env1 (ReplyLinked (trim text))
                                 then Ok tt else Throw (ExnTelegram None),
                                 mkWorld (Some t1) (group w) tr1) in
                 match r with
                 | Ok _ => (Ok ok200, w')
                 | Throw e =>
                     (Ok (mkResponse 400 BodyBadRequest),
                      log_to w' [ELog SevError (MsgTelegramWebhookError e)])
                 end) = w1).
  { destruct (sendMessage env1 _); eexists; (split; [|split; [|reflexivity]]);
      cbn [snd db trace log_to]; try reflexivity;
      subst tr1; rewrite ?revokes_app; cbn; now rewrite ?app_nil_r. }
  destruct Hw1 as (w1 & Hd1 & Hr1 & ->).
  assert (Hlook : lookup_account env2 (db w1) em = Ok (Some uid)).
  { unfold lookup_account. rewrite Hup2, Hd1. unfold sql_select_id. subst t1.
    cbn [rows]. rewrite filter_app, Hlow.
    fold (sql_select_id (LOWER env2) (trim text) t). rewrite Hnone. cbn.
    now rewrite jseqb_refl. }
  destruct (webhook_authenticated env2 req w1 event Hauth) as (n & E2 & R & _).
  rewrite E2. cbn [fst snd trace].
  rewrite (revoke_target_resolved env2 event (db w1) em uid Hem Hem_ne Hlook), Hrev in R.
  rewrite revokes_app, R, Hr1. split; [|reflexivity].
  unfold ack. rewrite Hem. cbn [string_of]. rewrite Hlook.
  now destruct (truthy _).
Qed.

Lemma X17_witness :
  let env := env_with (Some (mkEvent (Some (js "charge.failed"))
                               (Some (mkDataObject (Some (js "A@B.COM")) None))))
                      true None in
  let w1 := snd (serve env (ReqText (text_from 555 "a@b.com")) (started env [555%Z])) in
  revokes (trace (snd (Part000.webhook env some_request w1))) = [555%Z].
Proof.
  cbv zeta.
  set (env := env_with (Some (mkEvent (Some (js "charge.failed"))
                                (Some (mkDataObject (Some (js "A@B.COM")) None))))
                       true None).
  exact (proj2 (X17_link_then_revoke env env (started env [555%Z]) created_table
                  555%Z (js "a@b.com") some_request
                  (mkEvent (Some (js "charge.failed"))
                     (Some (mkDataObject (Some (js "A@B.COM")) None)))
                  (js "A@B.COM")
                  eq_refl eq_refl ltac:(discriminate) eq_refl eq_refl eq_refl
                  eq_refl eq_refl eq_refl eq_refl ltac:(discriminate) eq_refl)).
Defined.

(** ** The dashboard *)

(** X18.  A dashboard request whose token is strictly equal to the
    configured one, on a table that has the [joined_at] column and while
    the store answers, is answered 200 with a page that lists every row of
    the table once, in descending order of [joined_at] exactly when the
    [order] parameter is the string "desc" and in ascending order for any
    other value; the page's link asks for the other direction. *)
Theorem X18_dashboard_listing {Tg} (env : Env Tg) req (w : World Tg) t :
  strict_equal (q_token req) (DASHBOARD_ACCESS_TOKEN env) ->
  db w = Some t -> pool_connect env = true -> hasColumn "joined_at" t = true ->
  let o := Part000.sortOrder_of (q_order req) in
  (o = DESC <-> q_order req = QString (js "desc")) /\
  exists listed,
    fst (Part000.dashboard env req w)
      = Ok (mkResponse 200
              (BodyDashboard (q_token req) (Part000.oppositeOrder_of o) listed)) /\
    Part000.oppositeOrder_of o <> o /\
    Permutation (rows t) listed /\
    sorted_by (Part000.is_desc o) listed.
Proof.
  intros Htok Hd Hup Hcol. cbv zeta. split.
  - unfold Part000.sortOrder_of.
    destruct (q_order req) as [|s|]; try (split; discriminate).
    destruct (Js.eqb s (js "desc")) eqn:Hs.
    + apply jseqb_eq in Hs. subst s. split; reflexivity.
    + split; [discriminate|]. intros [= ->]. now rewrite jseqb_refl in Hs.
  - unfold Part000.dashboard.
    destruct (Part000.token_differs _ _) eqn:Hg.
    { apply token_differs_spec in Hg. contradiction. }
    rewrite listing_spec, Hup, Hd. unfold sql_select_all. rewrite Hcol.
    eexists. split; [reflexivity|]. split; [|split].
    + now destruct (Part000.sortOrder_of _).
    + apply sort_rows_perm.
    + apply sort_rows_sorted.
Qed.

Lemma X18_witness :
  Part000.sortOrder_of (QString (js "DESC")) <> DESC.
Proof.
  intros H.
  destruct (X18_dashboard_listing (env_with None true (Some (js "secret")))
              (mkDashboardRequest (QString (js "secret")) (QString (js "DESC")))
              (mkWorld (Some dated_table) [] []) dated_table
              eq_refl eq_refl eq_refl eq_refl) as (Hdir & _).
  apply Hdir in H. discriminate H.
Defined.

(** X19.  The dashboard only reads: for every request it leaves the table
    and the group as they are, sends nothing to the messaging provider and
    no reply, and sends the store one statement, the listing query, only
    when the token gate is passed and the pool connects. *)
Theorem X19_dashboard_read_only {Tg} (env : Env Tg) req (w : World Tg) :
  let after := snd (Part000.dashboard env req w) in
  db after = db w /\ group after = group w /\
  telegram_calls (trace after) = telegram_calls (trace w) /\
  replies (trace after) = replies (trace w) /\
  store_queries (trace after)
    = store_queries (trace w)
      ++ (if negb (Part000.token_differs (q_token req) (DASHBOARD_ACCESS_TOKEN env))
             && pool_connect env
          then [QSelectAll (Part000.sortOrder_of (q_order req))] else []).
Proof.
  cbv zeta. unfold Part000.dashboard, Part000.listing.
  destruct (Part000.token_differs _ _); cbn [negb andb].
  - cbn. now rewrite app_nil_r.
  - run_monad. destruct (pool_connect env); cbn.
    + destruct (db w) as [t|]; cbn;
        [destruct (sql_select_all _ t); cbn|];
        rewrite ?telegram_calls_app, ?replies_app, ?store_queries_app; cbn;
        rewrite ?app_nil_r; repeat split.
    + rewrite ?telegram_calls_app, ?replies_app, ?store_queries_app; cbn;
        rewrite ?app_nil_r; repeat split.
Qed.

(** ** Configuration and start-up *)

(** X20.  Signature checking is on exactly when VERIFY_STRIPE_SIGNATURE is
    not set or is the string "true"; any other value, the empty string or
    "TRUE" included, turns it off.  With checking off the webhook never
    looks at the signature: the same body is handled the same way whatever
    the [stripe-signature] header holds, so a body that parses to a
    revoking event for a linked e-mail gets that account banned without
    any signature. *)
Theorem X20_signature_toggle {Tg} (p : ProcessEnv) (env : Env Tg) req sig
    (w : World Tg) :
  (verifySignature_of p = true <->
   VERIFY_STRIPE_SIGNATURE p = None \/ VERIFY_STRIPE_SIGNATURE p = Some (js "true")) /\
  (verifySignature env = false ->
   Part000.webhook env (mkWebhookRequest (raw_body req) sig) w
     = Part000.webhook env req w /\
   AppJs.webhook env (mkWebhookRequest (raw_body req) sig) w
     = AppJs.webhook env req w /\
   forall event em id,
     JSON_parse env (raw_body req) = Some (ParsedEvent event) ->
     is_revoking (ev_type event) = true ->
     resolved_email env (dataObject_of event) = Some em -> em <> [] ->
     lookup_account env (db w) em = Ok (Some id) ->
     revokes (trace (snd (Part000.webhook env
                            (mkWebhookRequest (raw_body req) sig) w)))
       = revokes (trace w) ++ [id]).
Proof.
  split.
  - unfold verifySignature_of, with_default.
    destruct (VERIFY_STRIPE_SIGNATURE p) as [v|].
    + rewrite jseqb_eq. split.
      * intros ->. now right.
      * intros [H|H]; [discriminate | now injection H].
    + split; [now left | reflexivity].
  - intros Hoff. split; [|split].
    + unfold Part000.webhook. rewrite Hoff. reflexivity.
    + unfold AppJs.webhook. rewrite Hoff. reflexivity.
    + intros event em id Hparse Hrev Hem Hne Hlook.
      assert (Hauth : authenticate env (mkWebhookRequest (raw_body req) sig)
                      = Some event)
        by (unfold authenticate, parsed_body; cbn [raw_body];
            now rewrite Hoff, Hparse).
      destruct (webhook_authenticated env _ w event Hauth) as (n & E & R & _).
      rewrite E. cbn [snd trace].
      rewrite (revoke_target_resolved env event (db w) em id Hem Hne Hlook), Hrev in R.
      now rewrite revokes_app, R.
Qed.

Lemma X20_witness :
  verifySignature_of
    (mkProcessEnv None None None None None None (Some (js "TRUE")) None None) = false.
Proof.
  destruct (X20_signature_toggle
              (mkProcessEnv None None None None None None (Some (js "TRUE")) None None)
              (env_with None true None) some_request None world_555) as [H _].
  destruct (verifySignature_of _) eqn:E; [|reflexivity].
  destruct (proj1 H eq_refl) as [H'|H']; discriminate H'.
Defined.

Lemma strip_slash (base : jsstring) :
  strip_trailing_slash (base ++ js "/") = base.
Proof.
  unfold strip_trailing_slash. rewrite rev_app_distr. cbn. apply rev_involutive.
Qed.

Lemma strip_no_slash (u : jsstring) :
  (forall base, u <> base ++ js "/") -> strip_trailing_slash u = u.
Proof.
  intros H. unfold strip_trailing_slash.
  destruct (rev u) as [|c r] eqn:Hr; [reflexivity|].
  destruct (N.eqb_spec c 47); [|reflexivity].
  exfalso. apply (H (rev r)). subst c.
  rewrite <- (rev_involutive u), Hr. reflexivity.
Qed.

(** X21.  The URL registered with Telegram is RENDER_URL with one final
    '/' dropped, followed by the route's path, so it points at the route
    the application serves.  GET /status reports RENDER_URL as it is
    followed by the same path: the two URLs are equal exactly when
    RENDER_URL does not end with '/'. *)
Theorem X21_webhook_urls (p : ProcessEnv) :
  (forall base, RENDER_URL p = Some (base ++ js "/") ->
                WEBHOOK_URL p = base ++ telegram_path p) /\
  (forall u, RENDER_URL p = Some u -> (forall base, u <> base ++ js "/") ->
             WEBHOOK_URL p = u ++ telegram_path p) /\
  (status_webhook p = WEBHOOK_URL p <->
   forall base, string_of (RENDER_URL p) <> base ++ js "/") /\
  (WEBHOOK_SECRET_PATH p = None -> telegram_path p = js "/telegram").
Proof.
  unfold WEBHOOK_URL, status_webhook, telegram_path.
  split; [|split; [|split]].
  - intros base ->. cbn [string_of]. now rewrite strip_slash.
  - intros u -> Hu. cbn [string_of]. now rewrite strip_no_slash.
  - split.
    + intros H base Hb. apply app_inv_tail in H. rewrite Hb, strip_slash in H.
      apply (f_equal (@List.length N)) in H. rewrite length_app in H.
      cbn in H. lia.
    + intros H. now rewrite strip_no_slash.
  - intros Hp. unfold secret_path. now rewrite Hp.
Qed.

Lemma X21_witness :
  WEBHOOK_URL example_env = js "https://x.onrender.com/telegram" /\
  status_webhook example_env = js "https://x.onrender.com//telegram".
Proof.
  split; [|reflexivity].
  destruct (X21_webhook_urls example_env) as (H & _).
  exact (H (js "https://x.onrender.com") eq_refl).
Defined.

Lemma missing_required_spec (p : ProcessEnv) :
  missing_required p = false <->
  truthy (TELEGRAM_BOT_TOKEN p) = true /\ truthy (RENDER_URL p) = true /\
  truthy (STRIPE_SECRET_KEY p) = true /\ truthy (STRIPE_WEBHOOK_SECRET p) = true /\
  truthy (DATABASE_URL p) = true /\ truthy (TELEGRAM_GROUP_ID p) = true.
Proof.
  unfold missing_required.
  rewrite !orb_false_iff, !negb_false_iff. tauto.
Qed.

(** X22.  The server starts listening exactly when the six required
    variables are set and not empty and [initDb] succeeds; it then has
    asked Telegram once to register the webhook URL and listens whether or
    not that registration was accepted, on a table that exists and that
    kept the rows it had.  With a required variable missing the module
    throws before anything else; when [initDb] fails the process logs and
    exits with code 1 without asking Telegram for anything. *)
Theorem X22_boot {Tg} (env : Env Tg) (p : ProcessEnv) (registered : bool)
    (w : World Tg) :
  let res := boot env p registered w in
  (listens (fst res) = true <->
   (truthy (TELEGRAM_BOT_TOKEN p) = true /\ truthy (RENDER_URL p) = true /\
    truthy (STRIPE_SECRET_KEY p) = true /\ truthy (STRIPE_WEBHOOK_SECRET p) = true /\
    truthy (DATABASE_URL p) = true /\ truthy (TELEGRAM_GROUP_ID p) = true) /\
   pool_connect env = true) /\
  (listens (fst res) = true ->
   registrations (fst res) = [WEBHOOK_URL p] /\
   db (snd res) <> None /\
   (forall t, db w = Some t -> db (snd res) = Some t)) /\
  (missing_required p = true -> res = (BootThrows, w)) /\
  (missing_required p = false -> pool_connect env = false ->
   res = (Booted [BootLogStartFailed (ExnStore ConnectFailed); BootExit 1], w)).
Proof.
  cbv zeta. rewrite <- missing_required_spec. unfold boot.
  destruct (missing_required p).
  - cbn. repeat split; try discriminate. now intros [? _].
  - unfold initDb. run_monad. destruct (pool_connect env); cbn.
    + split; [|split; [|split]]; try discriminate.
      * destruct registered; cbn; tauto.
      * intros _. split; [now destruct registered|]. split.
        -- now destruct (db w).
        -- now intros t ->.
    + split; [|split; [|split]]; try discriminate.
      * split; [discriminate | now intros [_ ?]].
      * reflexivity.
Qed.

Lemma X22_witness :
  listens (fst (boot (env_with None true None) example_env false world_555)) = true /\
  db (snd (boot (env_with None true None) example_env false world_555))
    = Some linked_555.
Proof.
  destruct (X22_boot (env_with None true None) example_env false world_555)
    as (Hl & Hr & _).
  assert (H : listens (fst (boot (env_with None true None) example_env false
                              world_555)) = true).
  { apply Hl. repeat split. }
  split; [exact H|].
  destruct (Hr H) as (_ & _ & Hkeep). exact (Hkeep linked_555 eq_refl).
Defined.

(** ** Two accounts, one e-mail up to case *)

(** X23.  The unique index compares e-mails exactly while the webhook's
    lookup compares them under the database's [LOWER]: an unlinked account
    can link an e-mail that another account holds in a different letter
    case, both rows are then in the table, and a revoking event for a
    non-empty e-mail with the same image under [LOWER] bans exactly one
    account. *)
Theorem X23_case_variant_accounts {Tg} (env1 env2 : Env Tg) (w : World Tg)
    t uid text r1 req event em :
  db w = Some t -> pool_connect env1 = true -> uid <> 0%Z ->
  qualifies text = true ->
  sql_select_email uid t = [] ->
  In r1 (rows t) ->
  LOWER env2 (email r1) = LOWER env2 (trim text) ->
  existsb (owned_by_other uid (trim text)) (rows t) = false ->
  authenticate env2 req = Some event ->
  is_revoking (ev_type event) = true ->
  resolved_email env2 (dataObject_of event) = Some em ->
  LOWER env2 em = LOWER env2 (trim text) ->
  em <> [] ->
  pool_connect env2 = true ->
  let w1 := snd (serve env1 (ReqText (mkTextUpdate (Some uid) text)) w) in
  let res := Part000.webhook env2 req w1 in
  (exists t1 r2,
      db w1 = Some t1 /\ In r1 (rows t1) /\ In r2 (rows t1) /\
      telegram_id r2 = uid /\ email r2 = trim text /\
      telegram_id r1 <> uid) /\
  exists id, revokes (trace (snd res)) = revokes (trace w) ++ [id].
Proof.
  intros Hd Hup Hid Hq Hsel Hin1 Hlow1 Hown Hauth Hrev Hem Hlow Hem_ne Hup2.
  cbv zeta.
  destruct (qualifies_spec text Hq) as (_ & _ & _ & Hne).
  assert (Hst : stored_email t uid = None)
    by (unfold stored_email; now rewrite Hsel).
  pose proof (on_text_exact env1 w t uid text Hd Hup Hid Hq) as E.
  rewrite Hst, (upsert_fresh _ uid (trim text) t Hsel Hown) in E.
  cbn [serve]. rewrite route_exact, E.
  set (link := mkRow uid (trim text) (insert_default (joined_at_default env1) t)) in *.
  set (t1 := mkTable (columns t) (rows t ++ [link])) in *.
  set (tr1 := trace w ++ [EConnect; EQuery (QSelectEmail uid); ERelease;
                            EConnect; EQuery (QUpsert uid (trim text)); ERelease;
                            EReply (ReplyLinked (trim text))]) in *.
  assert (Hw1 : exists w1 : World Tg,
            db w1 = Some t1 /\ revokes (trace w1) = revokes (trace w) /\
            snd (let (r, w') := (if sendMessage env1 (ReplyLinked (trim text))
                                 then Ok tt else Throw (ExnTelegram None),
                                 mkWorld (Some t1) (group w) tr1) in
                 match r with
                 | Ok _ => (Ok ok200, w')
                 | Throw e =>
                     (Ok (mkResponse 400 BodyBadRequest),
                      log_to w' [ELog SevError (MsgTelegramWebhookError e)])
                 end) = w1).
  { destruct (sendMessage env1 _); eexists; (split; [|split; [|reflexivity]]);
      cbn [snd db trace log_to]; try reflexivity;
      subst tr1; rewrite ?revokes_app; cbn; now rewrite ?app_nil_r. }
  destruct Hw1 as (w1 & Hd1 & Hr1 & ->).
  split.
  - exists t1, link. rewrite Hd1. subst t1. cbn [rows].
    rewrite !in_app_iff. repeat split; auto; [right; now left|].
    intros Hsame.
    assert (Hin : In r1 (sql_select_email uid t)).
    { apply filter_In. split; [assumption|]. now apply Z.eqb_eq. }
    rewrite Hsel in Hin. destruct Hin.
  - assert (Hex : existsb (fun r => Js.eqb (LOWER env2 (email r)) (LOWER env2 em))
                    (rows t1) = true).
    { apply existsb_exists. exists r1. split.
      - subst t1. cbn [rows]. apply in_app_iff. now left.
      - rewrite Hlow1, Hlow. apply jseqb_refl. }
    destruct (hd_filter _ _ Hex) as (x & Hhd & _).
    assert (Hlook : lookup_account env2 (db w1) em = Ok (Some (telegram_id x))).
    { unfold lookup_account, sql_select_id. now rewrite Hup2, Hd1, Hhd. }
    destruct (webhook_authenticated env2 req w1 event Hauth) as (n & E2 & R & _).
    rewrite E2. cbn [snd trace].
    rewrite (revoke_target_resolved env2 event (db w1) em _ Hem Hem_ne Hlook), Hrev
      in R.
    exists (telegram_id x). now rewrite revokes_app, R, Hr1.
Qed.

Lemma X23_witness :
  let env := env_with (Some payment_failed_event) true None in
  let w1 := snd (serve env (ReqText (text_from 7 "A@B.com")) world_555) in
  map telegram_id
    (match db w1 with Some t1 => rows t1 | None => [] end) = [555%Z; 7%Z] /\
  List.length (revokes (trace (snd (Part000.webhook env some_request w1)))) = 1%nat.
Proof.
  cbv zeta. split; [reflexivity|].
  destruct (X23_case_variant_accounts
              (env_with (Some payment_failed_event) true None)
              (env_with (Some payment_failed_event) true None)
              world_555 linked_555 7%Z (js "A@B.com") (mkRow 555 a_at_b None)
              some_request payment_failed_event a_at_b
              eq_refl eq_refl ltac:(discriminate) eq_refl eq_refl
              (or_introl eq_refl) eq_refl eq_refl eq_refl eq_refl eq_refl eq_refl
              ltac:(discriminate) eq_refl) as (_ & id & H).
  unfold text_from. rewrite H. reflexivity.
Defined.

(** X24.  The webhook of app.js leaves a request without any response in
    exactly two cases.  Either the body parsed to [null]: the handler's
    promise is then rejected with a TypeError before any call is made and
    before anything is logged.  Or the event is authenticated, of a
    revoking type, its e-mail resolved and the store lookup raised: the
    promise is then rejected with the store's exception, after the lookup
    and before any call to the messaging provider. *)
Theorem X24_appjs_unanswered {Tg} (env : Env Tg) req (w : World Tg) :
  (forall e, fst (AppJs.webhook env req w) = Throw e ->
     (parsed_body env req = Some ParsedNull /\ e = ExnType /\
      snd (AppJs.webhook env req w) = w) \/
     exists event,
       authenticate env req = Some event /\
       lookup_raises_appjs env event (db w) = true /\
       lookup_account env (db w)
         (string_of (resolved_email env (dataObject_of event))) = Throw e /\
       telegram_calls (trace (snd (AppJs.webhook env req w)))
         = telegram_calls (trace w)) /\
  (parsed_body env req = Some ParsedNull ->
   fst (AppJs.webhook env req w) = Throw ExnType) /\
  (forall event,
     authenticate env req = Some event ->
     lookup_raises_appjs env event (db w) = true ->
     exists e, fst (AppJs.webhook env req w) = Throw e).
Proof.
  split; [|split].
  - intros e He. destruct (parsed_body env req) as [[|event]|] eqn:Hp.
    + left. rewrite webhook_null_appjs in * by assumption. cbn in *.
      injection He as <-. repeat split.
    + right. pose proof (proj2 (authenticate_parsed env req event) Hp) as Hauth.
      rewrite webhook_exact_appjs in *. cbn [fst snd trace] in *.
      rewrite Hp in He.
      exists event. split; [assumption|].
      unfold webhook_trace_appjs. rewrite Hp.
      destruct (reconcile_trace_observed env event (db w) (group w))
        as (_ & _ & _ & _ & _ & _ & _ & T).
      rewrite telegram_calls_app, T.
      unfold ack_appjs, lookup_raises_appjs, lookup_raises, revoke_target in *.
      destruct (is_revoking (ev_type event)); cbn [andb] in *; [|discriminate].
      destruct (truthy _); cbn [andb] in *; [|discriminate].
      destruct (lookup_account _ _ _) as [r|e']; [discriminate|].
      injection He as ->. rewrite app_nil_r. repeat split.
    + rewrite webhook_rejected_appjs in He by assumption. discriminate.
  - intros Hnull. now rewrite webhook_null_appjs.
  - intros event Hauth Hraise.
    rewrite webhook_exact_appjs. cbn [fst].
    rewrite (proj1 (authenticate_parsed env req event) Hauth).
    unfold ack_appjs, lookup_raises_appjs, lookup_raises in *.
    destruct (is_revoking (ev_type event)); cbn [andb] in *; [|discriminate].
    destruct (truthy _); cbn [andb] in *; [|discriminate].
    destruct (lookup_account _ _ _) as [r|e']; [discriminate|]. now exists e'.
Qed.

Lemma X24_witness :
  fst (AppJs.webhook (env_with (Some payment_failed_event) false None)
         some_request world_555) = Throw (ExnStore ConnectFailed) /\
  fst (AppJs.webhook null_env some_request world_555) = Throw ExnType.
Proof.
  split.
  - destruct (X24_appjs_unanswered (env_with (Some payment_failed_event) false None)
                some_request world_555) as (_ & _ & H).
    destruct (H payment_failed_event eq_refl eq_refl) as (e & He).
    rewrite He. revert He. cbn. now intros [= <-].
  - destruct (X24_appjs_unanswered null_env some_request world_555) as (_ & H & _).
    exact (H eq_refl).
Defined.

Lemma X9_witness :
  retrieves
    (trace (snd (Part000.webhook
                   (env_with (Some (mkEvent (Some (js "charge.failed"))
                                      (Some (mkDataObject None (Some (js "cus_1"))))))
                             true None)
                   some_request world_555)))
  = [js "cus_1"].
Proof.
  exact (proj1 (X9_stripe_side_call
                  (env_with (Some (mkEvent (Some (js "charge.failed"))
                                     (Some (mkDataObject None (Some (js "cus_1"))))))
                            true None)
                  some_request world_555)).
Defined.

Lemma X12_witness :
  fst (AppJs.removeUserFromGroup (env_with None true None) 7 world_555) = Ok tt.
Proof.
  exact (proj1 (X12_appjs_kick (env_with None true None) 7%Z world_555)).
Defined.

Lemma X19_witness :
  db (snd (Part000.dashboard (env_with None true None)
             (mkDashboardRequest QUndefined QUndefined) world_555))
    = Some linked_555.
Proof.
  exact (proj1 (X19_dashboard_read_only (env_with None true None)
                  (mkDashboardRequest QUndefined QUndefined) world_555)).
Defined.

(** ** Pool clients *)

Lemma checked_out_app (a b : list Effect) :
  checked_out (a ++ b) = (checked_out a + checked_out b)%Z.
Proof.
  unfold checked_out, connects, releases.
  rewrite !filter_app, !length_app. lia.
Qed.

Lemma gives_back_ret {Tg A} (a : A) : gives_back (@ret Tg A a).
Proof. intros w. reflexivity. Qed.

Lemma gives_back_throw {Tg A} e : gives_back (@throw Tg A e).
Proof. intros w. reflexivity. Qed.

Lemma gives_back_bind {Tg A B} (m : M Tg A) (k : A -> M Tg B) :
  gives_back m -> (forall a, gives_back (k a)) -> gives_back (bind m k).
Proof.
  intros Hm Hk w. unfold bind. specialize (Hm w).
  destruct (m w) as [[a|e] w']; cbn [snd] in *; [|assumption].
  now rewrite Hk.
Qed.

Lemma gives_back_try_catch {Tg A} (m : M Tg A) (h : Exn -> M Tg A) :
  gives_back m -> (forall e, gives_back (h e)) -> gives_back (try_catch m h).
Proof.
  intros Hm Hh w. unfold try_catch. specialize (Hm w).
  destruct (m w) as [[a|e] w']; cbn [snd] in *; [assumption|].
  now rewrite Hh.
Qed.

Lemma gives_back_console {Tg} sev msg : gives_back (@console Tg sev msg).
Proof.
  intros w. unfold console, emit. cbn [snd trace].
  rewrite checked_out_app. cbn. lia.
Qed.

Lemma gives_back_reply {Tg} (env : Env Tg) r : gives_back (reply env r).
Proof.
  intros w. unfold reply, bind, emit, ret, throw. cbn.
  destruct (sendMessage env r); cbn; rewrite checked_out_app; cbn; lia.
Qed.

Lemma gives_back_ban {Tg} (env : Env Tg) id :
  gives_back (telegram_call (EBan id) (banChatMember env id)).
Proof.
  intros w. unfold telegram_call, bind, emit. cbn.
  destruct (banChatMember env id (group w)) as [[|d] g]; cbn;
    rewrite checked_out_app; cbn; lia.
Qed.

Lemma gives_back_unban {Tg} (env : Env Tg) id :
  gives_back (telegram_call (EUnban id) (unbanChatMember env id)).
Proof.
  intros w. unfold telegram_call, bind, emit. cbn.
  destruct (unbanChatMember env id (group w)) as [[|d] g]; cbn;
    rewrite checked_out_app; cbn; lia.
Qed.

(** [connect; try { query } finally { release }]. *)
Lemma gives_back_client {Tg A} (env : Env Tg) (m : M Tg A) :
  gives_back m -> gives_back (connect env ;; finally m release).
Proof.
  intros Hm w. unfold connect, bind, finally, release, emit, throw.
  destruct (pool_connect env); cbn [snd trace]; [|reflexivity].
  specialize (Hm (mkWorld (db w) (group w) (trace w ++ [EConnect]))).
  destruct (m _) as [r w']. cbn [snd trace] in *.
  rewrite checked_out_app, Hm, checked_out_app. cbn. lia.
Qed.

Lemma gives_back_query {Tg A} q (m : M Tg A) :
  gives_back m -> gives_back (emit (EQuery q) ;; m).
Proof.
  intros Hm w. unfold bind, emit. cbn. rewrite Hm. cbn.
  rewrite checked_out_app. cbn. lia.
Qed.

Lemma gives_back_with_table {Tg A} (f : Table -> M Tg A) :
  (forall t, gives_back (f t)) -> gives_back (with_table f).
Proof.
  intros Hf w. unfold with_table. destruct (db w); [apply Hf | reflexivity].
Qed.

Lemma gives_back_set_db {Tg} t : gives_back (@set_db Tg t).
Proof. intros w. reflexivity. Qed.

Create HintDb pool.
#[local] Hint Resolve gives_back_ret gives_back_throw gives_back_console
  gives_back_reply gives_back_ban gives_back_unban gives_back_set_db : pool.

Ltac pool_step :=
  first [ solve [auto with pool]
        | apply gives_back_client | apply gives_back_query
        | apply gives_back_with_table; intros ?
        | apply gives_back_bind; [|intros ?]
        | apply gives_back_try_catch; [|intros ?]
        | match goal with
          | |- gives_back (match ?x with _ => _ end) => destruct x
          | |- gives_back (if ?c then _ else _) => destruct c
          end ].

Lemma gives_back_initDb {Tg} (env : Env Tg) : gives_back (initDb env).
Proof.
  unfold initDb. repeat pool_step. intros w. reflexivity.
Qed.

Lemma gives_back_insert {Tg} (env : Env Tg) id em :
  gives_back (insertOrUpdateUser env id em).
Proof. unfold insertOrUpdateUser. repeat pool_step. Qed.

Lemma gives_back_getEmail {Tg} (env : Env Tg) id :
  gives_back (getEmailByUser env id).
Proof. unfold getEmailByUser. repeat pool_step. Qed.

Lemma gives_back_getTelegramId {Tg} (env : Env Tg) em :
  gives_back (getTelegramIdByEmail env em).
Proof. unfold getTelegramIdByEmail. repeat pool_step. Qed.

#[local] Hint Resolve gives_back_initDb gives_back_insert gives_back_getEmail
  gives_back_getTelegramId : pool.

Lemma gives_back_handlers {Tg} (env : Env Tg) from ctx :
  gives_back (bot_start env from) /\
  gives_back (bot_command_email env from) /\
  gives_back (bot_on_text env ctx).
Proof.
  unfold bot_start, bot_command_email, bot_on_text.
  repeat split; cbv zeta; repeat pool_step.
Qed.

Lemma gives_back_route {Tg} (h : M Tg unit) :
  gives_back h -> gives_back (telegram_route h).
Proof. intros H. unfold telegram_route. repeat pool_step. Qed.

Lemma gives_back_kick {Tg} (env : Env Tg) id :
  gives_back (Part000.removeUserFromGroup env id) /\
  gives_back (AppJs.removeUserFromGroup env id).
Proof.
  unfold Part000.removeUserFromGroup, AppJs.removeUserFromGroup.
  split; repeat pool_step.
Qed.

Lemma gives_back_resolve {Tg} (env : Env Tg) o : gives_back (resolve_email env o).
Proof.
  unfold resolve_email. cbv zeta. repeat pool_step.
  intros w. unfold emit. cbn. rewrite checked_out_app. cbn. lia.
Qed.

Lemma gives_back_webhook {Tg} (env : Env Tg) req :
  gives_back (Part000.webhook env req) /\ gives_back (AppJs.webhook env req).
Proof.
  pose proof (fun id => proj1 (gives_back_kick env id)) as K1.
  pose proof (fun id => proj2 (gives_back_kick env id)) as K2.
  pose proof (gives_back_resolve env) as R.
  unfold Part000.webhook, AppJs.webhook, with_event,
    Part000.reconcile, AppJs.reconcile.
  split; cbv zeta; repeat pool_step; auto.
Qed.

Lemma listing_pool {Tg} (env : Env Tg) req (w : World Tg) :
  checked_out (trace (snd (Part000.dashboard env req w)))
    = (checked_out (trace w)
       + if listing_leaks env req (db w) then 1 else 0)%Z.
Proof.
  unfold listing_leaks, query_rejected, Part000.dashboard, Part000.listing.
  destruct (Part000.token_differs _ _); cbn [negb andb].
  - cbn. lia.
  - unfold try_catch, bind, connect, with_table, release, console, emit, ret, throw.
    destruct (pool_connect env); cbn [andb fst snd db group trace].
    + destruct (db w) as [t|]; cbn [fst snd db group trace].
      * unfold sql_select_all.
        destruct (hasColumn "joined_at" t); cbn [negb fst snd db group trace];
          rewrite !checked_out_app; cbn; lia.
      * rewrite !checked_out_app. cbn. lia.
    + rewrite ?checked_out_app. cbn. lia.
Qed.

Lemma serve_pool {Tg} (env : Env Tg) r (w : World Tg) :
  checked_out (trace (snd (serve env r w)))
    = (checked_out (trace w)
       + match r with
         | ReqDashboard req => if listing_leaks env req (db w) then 1 else 0
         | _ => 0
         end)%Z.
Proof.
  destruct r as [from|from|ctx|req|req]; cbn [serve].
  - rewrite (gives_back_route _ (proj1 (gives_back_handlers env from (mkTextUpdate None []))) w). lia.
  - rewrite (gives_back_route _ (proj1 (proj2 (gives_back_handlers env from (mkTextUpdate None [])))) w). lia.
  - rewrite (gives_back_route _ (proj2 (proj2 (gives_back_handlers env None ctx))) w). lia.
  - rewrite (proj1 (gives_back_webhook env req) w). lia.
  - apply listing_pool.
Qed.

Lemma started_pool {Tg} (env0 : Env Tg) (g : Tg) :
  checked_out (trace (started env0 g)) = 0%Z.
Proof. unfold started. now rewrite gives_back_initDb. Qed.

Lemma run_app {Tg} (a b : list (Env Tg * Request)) (w : World Tg) :
  run (a ++ b) w = run b (run a w).
Proof.
  revert w. induction a as [|[env r] a IH]; intros w; [reflexivity|].
  cbn. apply IH.
Qed.

Lemma listings_leak {Tg} (env0 env : Env Tg) (g : Tg) req n :
  Part000.token_differs (q_token req) (DASHBOARD_ACCESS_TOKEN env) = false ->
  pool_connect env = true ->
  forall reqs,
    checked_out (trace (run (repeat (env, ReqDashboard req) n)
                          (run reqs (started env0 g))))
      = (checked_out (trace (run reqs (started env0 g))) + Z.of_nat n)%Z.
Proof.
  intros Hgate Hup. induction n as [|n IH]; intros reqs; [cbn; lia|].
  cbn [repeat run].
  replace (snd (serve env (ReqDashboard req) (run reqs (started env0 g))))
    with (run (reqs ++ [(env, ReqDashboard req)]) (started env0 g))
    by (now rewrite run_app).
  rewrite IH, run_app. cbn [run]. rewrite serve_pool.
  unfold listing_leaks, query_rejected. rewrite Hgate, Hup. cbn [negb andb].
  destruct (db (run reqs (started env0 g))) as [t|] eqn:Hd; [|lia].
  rewrite (created_table_has_no_joined_at env0 g reqs t Hd). cbn [negb]. lia.
Qed.

(** X25.  Every handler gives back each pool client it takes, whether its
    statement succeeds or throws, with one exception: a dashboard request
    that passes the token gate, gets a client and has its query rejected
    leaves that client checked out.  [initDb] and the webhook of app.js
    give back theirs as well.  On a database the program itself
    initialised every dashboard request that passes the gate and gets a
    client is such a request: [n] of them, after whatever requests were
    served before, leave [n] more clients checked out. *)
Theorem X25_pool_clients {Tg} (env0 env : Env Tg) (g : Tg) (w : World Tg) :
  (forall r,
     checked_out (trace (snd (serve env r w)))
       = (checked_out (trace w)
          + match r with
            | ReqDashboard req => if listing_leaks env req (db w) then 1 else 0
            | _ => 0
            end)%Z) /\
  (forall req, gives_back (AppJs.webhook env req)) /\
  gives_back (initDb env) /\
  (forall req reqs n,
     Part000.token_differs (q_token req) (DASHBOARD_ACCESS_TOKEN env) = false ->
     pool_connect env = true ->
     checked_out (trace (run (reqs ++ repeat (env, ReqDashboard req) n)
                           (started env0 g)))
       = (checked_out (trace (run reqs (started env0 g))) + Z.of_nat n)%Z).
Proof.
  split; [|split; [|split]].
  - intros r. apply serve_pool.
  - intros req. apply gives_back_webhook.
  - apply gives_back_initDb.
  - intros req reqs n Hgate Hup. rewrite run_app. now apply listings_leak.
Qed.

Lemma X25_witness :
  let env := env_with None true None in
  checked_out
    (trace (run (repeat (env, ReqDashboard (mkDashboardRequest QUndefined QUndefined))
                   10)
              (started env []))) = 10%Z.
Proof.
  cbv zeta.
  destruct (X25_pool_clients (env_with None true None) (env_with None true None)
              [] world_555) as (_ & _ & _ & H).
  exact (H (mkDashboardRequest QUndefined QUndefined) [] 10%nat eq_refl eq_refl).
Defined.
